(** * GLWidget: the frame orchestrator and view controller of the volume raycaster

    A shallow embedding of [src/GLWidget.cpp].  The widget is a record of its
    member variables together with the OpenGL context it drives; every member
    function is a computation in a small state-and-failure monad over that
    record (failure = dereferencing a null pointer).

    Numbers are modelled as the code has them:
    - [int] is a [Z] with 32-bit two's complement wrap-around written out;
    - [float] is IEEE-754 binary32, given by the Standard Library's executable
      specification [SpecFloat] at precision 24 and maximal exponent 128;
    - [double] (the argument of the range setters) is binary64 in the same
      specification before it is narrowed to [float].

    The declarations of the members live in [GLWidget.h].  The two rotation
    angles are only known to be of an arithmetic type that converts from [int];
    the embedding is therefore parametric in that type (class [Scalar]) and is
    instantiated both at [int] and at [float]. *)

From Stdlib Require Import ZArith Lia Bool.
From Stdlib Require Import Floats.SpecFloat.
From stdpp Require Import base strings gmap list.

Local Open Scope Z_scope.

(** ** Machine integers *)

Module Int32.
Definition half_modulus : Z := 2 ^ 31.
Definition modulus : Z := 2 ^ 32.

(** Two's complement reduction of a mathematical integer to [int]. *)
Definition wrap (z : Z) : Z := (z + half_modulus) mod modulus - half_modulus.

Definition add (a b : Z) : Z := wrap (a + b).
Definition sub (a b : Z) : Z := wrap (a - b).
Definition neg (a : Z) : Z := wrap (- a).

Definition in_range (z : Z) : Prop := - half_modulus <= z < half_modulus.
End Int32.

(** ** Single precision floating point *)

Module F32.
Definition prec : Z := 24.
Definition emax : Z := 128.

Definition t : Type := spec_float.

(** Conversion [int -> float] (round to nearest, ties to even). *)
Definition of_int (n : Z) : t := binary_normalize prec emax n 0 false.

(** Narrowing conversion [double -> float]. *)
Definition of_double (d : spec_float) : t := SFldexp prec emax d 0.

Definition add : t -> t -> t := SFadd prec emax.
Definition sub : t -> t -> t := SFsub prec emax.
Definition div : t -> t -> t := SFdiv prec emax.

Definition ltb : t -> t -> bool := SFltb.
Definition leb : t -> t -> bool := SFleb.
(** [a > b] of C++: true exactly when the comparison yields "greater". *)
Definition gtb (a b : t) : bool :=
  match SFcompare a b with Some Gt => true | _ => false end.

Definition is_nan (x : t) : bool :=
  match x with S754_nan => true | _ => false end.
Definition is_finite (x : t) : bool :=
  match x with S754_zero _ | S754_finite _ _ _ => true | _ => false end.

(** The literals of the source.  [0.8f] and [1.8f] are the binary32 numbers
    nearest to the decimals; the others are exact. *)
Definition zero : t := S754_zero false.          (* 0.0f *)
Definition lit_0_8 : t := S754_finite false 13421773 (-24). (* 0.8f  *)
Definition lit_1_8 : t := S754_finite false 15099494 (-23). (* 1.8f  *)
Definition lit_3 : t := S754_finite false 12582912 (-22).   (* 3.f   *)
Definition lit_40 : t := S754_finite false 10485760 (-18).  (* 40.f  *)
Definition lit_60 : t := S754_finite false 15728640 (-18).  (* 60.f  *)
Definition lit_256 : t := S754_finite false 8388608 (-15).  (* 256.0f *)
Definition one : t := S754_finite false 8388608 (-23).      (* 1.0f  *)

(** [lo <= x <= hi]; false as soon as [x] is not a number. *)
Definition between (lo hi x : t) : bool := leb lo x && leb x hi.
End F32.

(** ** Arithmetic type of the rotation angles

    The operations are those the source applies to [volumeRotAngleX] and
    [volumeRotAngleY]: conversion of an [int] operand (the usual arithmetic
    conversions), [+=], [-], [<] and [>]. *)

Class Scalar (A : Type) : Type := {
  of_int : Z -> A;
  s_add : A -> A -> A;
  s_sub : A -> A -> A;
  s_ltb : A -> A -> bool;
  s_gtb : A -> A -> bool;
  (** [lo <= x <= hi], used to state ranges *)
  s_between : A -> A -> A -> bool;
}.

#[export] Instance int_scalar : Scalar Z := {|
  of_int := fun n => n;
  s_add := Int32.add;
  s_sub := Int32.sub;
  s_ltb := Z.ltb;
  s_gtb := Z.gtb;
  s_between := fun lo hi x => (lo <=? x) && (x <=? hi);
|}.

#[export] Instance float_scalar : Scalar F32.t := {|
  of_int := F32.of_int;
  s_add := F32.add;
  s_sub := F32.sub;
  s_ltb := F32.ltb;
  s_gtb := F32.gtb;
  s_between := F32.between;
|}.

(** ** Values supplied by Qt *)

Record QPoint : Type := mkPoint { px : Z; py : Z }.

(** [QVector3D] stores three [float]s. *)
Record QVector3D : Type := mkVec3 { xp : F32.t; yp : F32.t; zp : F32.t }.

(** [QColor]: the 8-bit channels returned by [red()], [green()], [blue()]. *)
Record QColor : Type := mkColor { red : Z; green : Z; blue : Z }.

(** [QImage]: a null image (nothing could be loaded) or rows of RGB pixels. *)
Inductive QImage : Type :=
| NullImage
| Pixels (w h : Z) (rgb : list (Z * Z * Z)).

(** [Volume]: the voxel grid handed over by the loader. *)
Record Volume : Type := mkVolume {
  getWidth : Z;
  getHeight : Z;
  getDepth : Z;
  getVoxels : list F32.t;
}.

Inductive techniques : Type := MIP | ALPHA | AVERAGE.

(** [QMouseEvent]: position, pressed buttons and keyboard modifiers (flags). *)
Record QMouseEvent : Type := mkMouse {
  pos : QPoint;
  buttons : Z;
  modifiers : Z;
}.

Definition LeftButton : Z := 0x00000001.
Definition ControlModifier : Z := 0x04000000.
Definition AltModifier : Z := 0x08000000.

(** [flags & flag] used as a condition. *)
Definition testFlag (flags flag : Z) : bool := negb (Z.land flags flag =? 0).

(** ** OpenGL objects *)

Inductive GLface : Type := GL_FRONT | GL_BACK.

Inductive TexTarget : Type := Target1D | Target2D | Target3D.

#[export] Instance TexTarget_eq_dec : EqDecision TexTarget.
Proof. solve_decision. Defined.

#[export] Instance TexTarget_countable : Countable TexTarget.
Proof.
  refine (inj_countable'
    (fun t => match t with Target1D => 0%nat | Target2D => 1%nat | Target3D => 2%nat end)
    (fun n => match n with O => Target1D | S O => Target2D | _ => Target3D end) _).
  intros []; reflexivity.
Defined.

Inductive TexFormat : Type := RGB8_UNorm | R32F | RGBA8.
Inductive WrapMode : Type := Repeat | ClampToEdge.
Inductive Filter : Type := Nearest | Linear.

(** Pixel formats and component types as [glTexImage3D] is handed them. *)
Inductive GLformat : Type := GL_RGB | GL_LUMINANCE.
Inductive GLtype : Type := GL_FLOAT.

(** What a [QOpenGLTexture] holds.  An image specified through [glTexImage3D]
    is kept as the call gave it: internal format, dimensions, format and type
    of the client data, and the data. *)
Inductive TexData : Type :=
| NoData
| ImageData (img : QImage)                  (* [setData(QImage)] *)
| VolumeData (internalformat : GLformat) (w h d : Z)
             (format : GLformat) (type : GLtype) (voxels : list F32.t).

Record Texture : Type := mkTexture {
  tex_target : TexTarget;
  tex_created : bool;
  tex_format : option TexFormat;
  tex_wrap : option WrapMode;
  tex_min_filter : option Filter;
  tex_mag_filter : option Filter;
  tex_data : TexData;
}.

(** A texture name as [glBindTexture] sees it: a [QOpenGLTexture] object or
    the colour attachment of a framebuffer object. *)
Inductive TexName : Type :=
| QTex (i : nat)
| FboColor (f : nat).

Inductive FbName : Type :=
| DefaultFb
| Fbo (f : nat).

Record RGBA : Type := mkRGBA { ch_r : F32.t; ch_g : F32.t; ch_b : F32.t; ch_a : F32.t }.

(** The texture [loadTransferFunction1DTex] builds from an image. *)
Definition ramp_texture (img : QImage) : Texture :=
  mkTexture Target1D true (Some RGB8_UNorm) (Some Repeat) (Some Nearest) (Some Nearest)
            match img with NullImage => NoData | Pixels _ _ _ => ImageData img end.

(** The texture [loadVolume3DTex] builds from a volume: the format asked of
    Qt is [R32F]; the image is the one [glTexImage3D] is handed, internal
    format [GL_RGB], client data [GL_LUMINANCE] floats. *)
Definition volume_texture (v : Volume) : Texture :=
  mkTexture Target3D true (Some R32F) (Some Repeat) (Some Linear) (Some Linear)
            (VolumeData GL_RGB (getWidth v) (getHeight v) (getDepth v)
                        GL_LUMINANCE GL_FLOAT (getVoxels v)).

(** [x] clamped into [lo, hi]. *)
Definition clamp (lo hi x : F32.t) : F32.t :=
  if F32.gtb x hi then hi else if F32.ltb x lo then lo else x.

(** The ranges of the view offset: pan in [-1, 1], distance in [0.8f, 3]. *)
Definition offset_in_range (v : QVector3D) : Prop :=
  F32.between (F32.of_int (-1)) (F32.of_int 1) (xp v) = true /\
  F32.between (F32.of_int (-1)) (F32.of_int 1) (yp v) = true /\
  F32.between F32.lit_0_8 F32.lit_3 (zp v) = true.

Section Model.

Context {A : Type} `{Scalar A}.

(** The inputs of [projMat * viewMat * modelMat] in [drawVolumeBBoxCube].  The
    matrix product itself is left symbolic. *)
Record Transform : Type := mkTransform {
  rot_x : A;          (* 90 - volumeRotAngleX, about (1,0,0) *)
  rot_y : A;          (* volumeRotAngleY, about (0,1,0) *)
  eye_z : F32.t;      (* viewOffset.z() *)
  pan_x : F32.t;      (* viewOffset.x() *)
  pan_y : F32.t;      (* viewOffset.y() *)
  aspect : Z;         (* width()/height(), an integer division *)
}.

Inductive Uniform : Type :=
| UInt (n : Z)
| UFloat (x : F32.t)
| UBool (b : bool)
| UVec2 (x y : F32.t)
| UMat4 (m : Transform).

(** The colour content of a render target, as the history that produced it:
    a draw call is recorded with everything it can read, in particular the
    content of every texture bound when it was issued. *)
Inductive Image : Type :=
| Uninitialised
| Cleared (c : RGBA)
| Drawn (below : Image) (d : DrawCall)
with DrawCall : Type :=
| mkDraw (program : nat) (cull : option GLface) (depth_test : bool)
         (uniforms : gmap string Uniform)
         (samplers : gmap (nat * TexTarget) TexContent)
with TexContent : Type :=
| Uploaded (d : TexData)
| Rendered (w h : Z) (img : Image)
| Dangling.

Definition dc_program (d : DrawCall) : nat := let 'mkDraw p _ _ _ _ := d in p.
Definition dc_cull (d : DrawCall) : option GLface := let 'mkDraw _ c _ _ _ := d in c.
Definition dc_depth_test (d : DrawCall) : bool := let 'mkDraw _ _ b _ _ := d in b.
Definition dc_uniforms (d : DrawCall) : gmap string Uniform := let 'mkDraw _ _ _ u _ := d in u.
Definition dc_samplers (d : DrawCall) : gmap (nat * TexTarget) TexContent :=
  let 'mkDraw _ _ _ _ s := d in s.


(** ** The OpenGL context *)

Record ShaderProgram : Type := mkProgram {
  vertex_source : string;
  fragment_source : string;
  linked : bool;
  prog_uniforms : gmap string Uniform;
}.

Record Framebuffer : Type := mkFramebuffer {
  fbo_width : Z;
  fbo_height : Z;
  fbo_depth_attachment : bool;
  fbo_texture_target : TexTarget;
  fbo_internal_format : TexFormat;
  fbo_color : Image;
}.

(** One [glDrawElements], as it is appended to the log of the context. *)
Record DrawEvent : Type := mkDrawEvent {
  de_target : FbName;
  de_call : DrawCall;
}.

Record GLState : Type := mkGL {
  clear_color : RGBA;
  depth_test_enabled : bool;
  cull_face_enabled : bool;
  cull_face_mode : GLface;
  bound_framebuffer : FbName;
  current_program : option nat;
  active_texture : nat;
  tex_bindings : gmap (nat * TexTarget) TexName;
  programs : list ShaderProgram;
  textures : list Texture;
  framebuffers : list Framebuffer;
  default_framebuffer : Image;
  draw_log : list DrawEvent;       (* oldest first *)
}.

Definition set_clear_color c g :=
  mkGL c (depth_test_enabled g) (cull_face_enabled g) (cull_face_mode g)
       (bound_framebuffer g) (current_program g) (active_texture g) (tex_bindings g)
       (programs g) (textures g) (framebuffers g) (default_framebuffer g) (draw_log g).
Definition set_depth_test b g :=
  mkGL (clear_color g) b (cull_face_enabled g) (cull_face_mode g)
       (bound_framebuffer g) (current_program g) (active_texture g) (tex_bindings g)
       (programs g) (textures g) (framebuffers g) (default_framebuffer g) (draw_log g).
Definition set_cull_face_enabled b g :=
  mkGL (clear_color g) (depth_test_enabled g) b (cull_face_mode g)
       (bound_framebuffer g) (current_program g) (active_texture g) (tex_bindings g)
       (programs g) (textures g) (framebuffers g) (default_framebuffer g) (draw_log g).
Definition set_cull_face_mode m g :=
  mkGL (clear_color g) (depth_test_enabled g) (cull_face_enabled g) m
       (bound_framebuffer g) (current_program g) (active_texture g) (tex_bindings g)
       (programs g) (textures g) (framebuffers g) (default_framebuffer g) (draw_log g).
Definition set_bound_framebuffer f g :=
  mkGL (clear_color g) (depth_test_enabled g) (cull_face_enabled g) (cull_face_mode g)
       f (current_program g) (active_texture g) (tex_bindings g)
       (programs g) (textures g) (framebuffers g) (default_framebuffer g) (draw_log g).
Definition set_current_program p g :=
  mkGL (clear_color g) (depth_test_enabled g) (cull_face_enabled g) (cull_face_mode g)
       (bound_framebuffer g) p (active_texture g) (tex_bindings g)
       (programs g) (textures g) (framebuffers g) (default_framebuffer g) (draw_log g).
Definition set_active_texture u g :=
  mkGL (clear_color g) (depth_test_enabled g) (cull_face_enabled g) (cull_face_mode g)
       (bound_framebuffer g) (current_program g) u (tex_bindings g)
       (programs g) (textures g) (framebuffers g) (default_framebuffer g) (draw_log g).
Definition set_tex_bindings b g :=
  mkGL (clear_color g) (depth_test_enabled g) (cull_face_enabled g) (cull_face_mode g)
       (bound_framebuffer g) (current_program g) (active_texture g) b
       (programs g) (textures g) (framebuffers g) (default_framebuffer g) (draw_log g).
Definition set_programs ps g :=
  mkGL (clear_color g) (depth_test_enabled g) (cull_face_enabled g) (cull_face_mode g)
       (bound_framebuffer g) (current_program g) (active_texture g) (tex_bindings g)
       ps (textures g) (framebuffers g) (default_framebuffer g) (draw_log g).
Definition set_textures ts g :=
  mkGL (clear_color g) (depth_test_enabled g) (cull_face_enabled g) (cull_face_mode g)
       (bound_framebuffer g) (current_program g) (active_texture g) (tex_bindings g)
       (programs g) ts (framebuffers g) (default_framebuffer g) (draw_log g).
Definition set_framebuffers fs g :=
  mkGL (clear_color g) (depth_test_enabled g) (cull_face_enabled g) (cull_face_mode g)
       (bound_framebuffer g) (current_program g) (active_texture g) (tex_bindings g)
       (programs g) (textures g) fs (default_framebuffer g) (draw_log g).
Definition set_default_framebuffer i g :=
  mkGL (clear_color g) (depth_test_enabled g) (cull_face_enabled g) (cull_face_mode g)
       (bound_framebuffer g) (current_program g) (active_texture g) (tex_bindings g)
       (programs g) (textures g) (framebuffers g) i (draw_log g).
Definition set_draw_log l g :=
  mkGL (clear_color g) (depth_test_enabled g) (cull_face_enabled g) (cull_face_mode g)
       (bound_framebuffer g) (current_program g) (active_texture g) (tex_bindings g)
       (programs g) (textures g) (framebuffers g) (default_framebuffer g) l.

Definition set_fbo_color (i : Image) (fb : Framebuffer) : Framebuffer :=
  mkFramebuffer (fbo_width fb) (fbo_height fb) (fbo_depth_attachment fb)
                (fbo_texture_target fb) (fbo_internal_format fb) i.
Definition set_prog_uniforms (u : gmap string Uniform) (p : ShaderProgram) : ShaderProgram :=
  mkProgram (vertex_source p) (fragment_source p) (linked p) u.
Definition set_tex_data (d : TexData) (t : Texture) : Texture :=
  mkTexture (tex_target t) (tex_created t) (tex_format t) (tex_wrap t)
            (tex_min_filter t) (tex_mag_filter t) d.

(** *** Calls of the OpenGL API, as transitions of the context *)

Definition glClearColor (r g b a : F32.t) : GLState -> GLState :=
  set_clear_color (mkRGBA r g b a).

(** The colour content of the framebuffer currently bound for drawing. *)
Definition target_color (g : GLState) : Image :=
  match bound_framebuffer g with
  | DefaultFb => default_framebuffer g
  | Fbo f => from_option fbo_color Uninitialised (framebuffers g !! f)
  end.

Definition write_target (i : Image) (g : GLState) : GLState :=
  match bound_framebuffer g with
  | DefaultFb => set_default_framebuffer i g
  | Fbo f => set_framebuffers (alter (set_fbo_color i) f (framebuffers g)) g
  end.

(** [glClear(mask)]; the depth buffer has no content in this model. *)
Definition glClear (color_bit depth_bit : bool) (g : GLState) : GLState :=
  if color_bit then write_target (Cleared (clear_color g)) g else g.

Definition glEnableDepthTest : GLState -> GLState := set_depth_test true.
Definition glEnableCullFace : GLState -> GLState := set_cull_face_enabled true.
Definition glDisableCullFace : GLState -> GLState := set_cull_face_enabled false.
Definition glCullFace (m : GLface) : GLState -> GLState := set_cull_face_mode m.
Definition glActiveTexture (unit : nat) : GLState -> GLState := set_active_texture unit.

Definition glBindTexture (target : TexTarget) (name : TexName) (g : GLState) : GLState :=
  set_tex_bindings (<[(active_texture g, target) := name]> (tex_bindings g)) g.

(** [glTexImage3D]: specifies the image of the texture bound to [target] on
    the active unit.  The source passes level 0 and border 0. *)
Definition glTexImage3D (target : TexTarget) (level : Z) (internalformat : GLformat)
    (w h d : Z) (border : Z) (format : GLformat) (type : GLtype) (voxels : list F32.t)
    (g : GLState) : GLState :=
  match tex_bindings g !! (active_texture g, target) with
  | Some (QTex i) =>
      set_textures
        (alter (set_tex_data (VolumeData internalformat w h d format type voxels)) i
               (textures g)) g
  | _ => g
  end.

(** What a sampler finds behind a texture name. *)
Definition resolve (g : GLState) (n : TexName) : TexContent :=
  match n with
  | QTex i => from_option (fun t => Uploaded (tex_data t)) Dangling (textures g !! i)
  | FboColor f =>
      from_option (fun fb => Rendered (fbo_width fb) (fbo_height fb) (fbo_color fb))
                  Dangling (framebuffers g !! f)
  end.

Definition snapshot (g : GLState) : option DrawCall :=
  match current_program g with
  | Some p =>
      match programs g !! p with
      | Some po =>
          Some (mkDraw p
                  (if cull_face_enabled g then Some (cull_face_mode g) else None)
                  (depth_test_enabled g)
                  (prog_uniforms po)
                  (resolve g <$> tex_bindings g))
      | None => None
      end
  | None => None
  end.

(** [glDrawElements(GL_TRIANGLES, 36, ...)] over the cube's vertex array: the
    bound framebuffer receives the draw, and the call enters the log. *)
Definition glDrawElements (g : GLState) : GLState :=
  match snapshot g with
  | Some d =>
      set_draw_log (draw_log g ++ [mkDrawEvent (bound_framebuffer g) d])
                   (write_target (Drawn (target_color g) d) g)
  | None => g
  end.

(** *** Qt's wrappers *)

(** [QOpenGLFramebufferObject::bind()] and [::bindDefault()]. *)
Definition fbo_bind (f : nat) : GLState -> GLState := set_bound_framebuffer (Fbo f).
Definition bindDefault : GLState -> GLState := set_bound_framebuffer DefaultFb.

(** [QOpenGLShaderProgram::bind()]. *)
Definition program_bind (p : nat) : GLState -> GLState := set_current_program (Some p).

(** [QOpenGLShaderProgram::setUniformValue(name, v)]: a [glUniform] on the
    location of [name], which reaches the program only while it is bound. *)
Definition setUniformValue (p : nat) (name : string) (v : Uniform) (g : GLState) : GLState :=
  if decide (current_program g = Some p)
  then set_programs
         (alter (fun po => set_prog_uniforms (<[name := v]> (prog_uniforms po)) po) p (programs g)) g
  else g.

(** [QOpenGLTexture::bind()]: binds to the texture's target on the active unit;
    [bind(unit)] selects the unit first and leaves it active. *)
Definition texture_bind (i : nat) (g : GLState) : GLState :=
  match textures g !! i with
  | Some t => glBindTexture (tex_target t) (QTex i) g
  | None => g
  end.
Definition texture_bind_unit (i unit : nat) (g : GLState) : GLState :=
  texture_bind i (glActiveTexture unit g).

Definition texture_update (i : nat) (f : Texture -> Texture) (g : GLState) : GLState :=
  set_textures (alter f i (textures g)) g.

Definition texture_create (i : nat) : GLState -> GLState :=
  texture_update i (fun t =>
    mkTexture (tex_target t) true (tex_format t) (tex_wrap t)
              (tex_min_filter t) (tex_mag_filter t) (tex_data t)).
Definition texture_setFormat (i : nat) (f : TexFormat) : GLState -> GLState :=
  texture_update i (fun t =>
    mkTexture (tex_target t) (tex_created t) (Some f) (tex_wrap t)
              (tex_min_filter t) (tex_mag_filter t) (tex_data t)).
Definition texture_setWrapMode (i : nat) (m : WrapMode) : GLState -> GLState :=
  texture_update i (fun t =>
    mkTexture (tex_target t) (tex_created t) (tex_format t) (Some m)
              (tex_min_filter t) (tex_mag_filter t) (tex_data t)).
Definition texture_setMinificationFilter (i : nat) (f : Filter) : GLState -> GLState :=
  texture_update i (fun t =>
    mkTexture (tex_target t) (tex_created t) (tex_format t) (tex_wrap t)
              (Some f) (tex_mag_filter t) (tex_data t)).
Definition texture_setMagnificationFilter (i : nat) (f : Filter) : GLState -> GLState :=
  texture_update i (fun t =>
    mkTexture (tex_target t) (tex_created t) (tex_format t) (tex_wrap t)
              (tex_min_filter t) (Some f) (tex_data t)).

(** [QOpenGLTexture::setData(QImage)]: a null image is refused with a warning
    and leaves the texture without data. *)
Definition texture_setData (i : nat) (img : QImage) : GLState -> GLState :=
  match img with
  | NullImage => fun g => g
  | Pixels _ _ _ => texture_update i (set_tex_data (ImageData img))
  end.

(** ** The widget *)

(** The members that carry state from one event to the next.  Two kinds of
    members of the source are no fields: the OpenGL functions object [glf],
    which [initializeGL] obtains before anything else and which gives access
    to the context [gl]; and the matrices [modelMat], [viewMat] and [projMat],
    which [drawVolumeBBoxCube] recomputes from the view state before each use
    and which reach the context as the uniform [modelViewProjMat]. *)
Record GLWidget : Type := mkWidget {
  (* the OpenGL context of the widget *)
  gl : GLState;
  (* what QWidget and the file system answer *)
  width : Z;
  height : Z;
  files : gmap string QImage;
  (* member variables *)
  raycastShader : option nat;
  rayVolumeExitPosMapShader : option nat;
  transferFunction1DTex : option nat;
  rayVolumeExitPosMapFramebuffer : option nat;
  volume : option Volume;
  volume3DTex : option nat;
  numSamples : Z;
  tmpNumSamples : Z;
  sampleRangeStart : F32.t;
  sampleRangeEnd : F32.t;
  technique : techniques;
  backgroundColor : QColor;
  lastMousePos : QPoint;
  volumeRotAngleX : A;
  volumeRotAngleY : A;
  viewOffset : QVector3D;
}.

Definition set_gl x (w : GLWidget) : GLWidget :=
  mkWidget x (width w) (height w) (files w) (raycastShader w) (rayVolumeExitPosMapShader w)
          (transferFunction1DTex w) (rayVolumeExitPosMapFramebuffer w) (volume w)
          (volume3DTex w) (numSamples w) (tmpNumSamples w) (sampleRangeStart w)
          (sampleRangeEnd w) (technique w) (backgroundColor w) (lastMousePos w)
          (volumeRotAngleX w) (volumeRotAngleY w) (viewOffset w).
Definition set_raycastShader x (w : GLWidget) : GLWidget :=
  mkWidget (gl w) (width w) (height w) (files w) x (rayVolumeExitPosMapShader w)
          (transferFunction1DTex w) (rayVolumeExitPosMapFramebuffer w) (volume w)
          (volume3DTex w) (numSamples w) (tmpNumSamples w) (sampleRangeStart w)
          (sampleRangeEnd w) (technique w) (backgroundColor w) (lastMousePos w)
          (volumeRotAngleX w) (volumeRotAngleY w) (viewOffset w).
Definition set_rayVolumeExitPosMapShader x (w : GLWidget) : GLWidget :=
  mkWidget (gl w) (width w) (height w) (files w) (raycastShader w) x
          (transferFunction1DTex w) (rayVolumeExitPosMapFramebuffer w) (volume w)
          (volume3DTex w) (numSamples w) (tmpNumSamples w) (sampleRangeStart w)
          (sampleRangeEnd w) (technique w) (backgroundColor w) (lastMousePos w)
          (volumeRotAngleX w) (volumeRotAngleY w) (viewOffset w).
Definition set_transferFunction1DTex x (w : GLWidget) : GLWidget :=
  mkWidget (gl w) (width w) (height w) (files w) (raycastShader w)
          (rayVolumeExitPosMapShader w) x (rayVolumeExitPosMapFramebuffer w) (volume w)
          (volume3DTex w) (numSamples w) (tmpNumSamples w) (sampleRangeStart w)
          (sampleRangeEnd w) (technique w) (backgroundColor w) (lastMousePos w)
          (volumeRotAngleX w) (volumeRotAngleY w) (viewOffset w).
Definition set_rayVolumeExitPosMapFramebuffer x (w : GLWidget) : GLWidget :=
  mkWidget (gl w) (width w) (height w) (files w) (raycastShader w)
          (rayVolumeExitPosMapShader w) (transferFunction1DTex w) x (volume w)
          (volume3DTex w) (numSamples w) (tmpNumSamples w) (sampleRangeStart w)
          (sampleRangeEnd w) (technique w) (backgroundColor w) (lastMousePos w)
          (volumeRotAngleX w) (volumeRotAngleY w) (viewOffset w).
Definition set_volume x (w : GLWidget) : GLWidget :=
  mkWidget (gl w) (width w) (height w) (files w) (raycastShader w)
          (rayVolumeExitPosMapShader w) (transferFunction1DTex w)
          (rayVolumeExitPosMapFramebuffer w) x (volume3DTex w) (numSamples w)
          (tmpNumSamples w) (sampleRangeStart w) (sampleRangeEnd w) (technique w)
          (backgroundColor w) (lastMousePos w) (volumeRotAngleX w) (volumeRotAngleY w)
          (viewOffset w).
Definition set_volume3DTex x (w : GLWidget) : GLWidget :=
  mkWidget (gl w) (width w) (height w) (files w) (raycastShader w)
          (rayVolumeExitPosMapShader w) (transferFunction1DTex w)
          (rayVolumeExitPosMapFramebuffer w) (volume w) x (numSamples w) (tmpNumSamples w)
          (sampleRangeStart w) (sampleRangeEnd w) (technique w) (backgroundColor w)
          (lastMousePos w) (volumeRotAngleX w) (volumeRotAngleY w) (viewOffset w).
Definition set_numSamples x (w : GLWidget) : GLWidget :=
  mkWidget (gl w) (width w) (height w) (files w) (raycastShader w)
          (rayVolumeExitPosMapShader w) (transferFunction1DTex w)
          (rayVolumeExitPosMapFramebuffer w) (volume w) (volume3DTex w) x (tmpNumSamples w)
          (sampleRangeStart w) (sampleRangeEnd w) (technique w) (backgroundColor w)
          (lastMousePos w) (volumeRotAngleX w) (volumeRotAngleY w) (viewOffset w).
Definition set_tmpNumSamples x (w : GLWidget) : GLWidget :=
  mkWidget (gl w) (width w) (height w) (files w) (raycastShader w)
          (rayVolumeExitPosMapShader w) (transferFunction1DTex w)
          (rayVolumeExitPosMapFramebuffer w) (volume w) (volume3DTex w) (numSamples w) x
          (sampleRangeStart w) (sampleRangeEnd w) (technique w) (backgroundColor w)
          (lastMousePos w) (volumeRotAngleX w) (volumeRotAngleY w) (viewOffset w).
Definition set_sampleRangeStart x (w : GLWidget) : GLWidget :=
  mkWidget (gl w) (width w) (height w) (files w) (raycastShader w)
          (rayVolumeExitPosMapShader w) (transferFunction1DTex w)
          (rayVolumeExitPosMapFramebuffer w) (volume w) (volume3DTex w) (numSamples w)
          (tmpNumSamples w) x (sampleRangeEnd w) (technique w) (backgroundColor w)
          (lastMousePos w) (volumeRotAngleX w) (volumeRotAngleY w) (viewOffset w).
Definition set_sampleRangeEnd x (w : GLWidget) : GLWidget :=
  mkWidget (gl w) (width w) (height w) (files w) (raycastShader w)
          (rayVolumeExitPosMapShader w) (transferFunction1DTex w)
          (rayVolumeExitPosMapFramebuffer w) (volume w) (volume3DTex w) (numSamples w)
          (tmpNumSamples w) (sampleRangeStart w) x (technique w) (backgroundColor w)
          (lastMousePos w) (volumeRotAngleX w) (volumeRotAngleY w) (viewOffset w).
Definition set_technique x (w : GLWidget) : GLWidget :=
  mkWidget (gl w) (width w) (height w) (files w) (raycastShader w)
          (rayVolumeExitPosMapShader w) (transferFunction1DTex w)
          (rayVolumeExitPosMapFramebuffer w) (volume w) (volume3DTex w) (numSamples w)
          (tmpNumSamples w) (sampleRangeStart w) (sampleRangeEnd w) x (backgroundColor w)
          (lastMousePos w) (volumeRotAngleX w) (volumeRotAngleY w) (viewOffset w).
Definition set_lastMousePos x (w : GLWidget) : GLWidget :=
  mkWidget (gl w) (width w) (height w) (files w) (raycastShader w)
          (rayVolumeExitPosMapShader w) (transferFunction1DTex w)
          (rayVolumeExitPosMapFramebuffer w) (volume w) (volume3DTex w) (numSamples w)
          (tmpNumSamples w) (sampleRangeStart w) (sampleRangeEnd w) (technique w)
          (backgroundColor w) x (volumeRotAngleX w) (volumeRotAngleY w) (viewOffset w).
Definition set_volumeRotAngleX x (w : GLWidget) : GLWidget :=
  mkWidget (gl w) (width w) (height w) (files w) (raycastShader w)
          (rayVolumeExitPosMapShader w) (transferFunction1DTex w)
          (rayVolumeExitPosMapFramebuffer w) (volume w) (volume3DTex w) (numSamples w)
          (tmpNumSamples w) (sampleRangeStart w) (sampleRangeEnd w) (technique w)
          (backgroundColor w) (lastMousePos w) x (volumeRotAngleY w) (viewOffset w).
Definition set_volumeRotAngleY x (w : GLWidget) : GLWidget :=
  mkWidget (gl w) (width w) (height w) (files w) (raycastShader w)
          (rayVolumeExitPosMapShader w) (transferFunction1DTex w)
          (rayVolumeExitPosMapFramebuffer w) (volume w) (volume3DTex w) (numSamples w)
          (tmpNumSamples w) (sampleRangeStart w) (sampleRangeEnd w) (technique w)
          (backgroundColor w) (lastMousePos w) (volumeRotAngleX w) x (viewOffset w).
Definition set_viewOffset x (w : GLWidget) : GLWidget :=
  mkWidget (gl w) (width w) (height w) (files w) (raycastShader w)
          (rayVolumeExitPosMapShader w) (transferFunction1DTex w)
          (rayVolumeExitPosMapFramebuffer w) (volume w) (volume3DTex w) (numSamples w)
          (tmpNumSamples w) (sampleRangeStart w) (sampleRangeEnd w) (technique w)
          (backgroundColor w) (lastMousePos w) (volumeRotAngleX w) (volumeRotAngleY w) x.


(** ** Computations of the widget

    A member function either returns a value and the widget it leaves behind,
    or fails.  Failure stands for the two ways the source can crash: a null
    member pointer is dereferenced, or an [int] is divided by zero. *)

Definition GL (T : Type) : Type := GLWidget -> option (T * GLWidget).

Definition ret {T} (x : T) : GL T := fun w => Some (x, w).
Definition bind {T U} (c : GL T) (k : T -> GL U) : GL U :=
  fun w => match c w with Some (x, w') => k x w' | None => None end.
Definition fail {T} : GL T := fun _ => None.
Definition gets {T} (f : GLWidget -> T) : GL T := fun w => Some (f w, w).
Definition modify (f : GLWidget -> GLWidget) : GL unit := fun w => Some (tt, f w).

(** [p->...] on a member pointer. *)
Definition deref {T} (p : GLWidget -> option T) : GL T :=
  fun w => match p w with Some x => Some (x, w) | None => None end.

(** A call that only touches the OpenGL context. *)
Definition call (f : GLState -> GLState) : GL unit := modify (fun w => set_gl (f (gl w)) w).

Declare Scope gl_scope.
Delimit Scope gl_scope with gl.
Notation "x <- c ;; k" := (bind c (fun x => k))
  (at level 20, c at level 99, k at level 200, only parsing) : gl_scope.
Notation "c ;; k" := (bind c (fun _ => k))
  (at level 100, k at level 200, only parsing, right associativity) : gl_scope.
Local Open Scope gl_scope.

(** [new QOpenGLShaderProgram], the two [addShaderFromSourceFile] and [link]. *)
Definition new_program (vert frag : string) : GL nat := fun w =>
  let g := gl w in
  Some (length (programs g),
        set_gl (set_programs (programs g ++ [mkProgram vert frag true ∅]) g) w).

(** [new QOpenGLTexture(target)]. *)
Definition new_texture (target : TexTarget) : GL nat := fun w =>
  let g := gl w in
  Some (length (textures g),
        set_gl (set_textures
                  (textures g ++ [mkTexture target false None None None None NoData]) g) w).

(** [new QOpenGLFramebufferObject(w, h, ...)] with a depth attachment, texture
    target [GL_TEXTURE_2D] and internal format [GL_RGBA8] (set explicitly by
    [initRayVolumeExitPosMapFramebuffer], the constructor's defaults in
    [resizeGL]). *)
Definition new_framebuffer (fw fh : Z) : GL nat := fun w =>
  let g := gl w in
  Some (length (framebuffers g),
        set_gl (set_framebuffers
                  (framebuffers g ++ [mkFramebuffer fw fh true Target2D RGBA8 Uninitialised]) g) w).

(** [QImage(fileName)]: the decoded file, or a null image. *)
Definition QImage_load (fs : gmap string QImage) (fileName : string) : QImage :=
  default NullImage (fs !! fileName).

(** [convertToFormat(QImage::Format_RGB888)]: pixels are kept as RGB triples. *)
Definition convertToFormat_RGB888 (img : QImage) : QImage := img.

(** [a / b] on [int]: truncated, and failing on a zero divisor.  The one
    quotient that does not fit, [INT_MIN / -1], is reduced to 32 bits like
    every result; a widget's height is not negative, so paints do not meet
    it. *)
Definition int_div (a b : Z) : GL Z :=
  if b =? 0 then fail else ret (Int32.wrap (Z.quot a b)).

(** ** Member functions of [GLWidget] *)

Definition initShaders : GL unit :=
  r <- new_program "../src/shaders/raycast_shader.vert" "../src/shaders/raycast_shader.frag" ;;
  modify (set_raycastShader (Some r)) ;;
  e <- new_program "../src/shaders/rayvolumeexitposmap_shader.vert"
                   "../src/shaders/rayvolumeexitposmap_shader.frag" ;;
  modify (set_rayVolumeExitPosMapShader (Some e)).

(** The vertex array, vertex buffer and index buffer of the cube are constant
    after this function and carry no state of the model; what remains is the
    bind and release of the shader. *)
Definition initVolumeBBoxCubeVBO : GL unit :=
  e <- deref rayVolumeExitPosMapShader ;;
  call (program_bind e) ;;
  call (set_current_program None).

Definition loadTransferFunction1DTex (fileName : string) : GL unit :=
  t <- new_texture Target1D ;;
  modify (set_transferFunction1DTex (Some t)) ;;
  call (texture_create t) ;;
  call (texture_setFormat t RGB8_UNorm) ;;
  img <- gets (fun w => QImage_load (files w) fileName) ;;
  call (texture_setData t (convertToFormat_RGB888 img)) ;;
  call (texture_setWrapMode t Repeat) ;;
  call (texture_setMinificationFilter t Nearest) ;;
  call (texture_setMagnificationFilter t Nearest).

Definition initRayVolumeExitPosMapFramebuffer : GL unit :=
  fw <- gets width ;;
  fh <- gets height ;;
  f <- new_framebuffer fw fh ;;
  modify (set_rayVolumeExitPosMapFramebuffer (Some f)).

Definition initializeGL : GL unit :=
  initShaders ;;
  initVolumeBBoxCubeVBO ;;
  loadTransferFunction1DTex "../transferfunctions/tff_flame.png" ;;
  initRayVolumeExitPosMapFramebuffer ;;
  modify (set_viewOffset (mkVec3 (F32.of_int 0) (F32.of_int 0) F32.lit_1_8)).

Definition loadVolume3DTex : GL unit :=
  v <- gets volume ;;
  match v with
  | None => ret tt
  | Some vol =>
      t <- new_texture Target3D ;;
      modify (set_volume3DTex (Some t)) ;;
      call (texture_create t) ;;
      call (texture_setFormat t R32F) ;;
      call (texture_setWrapMode t Repeat) ;;
      call (texture_setMinificationFilter t Linear) ;;
      call (texture_setMagnificationFilter t Linear) ;;
      call (texture_bind t) ;;
      call (glTexImage3D Target3D 0 GL_RGB (getWidth vol) (getHeight vol) (getDepth vol) 0
                         GL_LUMINANCE GL_FLOAT (getVoxels vol))
  end.

Definition dataLoaded (volumeData : option Volume) : GL unit :=
  modify (set_volume volumeData) ;;
  loadVolume3DTex.

Definition drawVolumeBBoxCube (glFaceCullMode : GLface) (shader : nat) : GL unit :=
  call (glClear true true) ;;
  ax <- gets volumeRotAngleX ;;
  ay <- gets volumeRotAngleY ;;
  off <- gets viewOffset ;;
  fw <- gets width ;;
  fh <- gets height ;;
  ratio <- int_div fw fh ;;
  call (program_bind shader) ;;
  call (setUniformValue shader "modelViewProjMat"
          (UMat4 (mkTransform (s_sub (of_int 90) ax) ay (zp off) (xp off) (yp off) ratio))) ;;
  call glEnableCullFace ;;
  call (glCullFace glFaceCullMode) ;;
  call glDrawElements ;;
  call glDisableCullFace.

Definition paintGL : GL unit :=
  bg <- gets backgroundColor ;;
  call (glClearColor (F32.div (F32.of_int (red bg)) F32.lit_256)
                     (F32.div (F32.of_int (green bg)) F32.lit_256)
                     (F32.div (F32.of_int (blue bg)) F32.lit_256)
                     F32.one) ;;
  call (glClear true false) ;;
  v <- gets volume ;;
  match v with
  | None => ret tt
  | Some _ =>
      call glEnableDepthTest ;;
      (* first pass *)
      f <- deref rayVolumeExitPosMapFramebuffer ;;
      call (fbo_bind f) ;;
      e <- deref rayVolumeExitPosMapShader ;;
      call (program_bind e) ;;
      drawVolumeBBoxCube GL_FRONT e ;;
      (* second pass *)
      call bindDefault ;;
      r <- deref raycastShader ;;
      call (program_bind r) ;;
      fw <- gets width ;;
      fh <- gets height ;;
      call (setUniformValue r "screenDimensions" (UVec2 (F32.of_int fw) (F32.of_int fh))) ;;
      n <- gets numSamples ;;
      call (setUniformValue r "numSamples" (UInt n)) ;;
      s0 <- gets sampleRangeStart ;;
      call (setUniformValue r "sampleRangeStart" (UFloat s0)) ;;
      s1 <- gets sampleRangeEnd ;;
      call (setUniformValue r "sampleRangeEnd" (UFloat s1)) ;;
      tech <- gets technique ;;
      match tech with
      | MIP =>
          call (setUniformValue r "alphaTech" (UBool false)) ;;
          call (setUniformValue r "avgTech" (UBool false))
      | ALPHA =>
          call (setUniformValue r "alphaTech" (UBool true)) ;;
          call (setUniformValue r "avgTech" (UBool false))
      | AVERAGE =>
          call (setUniformValue r "alphaTech" (UBool false)) ;;
          call (setUniformValue r "avgTech" (UBool true))
      end ;;
      call (glActiveTexture 0) ;;
      tf <- deref transferFunction1DTex ;;
      call (texture_bind_unit tf 0) ;;
      call (setUniformValue r "transferFunction" (UInt 0)) ;;
      call (setUniformValue r "exitPositions" (UInt 1)) ;;
      call (glActiveTexture 1) ;;
      f' <- deref rayVolumeExitPosMapFramebuffer ;;
      call (glBindTexture Target2D (FboColor f')) ;;
      call (setUniformValue r "volume" (UInt 2)) ;;
      vt <- deref volume3DTex ;;
      call (texture_bind_unit vt 2) ;;
      r' <- deref raycastShader ;;
      drawVolumeBBoxCube GL_BACK r'
  end.

(** [QWidget::repaint()]: Qt makes the context current with the widget's own
    framebuffer bound and calls [paintGL] before it returns. *)
Definition repaint : GL unit :=
  call bindDefault ;;
  paintGL.

Definition resizeGL (w h : Z) : GL unit :=
  f <- new_framebuffer w h ;;
  modify (set_rayVolumeExitPosMapFramebuffer (Some f)).

Definition setNumSamples (n : Z) : GL unit :=
  modify (set_numSamples n) ;;
  repaint.

Definition setSampleRangeStart (d : spec_float) : GL unit :=
  modify (set_sampleRangeStart (F32.of_double d)) ;;
  repaint.

Definition setSampleRangeEnd (d : spec_float) : GL unit :=
  modify (set_sampleRangeEnd (F32.of_double d)) ;;
  repaint.

Definition setTechnique (t : techniques) : GL unit :=
  modify (set_technique t) ;;
  repaint.

(** [chosen] is what [QFileDialog::getOpenFileName] returns: the selected
    path, or the empty string when the dialog is cancelled. *)
Definition loadTransferFunctionImage (chosen : string) : GL unit :=
  loadTransferFunction1DTex chosen ;;
  repaint.

Definition mousePressEvent (event : QMouseEvent) : GL unit :=
  n <- gets numSamples ;;
  tmp <- gets tmpNumSamples ;;
  modify (set_tmpNumSamples (if n >? 5 then n else tmp)) ;;
  modify (set_lastMousePos (pos event)).

(** [QVector3D::operator+=] and [operator/(QVector3D, float)], componentwise. *)
Definition vec_add (a b : QVector3D) : QVector3D :=
  mkVec3 (F32.add (xp a) (xp b)) (F32.add (yp a) (yp b)) (F32.add (zp a) (zp b)).
Definition vec_div (a : QVector3D) (d : F32.t) : QVector3D :=
  mkVec3 (F32.div (xp a) d) (F32.div (yp a) d) (F32.div (zp a) d).
Definition setX (x : F32.t) (v : QVector3D) : QVector3D := mkVec3 x (yp v) (zp v).
Definition setY (y : F32.t) (v : QVector3D) : QVector3D := mkVec3 (xp v) y (zp v).
Definition setZ (z : F32.t) (v : QVector3D) : QVector3D := mkVec3 (xp v) (yp v) z.

(** The three branches of [mouseMoveEvent] under a pressed left button. *)
Definition zoom (dy : Z) (v : QVector3D) : QVector3D :=
  let v1 := vec_add v (mkVec3 (F32.of_int 0) (F32.of_int 0)
                              (F32.div (F32.of_int (Int32.neg dy)) F32.lit_40)) in
  let v2 := if F32.gtb (zp v1) F32.lit_3 then setZ F32.lit_3 v1 else v1 in
  if F32.ltb (zp v2) F32.lit_0_8 then setZ F32.lit_0_8 v2 else v2.

Definition pan (dx dy : Z) (v : QVector3D) : QVector3D :=
  let v1 := vec_add v (vec_div (mkVec3 (F32.of_int dx) (F32.of_int (Int32.neg dy)) F32.zero)
                               F32.lit_60) in
  let v2 := if F32.gtb (xp v1) (F32.of_int 1) then setX (F32.of_int 1) v1 else v1 in
  let v3 := if F32.ltb (xp v2) (F32.of_int (-1)) then setX (F32.of_int (-1)) v2 else v2 in
  let v4 := if F32.gtb (yp v3) (F32.of_int 1) then setY (F32.of_int 1) v3 else v3 in
  if F32.ltb (yp v4) (F32.of_int (-1)) then setY (F32.of_int (-1)) v4 else v4.

Definition rotateX (dy : Z) (ax : A) : A :=
  let a1 := if ((dy >? 0) && s_ltb ax (of_int 90)) || ((dy <? 0) && s_gtb ax (of_int (-90)))
            then s_add ax (of_int dy) else ax in
  let a2 := if s_ltb a1 (of_int (-90)) then of_int (-90) else a1 in
  if s_gtb a2 (of_int 90) then of_int 90 else a2.

Definition rotateY (dx : Z) (ay : A) : A := s_add ay (of_int dx).

Definition mouseMoveEvent (event : QMouseEvent) : GL unit :=
  modify (set_numSamples 5) ;;
  last <- gets lastMousePos ;;
  let dx := Int32.sub (px (pos event)) (px last) in
  let dy := Int32.sub (py (pos event)) (py last) in
  (if testFlag (buttons event) LeftButton then
     if testFlag (modifiers event) AltModifier then
       off <- gets viewOffset ;;
       modify (set_viewOffset (zoom dy off))
     else if testFlag (modifiers event) ControlModifier then
       off <- gets viewOffset ;;
       modify (set_viewOffset (pan dx dy off))
     else
       ax <- gets volumeRotAngleX ;;
       ay <- gets volumeRotAngleY ;;
       modify (set_volumeRotAngleX (rotateX dy ax)) ;;
       modify (set_volumeRotAngleY (rotateY dx ay))
   else ret tt) ;;
  modify (set_lastMousePos (pos event)) ;;
  repaint.

Definition mouseReleaseEvent : GL unit :=
  tmp <- gets tmpNumSamples ;;
  modify (set_numSamples tmp) ;;
  repaint.

(** ** The widget as driven by its host

    The host delivers the events below.  On a resize Qt first updates the
    geometry that [width()] and [height()] report, then calls [resizeGL]. *)

Definition set_size (fw fh : Z) (w : GLWidget) : GLWidget :=
  mkWidget (gl w) fw fh (files w) (raycastShader w)
          (rayVolumeExitPosMapShader w) (transferFunction1DTex w)
          (rayVolumeExitPosMapFramebuffer w) (volume w) (volume3DTex w) (numSamples w)
          (tmpNumSamples w) (sampleRangeStart w) (sampleRangeEnd w) (technique w)
          (backgroundColor w) (lastMousePos w) (volumeRotAngleX w) (volumeRotAngleY w)
          (viewOffset w).

Inductive Event : Type :=
| Paint
| Resize (w h : Z)
| DataLoaded (v : option Volume)
| SetNumSamples (n : Z)
| SetSampleRangeStart (d : spec_float)
| SetSampleRangeEnd (d : spec_float)
| SetTechnique (t : techniques)
| LoadTransferFunctionImage (chosen : string)
| MousePress (e : QMouseEvent)
| MouseMove (e : QMouseEvent)
| MouseRelease.

Definition handle (ev : Event) : GL unit :=
  match ev with
  | Paint => repaint
  | Resize w h => modify (set_size w h) ;; resizeGL w h
  | DataLoaded v => dataLoaded v
  | SetNumSamples n => setNumSamples n
  | SetSampleRangeStart d => setSampleRangeStart d
  | SetSampleRangeEnd d => setSampleRangeEnd d
  | SetTechnique t => setTechnique t
  | LoadTransferFunctionImage chosen => loadTransferFunctionImage chosen
  | MousePress e => mousePressEvent e
  | MouseMove e => mouseMoveEvent e
  | MouseRelease => mouseReleaseEvent
  end.

Fixpoint run (evs : list Event) : GL unit :=
  match evs with
  | [] => ret tt
  | ev :: rest => handle ev ;; run rest
  end.

(** A context in which nothing has been created or drawn yet. *)
Definition initial_context : GLState :=
  mkGL (mkRGBA F32.zero F32.zero F32.zero F32.zero) false false GL_BACK DefaultFb None 0%nat
       ∅ [] [] [] Uninitialised [].

(** What the header leaves open about a freshly constructed widget. *)
Record Config : Type := mkConfig {
  cfg_width : Z;
  cfg_height : Z;
  cfg_files : gmap string QImage;
  cfg_backgroundColor : QColor;
  cfg_numSamples : Z;
  cfg_tmpNumSamples : Z;
  cfg_sampleRangeStart : F32.t;
  cfg_sampleRangeEnd : F32.t;
  cfg_technique : techniques;
}.

(** Modelled from the spec: the member initialisers of [GLWidget.h] are not
    among the sources.  The spec starts the view state at rotation angles 0 and
    has no volume loaded before the first load; the object pointers are null
    until [initializeGL] and [dataLoaded] assign them, and [QPoint] and
    [QVector3D] members are default-constructed to zero. *)
Definition constructed (c : Config) : GLWidget :=
  mkWidget initial_context (cfg_width c) (cfg_height c) (cfg_files c)
           None None None None None None
           (cfg_numSamples c) (cfg_tmpNumSamples c)
           (cfg_sampleRangeStart c) (cfg_sampleRangeEnd c) (cfg_technique c)
           (cfg_backgroundColor c) (mkPoint 0 0)
           (of_int 0) (of_int 0) (mkVec3 F32.zero F32.zero F32.zero).

(** The host shows the widget: construction, then [initializeGL], then the
    events it delivers. *)
Definition session (c : Config) (evs : list Event) : option (unit * GLWidget) :=
  (initializeGL ;; run evs) (constructed c).

(** ** Invariants of a running widget *)

(** Every object pointer that [paintGL] dereferences points to an object of
    the context, the two shader programs are distinct, a loaded volume has its
    texture, the widget's own framebuffer is the one bound between two member
    functions, and the widget is not degenerate (so that [width()/height()] is
    defined). *)
Definition ready (w : GLWidget) : Prop :=
  height w <> 0 /\
  bound_framebuffer (gl w) = DefaultFb /\
  (exists r e, raycastShader w = Some r /\ rayVolumeExitPosMapShader w = Some e /\
               r <> e /\
               (r < length (programs (gl w)))%nat /\ (e < length (programs (gl w)))%nat) /\
  (exists t, transferFunction1DTex w = Some t /\ (t < length (textures (gl w)))%nat) /\
  (exists f, rayVolumeExitPosMapFramebuffer w = Some f /\
             (f < length (framebuffers (gl w)))%nat) /\
  (forall v, volume w = Some v ->
     exists t, volume3DTex w = Some t /\ (t < length (textures (gl w)))%nat).

(** The ranges of the view state. *)
Definition view_invariant (w : GLWidget) : Prop :=
  s_between (of_int (-90)) (of_int 90) (volumeRotAngleX w) = true /\
  F32.between (F32.of_int (-1)) (F32.of_int 1) (xp (viewOffset w)) = true /\
  F32.between (F32.of_int (-1)) (F32.of_int 1) (yp (viewOffset w)) = true /\
  F32.between F32.lit_0_8 F32.lit_3 (zp (viewOffset w)) = true.

(** ** Vocabulary for statements about a frame *)

(** The clear colour [paintGL] derives from [backgroundColor]. *)
Definition background (w : GLWidget) : RGBA :=
  mkRGBA (F32.div (F32.of_int (red (backgroundColor w))) F32.lit_256)
         (F32.div (F32.of_int (green (backgroundColor w))) F32.lit_256)
         (F32.div (F32.of_int (blue (backgroundColor w))) F32.lit_256)
         F32.one.

(** The transform [drawVolumeBBoxCube] uploads as [modelViewProjMat]. *)
Definition mvp (w : GLWidget) : Transform :=
  mkTransform (s_sub (of_int 90) (volumeRotAngleX w)) (volumeRotAngleY w)
              (zp (viewOffset w)) (xp (viewOffset w)) (yp (viewOffset w))
              (Int32.wrap (Z.quot (width w) (height w))).

(** The OpenGL calls of [drawVolumeBBoxCube], in the order of the source. *)
Definition draw_pass (mode : GLface) (p : nat) (m : Transform) (g : GLState) : GLState :=
  glDisableCullFace (glDrawElements (glCullFace mode (glEnableCullFace
    (setUniformValue p "modelViewProjMat" (UMat4 m) (program_bind p (glClear true true g)))))).

(** The context [paintGL] leaves when no volume is loaded. *)
Definition cleared_only (w : GLWidget) : GLState :=
  glClear true false
    (glClearColor (ch_r (background w)) (ch_g (background w)) (ch_b (background w))
                  (ch_a (background w)) (gl w)).

(** What one frame with a loaded volume leaves in the context [g']: [d1] is
    the draw of the first pass, [d2] the draw of the second. *)
Record frame (w : GLWidget) (g' : GLState) (d1 d2 : DrawCall) : Prop := {
  frame_log :
    forall f, rayVolumeExitPosMapFramebuffer w = Some f ->
    draw_log g' = draw_log (gl w) ++ [mkDrawEvent (Fbo f) d1; mkDrawEvent DefaultFb d2];
  frame_bound : bound_framebuffer g' = DefaultFb;
  frame_programs : length (programs g') = length (programs (gl w));
  frame_textures : textures g' = textures (gl w);
  frame_exit_map :
    forall f, rayVolumeExitPosMapFramebuffer w = Some f ->
    framebuffers g' =
      alter (set_fbo_color (Drawn (Cleared (background w)) d1)) f (framebuffers (gl w));
  frame_visible : default_framebuffer g' = Drawn (Cleared (background w)) d2;
  frame_pass1 :
    Some (dc_program d1) = rayVolumeExitPosMapShader w /\ dc_cull d1 = Some GL_FRONT /\
    dc_depth_test d1 = true /\
    dc_uniforms d1 !! "modelViewProjMat" = Some (UMat4 (mvp w));
  frame_pass2 :
    Some (dc_program d2) = raycastShader w /\ dc_cull d2 = Some GL_BACK /\
    dc_depth_test d2 = true /\
    dc_uniforms d2 !! "modelViewProjMat" = Some (UMat4 (mvp w));
  frame_params :
    dc_uniforms d2 !! "screenDimensions"
      = Some (UVec2 (F32.of_int (width w)) (F32.of_int (height w))) /\
    dc_uniforms d2 !! "numSamples" = Some (UInt (numSamples w)) /\
    dc_uniforms d2 !! "sampleRangeStart" = Some (UFloat (sampleRangeStart w)) /\
    dc_uniforms d2 !! "sampleRangeEnd" = Some (UFloat (sampleRangeEnd w)) /\
    dc_uniforms d2 !! "alphaTech"
      = Some (UBool match technique w with ALPHA => true | _ => false end) /\
    dc_uniforms d2 !! "avgTech"
      = Some (UBool match technique w with AVERAGE => true | _ => false end) /\
    dc_uniforms d2 !! "transferFunction" = Some (UInt 0) /\
    dc_uniforms d2 !! "exitPositions" = Some (UInt 1) /\
    dc_uniforms d2 !! "volume" = Some (UInt 2);
  frame_exit_sampler :
    forall f fb, rayVolumeExitPosMapFramebuffer w = Some f ->
    framebuffers (gl w) !! f = Some fb ->
    dc_samplers d2 !! (1%nat, Target2D)
    = Some (Rendered (fbo_width fb) (fbo_height fb) (Drawn (Cleared (background w)) d1));
  frame_ramp_sampler :
    forall t tx, transferFunction1DTex w = Some t -> textures (gl w) !! t = Some tx ->
    tex_bindings g' !! (0%nat, tex_target tx) = Some (QTex t) /\
    dc_samplers d2 !! (0%nat, tex_target tx) = Some (Uploaded (tex_data tx));
  frame_volume_sampler :
    forall t tx, volume3DTex w = Some t -> textures (gl w) !! t = Some tx ->
    tex_bindings g' !! (2%nat, tex_target tx) = Some (QTex t) /\
    dc_samplers d2 !! (2%nat, tex_target tx) = Some (Uploaded (tex_data tx));
}.

(** What a paint leaves in the context, with or without a volume. *)
Definition painted (w : GLWidget) (g' : GLState) : Prop :=
  match volume w with
  | None => g' = cleared_only w
  | Some _ => exists d1 d2, frame w g' d1 d2
  end.

(** Resizes the host may deliver: a widget of height 0 is never painted. *)
Definition deliverable (ev : Event) : Prop :=
  match ev with
  | Resize _ h => h <> 0
  | _ => True
  end.

End Model.

Arguments Transform : clear implicits.
Arguments Uniform : clear implicits.
Arguments Image : clear implicits.
Arguments DrawCall : clear implicits.
Arguments TexContent : clear implicits.
Arguments ShaderProgram : clear implicits.
Arguments Framebuffer : clear implicits.
Arguments DrawEvent : clear implicits.
Arguments GLState : clear implicits.
Arguments GLWidget : clear implicits.
Arguments GL : clear implicits.

(** ** A concrete session, for examples *)

Definition sample_config : Config :=
  mkConfig 640 480 ∅ (mkColor 255 255 255) 100 80 F32.zero F32.one MIP.

Definition sample_volume : Volume := mkVolume 2 2 2 (replicate 8 F32.one).

(** A grid without voxels. *)
Definition empty_volume : Volume := mkVolume 0 0 0 [].

(** The widget a session ends with. *)
Definition final_widget {A : Type} `{Scalar A} (c : Config) (evs : list Event) : GLWidget A :=
  from_option snd (constructed c) (session c evs).

(** The sample widget once shown, and once a volume has been handed over. *)
Definition shown : GLWidget Z := Eval vm_compute in final_widget sample_config [].
Definition loaded : GLWidget Z :=
  Eval vm_compute in final_widget sample_config [DataLoaded (Some sample_volume)].

(** The sample widget resized to height 0 before any volume arrives. *)
Definition collapsed : GLWidget Z :=
  Eval vm_compute in final_widget sample_config [Resize 640 0].

(** ** Bookkeeping over events *)

(** Texture objects an event creates: one per volume handed over, one per
    transfer-function load. *)
Definition textures_created (ev : Event) : nat :=
  match ev with
  | DataLoaded (Some _) | LoadTransferFunctionImage _ => 1%nat
  | _ => 0%nat
  end.

(** A move that takes the rotate branch of [mouseMoveEvent]: left button held,
    neither Alt nor Control. *)
Definition rotates (e : QMouseEvent) : bool :=
  testFlag (buttons e) LeftButton
  && negb (testFlag (modifiers e) AltModifier)
  && negb (testFlag (modifiers e) ControlModifier).

Module F32Facts.
Import F32.

Lemma iter_pos_preserves {T} (P : T -> Prop) (f : T -> T) :
  (forall x, P x -> P (f x)) -> forall n x, P x -> P (SpecFloat.iter_pos f n x).
Proof.
  intros Hf n. induction n as [n IH|n IH|]; intros x Hx; simpl; auto.
Qed.

Lemma shr_1_nonneg mrs : 0 <= shr_m mrs -> 0 <= shr_m (shr_1 mrs).
Proof.
  destruct mrs as [m r s]. simpl. destruct m as [|[p|p|]|[p|p|]]; simpl; lia.
Qed.

Lemma shr_nonneg mrs e n : 0 <= shr_m mrs -> 0 <= shr_m (fst (shr mrs e n)).
Proof.
  intros Hm. destruct n as [|p|p]; simpl; auto.
  apply (iter_pos_preserves (fun x => 0 <= shr_m x)); auto using shr_1_nonneg.
Qed.

Lemma shr_record_of_loc_m m l : shr_m (shr_record_of_loc m l) = m.
Proof. destruct l as [|[]]; reflexivity. Qed.

Lemma shr_fexp_nonneg m e l :
  0 <= m -> 0 <= shr_m (fst (shr_fexp prec emax m e l)).
Proof.
  intros Hm. unfold shr_fexp. apply shr_nonneg. now rewrite shr_record_of_loc_m.
Qed.

Lemma round_nearest_even_nonneg m l : 0 <= m -> 0 <= round_nearest_even m l.
Proof.
  intros Hm. destruct l as [|[]]; simpl; try lia. destruct (Z.even m); lia.
Qed.

Lemma binary_round_aux_not_nan s m e l :
  0 <= m -> is_nan (binary_round_aux prec emax s m e l) = false.
Proof.
  intros Hm. unfold binary_round_aux.
  pose proof (shr_fexp_nonneg m e l Hm) as H1.
  destruct (shr_fexp prec emax m e l) as [mrs' e']. simpl in H1.
  pose proof (shr_fexp_nonneg _ e' loc_Exact
                (round_nearest_even_nonneg _ (loc_of_shr_record mrs') H1)) as H2.
  destruct (shr_fexp prec emax _ e' loc_Exact) as [mrs'' e'']. simpl in H2.
  destruct (shr_m mrs'') as [|p|p]; try reflexivity; try lia.
  destruct (e'' <=? emax - prec); reflexivity.
Qed.

Lemma binary_round_not_nan s m e : is_nan (binary_round prec emax s m e) = false.
Proof.
  unfold binary_round. destruct (shl_align _ _ _) as [mz ez].
  apply binary_round_aux_not_nan. lia.
Qed.

Lemma binary_normalize_not_nan m e sz : is_nan (binary_normalize prec emax m e sz) = false.
Proof. destruct m; simpl; auto using binary_round_not_nan. Qed.

Lemma of_int_not_nan n : is_nan (of_int n) = false.
Proof. apply binary_normalize_not_nan. Qed.

Lemma add_not_nan x y : is_finite x = true -> is_nan y = false -> is_nan (add x y) = false.
Proof.
  destruct x as [sx|sx| |sx mx ex], y as [sy|sy| |sy my ey]; simpl; try discriminate; auto.
  - destruct sx, sy; reflexivity.
  - intros _ _. apply binary_normalize_not_nan.
Qed.

Lemma div_eucl_nonneg a b : 0 <= a -> 0 < b -> 0 <= fst (Z.div_eucl a b).
Proof.
  intros Ha Hb. change (fst (Z.div_eucl a b)) with (a / b). apply Z.div_pos; lia.
Qed.

Lemma div_not_nan x sy my ey :
  is_nan x = false -> is_nan (div x (S754_finite sy my ey)) = false.
Proof.
  destruct x as [sx|sx| |sx mx ex]; simpl; try discriminate; auto.
  intros _. unfold SFdiv_core_binary.
  set (s := _ - _ - _).
  set (m' := match s with 0 => _ | Z.pos _ => _ | Z.neg _ => _ end).
  assert (Hm' : 0 <= m').
  { subst m'. destruct s; try lia. apply Z.shiftl_nonneg. lia. }
  pose proof (div_eucl_nonneg m' (Z.pos my) Hm' ltac:(lia)) as Hq.
  destruct (Z.div_eucl m' (Z.pos my)) as [q r]. simpl in Hq.
  now apply binary_round_aux_not_nan.
Qed.

Lemma compare_antisym x y :
  SFcompare y x = option_map CompOpp (SFcompare x y).
Proof.
  destruct x as [sx|sx| |sx mx ex], y as [sy|sy| |sy my ey]; simpl; try reflexivity;
    try (destruct sx; reflexivity); try (destruct sy; reflexivity);
    try (destruct sx, sy; reflexivity).
  f_equal.
  assert (Hm : Pos.compare_cont Eq my mx = CompOpp (Pos.compare_cont Eq mx my)).
  { symmetry. apply (Pos.compare_cont_antisym mx my Eq). }
  destruct sx, sy; try reflexivity;
    rewrite (Z.compare_antisym ex ey); destruct (ex ?= ey); simpl; try reflexivity;
    rewrite Hm; reflexivity.
Qed.

Lemma compare_not_nan x y :
  is_nan x = false -> is_nan y = false -> exists c, SFcompare x y = Some c.
Proof.
  destruct x, y; simpl; try discriminate; eauto.
Qed.


Lemma leb_not_nan x y : leb x y = true -> is_nan x = false /\ is_nan y = false.
Proof. destruct x, y; simpl; try discriminate; auto. Qed.

Lemma gtb_false_leb x y :
  is_nan x = false -> is_nan y = false -> gtb x y = false -> leb x y = true.
Proof.
  intros Hx Hy. destruct (compare_not_nan x y Hx Hy) as [c Hc].
  unfold gtb, leb, SFleb. rewrite Hc. now destruct c.
Qed.

Lemma ltb_false_leb x y :
  is_nan x = false -> is_nan y = false -> ltb x y = false -> leb y x = true.
Proof.
  intros Hx Hy. destruct (compare_not_nan x y Hx Hy) as [c Hc].
  unfold ltb, leb, SFltb, SFleb. rewrite (compare_antisym x y), Hc. now destruct c.
Qed.

Lemma leb_ltb_false x y : leb x y = true -> ltb y x = false.
Proof.
  unfold ltb, leb, SFltb, SFleb. rewrite (compare_antisym x y).
  destruct (SFcompare x y) as [[]|]; simpl; congruence.
Qed.

Lemma leb_gtb_false x y : leb x y = true -> gtb x y = false.
Proof.
  unfold gtb, leb, SFleb. destruct (SFcompare x y) as [[]|]; simpl; congruence.
Qed.

Lemma between_finite lo hi x :
  is_finite lo = true -> is_finite hi = true -> between lo hi x = true ->
  is_finite x = true.
Proof.
  unfold between, leb, SFleb.
  destruct x as [s|s| |s m e]; try reflexivity.
  - destruct lo as [sl|sl| |sl ml el], hi as [sh|sh| |sh mh eh], s; simpl;
      try discriminate; try (destruct sl; discriminate); try (destruct sh; discriminate);
      try (destruct sl, sh; discriminate).
  - destruct lo; simpl; try discriminate; intros _ _ H; discriminate H.
Qed.

Lemma leb_refl x : is_nan x = false -> leb x x = true.
Proof.
  destruct x as [s|s| |s m e]; simpl; try discriminate; try reflexivity.
  - now destruct s.
  - intros _. unfold leb, SFleb. simpl.
    rewrite Z.compare_refl, Pos.compare_cont_refl. now destruct s.
Qed.

(** Clamping as the zoom and pan branches write it: the upper bound first. *)
Lemma clamp_hi_lo_between lo hi x :
  is_nan x = false -> leb lo hi = true ->
  between lo hi (let x2 := if gtb x hi then hi else x in
                 if ltb x2 lo then lo else x2) = true.
Proof.
  intros Hx Hlh. destruct (leb_not_nan _ _ Hlh) as [Hlo Hhi].
  pose proof (leb_refl lo Hlo) as Hll. pose proof (leb_refl hi Hhi) as Hhh.
  cbv zeta. unfold between.
  destruct (gtb x hi) eqn:Hg.
  - rewrite (leb_ltb_false _ _ Hlh). now rewrite Hlh, Hhh.
  - destruct (ltb x lo) eqn:Hl.
    + now rewrite Hll, Hlh.
    + rewrite (ltb_false_leb _ _ Hx Hlo Hl), (gtb_false_leb _ _ Hx Hhi Hg). reflexivity.
Qed.

(** Clamping as the rotate branch writes it: the lower bound first. *)
Lemma clamp_lo_hi_between lo hi x :
  is_nan x = false -> leb lo hi = true ->
  between lo hi (let x2 := if ltb x lo then lo else x in
                 if gtb x2 hi then hi else x2) = true.
Proof.
  intros Hx Hlh. destruct (leb_not_nan _ _ Hlh) as [Hlo Hhi].
  pose proof (leb_refl lo Hlo) as Hll. pose proof (leb_refl hi Hhi) as Hhh.
  cbv zeta. unfold between.
  destruct (ltb x lo) eqn:Hl.
  - rewrite (leb_gtb_false _ _ Hlh). now rewrite Hll, Hlh.
  - destruct (gtb x hi) eqn:Hg.
    + now rewrite Hlh, Hhh.
    + rewrite (ltb_false_leb _ _ Hx Hlo Hl), (gtb_false_leb _ _ Hx Hhi Hg). reflexivity.
Qed.

(** Adding [+0.0f] keeps a finite number where it is. *)
Lemma add_zero_between lo hi x :
  between lo hi x = true -> is_finite x = true ->
  between lo hi (add x (S754_zero false)) = true.
Proof.
  intros Hb Hf. destruct x as [[]|s| |s m e]; try discriminate; exact Hb.
Qed.

Lemma add_zero_finite x y : is_finite x = true -> add x (S754_zero false) = y -> is_finite y = true.
Proof. intros Hf <-. destruct x as [[]|s| |s m e]; try discriminate; reflexivity. Qed.

End F32Facts.

Section Paint.
Context {A : Type} `{Scalar A}.

Implicit Types (cc : RGBA) (dt ce : bool) (cm : GLface) (bf : FbName) (cp : option nat)
  (au : nat) (tb : gmap (nat * TexTarget) TexName) (ps : list (ShaderProgram A))
  (ts : list Texture) (fbs : list (Framebuffer A)) (dfb : Image A)
  (log : list (DrawEvent A)).

Lemma glClearColor_mk r g b a cc dt ce cm bf cp au tb ps ts fbs dfb log :
  glClearColor r g b a (mkGL cc dt ce cm bf cp au tb ps ts fbs dfb log)
  = mkGL (mkRGBA r g b a) dt ce cm bf cp au tb ps ts fbs dfb log.
Proof. reflexivity. Qed.

Lemma glClear_default_mk db cc dt ce cm cp au tb ps ts fbs dfb log :
  glClear true db (mkGL cc dt ce cm DefaultFb cp au tb ps ts fbs dfb log)
  = mkGL cc dt ce cm DefaultFb cp au tb ps ts fbs (Cleared cc) log.
Proof. reflexivity. Qed.

Lemma glClear_fbo_mk db f cc dt ce cm cp au tb ps ts fbs dfb log :
  glClear true db (mkGL cc dt ce cm (Fbo f) cp au tb ps ts fbs dfb log)
  = mkGL cc dt ce cm (Fbo f) cp au tb ps ts
         (alter (set_fbo_color (Cleared cc)) f fbs) dfb log.
Proof. reflexivity. Qed.

Lemma glEnableDepthTest_mk cc dt ce cm bf cp au tb ps ts fbs dfb log :
  glEnableDepthTest (mkGL cc dt ce cm bf cp au tb ps ts fbs dfb log)
  = mkGL cc true ce cm bf cp au tb ps ts fbs dfb log.
Proof. reflexivity. Qed.

Lemma fbo_bind_mk f cc dt ce cm bf cp au tb ps ts fbs dfb log :
  fbo_bind f (mkGL cc dt ce cm bf cp au tb ps ts fbs dfb log)
  = mkGL cc dt ce cm (Fbo f) cp au tb ps ts fbs dfb log.
Proof. reflexivity. Qed.

Lemma bindDefault_mk cc dt ce cm bf cp au tb ps ts fbs dfb log :
  bindDefault (mkGL cc dt ce cm bf cp au tb ps ts fbs dfb log)
  = mkGL cc dt ce cm DefaultFb cp au tb ps ts fbs dfb log.
Proof. reflexivity. Qed.

Lemma program_bind_mk p cc dt ce cm bf cp au tb ps ts fbs dfb log :
  program_bind p (mkGL cc dt ce cm bf cp au tb ps ts fbs dfb log)
  = mkGL cc dt ce cm bf (Some p) au tb ps ts fbs dfb log.
Proof. reflexivity. Qed.

Lemma glEnableCullFace_mk cc dt ce cm bf cp au tb ps ts fbs dfb log :
  glEnableCullFace (mkGL cc dt ce cm bf cp au tb ps ts fbs dfb log)
  = mkGL cc dt true cm bf cp au tb ps ts fbs dfb log.
Proof. reflexivity. Qed.

Lemma glDisableCullFace_mk cc dt ce cm bf cp au tb ps ts fbs dfb log :
  glDisableCullFace (mkGL cc dt ce cm bf cp au tb ps ts fbs dfb log)
  = mkGL cc dt false cm bf cp au tb ps ts fbs dfb log.
Proof. reflexivity. Qed.

Lemma glCullFace_mk m cc dt ce cm bf cp au tb ps ts fbs dfb log :
  glCullFace m (mkGL cc dt ce cm bf cp au tb ps ts fbs dfb log)
  = mkGL cc dt ce m bf cp au tb ps ts fbs dfb log.
Proof. reflexivity. Qed.

Lemma glActiveTexture_mk u cc dt ce cm bf cp au tb ps ts fbs dfb log :
  glActiveTexture u (mkGL cc dt ce cm bf cp au tb ps ts fbs dfb log)
  = mkGL cc dt ce cm bf cp u tb ps ts fbs dfb log.
Proof. reflexivity. Qed.

Lemma glBindTexture_mk tg n cc dt ce cm bf cp au tb ps ts fbs dfb log :
  glBindTexture tg n (mkGL cc dt ce cm bf cp au tb ps ts fbs dfb log)
  = mkGL cc dt ce cm bf cp au (<[(au, tg) := n]> tb) ps ts fbs dfb log.
Proof. reflexivity. Qed.

Lemma texture_bind_unit_mk i u tx cc dt ce cm bf cp au tb ps ts fbs dfb log :
  ts !! i = Some tx ->
  texture_bind_unit i u (mkGL cc dt ce cm bf cp au tb ps ts fbs dfb log)
  = mkGL cc dt ce cm bf cp u (<[(u, tex_target tx) := QTex i]> tb) ps ts fbs dfb log.
Proof.
  intros Hi. unfold texture_bind_unit, texture_bind. cbn [glActiveTexture set_active_texture textures].
  rewrite Hi. reflexivity.
Qed.

Lemma setUniformValue_mk p n v cc dt ce cm bf au tb ps ts fbs dfb log :
  setUniformValue p n v (mkGL cc dt ce cm bf (Some p) au tb ps ts fbs dfb log)
  = mkGL cc dt ce cm bf (Some p) au tb
         (alter (fun po => set_prog_uniforms (<[n := v]> (prog_uniforms po)) po) p ps)
         ts fbs dfb log.
Proof.
  unfold setUniformValue. cbn [current_program]. rewrite decide_True by reflexivity.
  reflexivity.
Qed.

Lemma glDrawElements_default_mk p po cc dt ce cm au tb ps ts fbs dfb log :
  ps !! p = Some po ->
  glDrawElements (mkGL cc dt ce cm DefaultFb (Some p) au tb ps ts fbs dfb log)
  = let d := mkDraw p (if ce then Some cm else None) dt (prog_uniforms po)
               (resolve (mkGL cc dt ce cm DefaultFb (Some p) au tb ps ts fbs dfb log) <$> tb) in
    mkGL cc dt ce cm DefaultFb (Some p) au tb ps ts fbs (Drawn dfb d)
         (log ++ [mkDrawEvent DefaultFb d]).
Proof.
  intros Hp. unfold glDrawElements, snapshot. cbn [current_program programs].
  rewrite Hp. reflexivity.
Qed.

Lemma glDrawElements_fbo_mk p po f fb cc dt ce cm au tb ps ts fbs dfb log :
  ps !! p = Some po ->
  fbs !! f = Some fb ->
  glDrawElements (mkGL cc dt ce cm (Fbo f) (Some p) au tb ps ts fbs dfb log)
  = let d := mkDraw p (if ce then Some cm else None) dt (prog_uniforms po)
               (resolve (mkGL cc dt ce cm (Fbo f) (Some p) au tb ps ts fbs dfb log) <$> tb) in
    mkGL cc dt ce cm (Fbo f) (Some p) au tb ps ts
         (alter (set_fbo_color (Drawn (fbo_color fb) d)) f fbs) dfb
         (log ++ [mkDrawEvent (Fbo f) d]).
Proof.
  intros Hp Hf. unfold glDrawElements, snapshot. cbn [current_program programs].
  rewrite Hp. unfold target_color. cbn [bound_framebuffer framebuffers].
  rewrite Hf. reflexivity.
Qed.



Lemma drawVolumeBBoxCube_runs mode p (w : GLWidget A) :
  height w <> 0 ->
  drawVolumeBBoxCube mode p w = Some (tt, set_gl (draw_pass mode p (mvp w) (gl w)) w).
Proof.
  intros Hh. apply Z.eqb_neq in Hh.
  unfold drawVolumeBBoxCube, bind, call, modify, gets, int_div. destruct w; simpl in *.
  rewrite Hh. reflexivity.
Qed.

Ltac monad_cbv :=
  cbv beta iota zeta delta
    [paintGL repaint bind call modify gets deref ret fail
     gl width height files raycastShader rayVolumeExitPosMapShader transferFunction1DTex
     rayVolumeExitPosMapFramebuffer volume volume3DTex numSamples tmpNumSamples
     sampleRangeStart sampleRangeEnd technique backgroundColor lastMousePos
     volumeRotAngleX volumeRotAngleY viewOffset set_gl draw_pass].

Ltac lookup_alter :=
  repeat first [ rewrite list_lookup_alter_eq | rewrite list_lookup_alter_ne by congruence ];
  repeat match goal with Hl : ?l !! ?i = Some _ |- context [?l !! ?i] => rewrite Hl end;
  cbn [fmap option_fmap option_map prog_uniforms set_prog_uniforms vertex_source
       fragment_source linked]; reflexivity.

Ltac gl_step :=
  first
    [ rewrite glClearColor_mk | rewrite glClear_default_mk | rewrite glClear_fbo_mk
    | rewrite glEnableDepthTest_mk | rewrite fbo_bind_mk | rewrite bindDefault_mk
    | rewrite program_bind_mk | rewrite glEnableCullFace_mk | rewrite glDisableCullFace_mk
    | rewrite glCullFace_mk | rewrite glActiveTexture_mk | rewrite glBindTexture_mk
    | rewrite setUniformValue_mk
    | erewrite texture_bind_unit_mk by eassumption
    | erewrite glDrawElements_default_mk by lookup_alter
    | erewrite glDrawElements_fbo_mk by lookup_alter ];
  cbv zeta.


Lemma alter_set_fbo_color (i j : Image A) f fbs :
  alter (set_fbo_color i) f (alter (set_fbo_color j) f fbs) = alter (set_fbo_color i) f fbs.
Proof. rewrite list_alter_alter_eq. apply list_alter_ext; [|reflexivity]. now intros [] _. Qed.

Lemma paintGL_loaded (w : GLWidget A) v :
  ready w -> volume w = Some v ->
  exists g' d1 d2, paintGL w = Some (tt, set_gl g' w) /\ frame w g' d1 d2.
Proof.
  intros (Hh & Hbf & (r & e & Hr & He & Hre & Hlr & Hle) & (t & Ht & Hlt)
          & (f & Hf & Hlf) & Hvol) Hv.
  destruct (Hvol v Hv) as (vt & Hvt & Hlvt).
  apply lookup_lt_is_Some_2 in Hlr as [po_r Hpr], Hle as [po_e Hpe],
    Hlt as [tx Htx], Hlf as [fb Hfb], Hlvt as [vtx Hvtx].
  destruct w as [g fw fh fs rs es tf fbo vol vtex ns tmp s0 s1 tech bg lmp ax ay off].
  destruct g as [cc dt ce cm bf cp au tb ps ts fbs dfb log].
  cbn in Hh, Hbf, Hv, Hr, Hpr, He, Hpe, Ht, Htx, Hf, Hfb, Hvt, Hvtx. subst.
  destruct tech; eexists _, _, _;
    (split;
     [ monad_cbv; rewrite drawVolumeBBoxCube_runs by exact Hh; monad_cbv;
       rewrite drawVolumeBBoxCube_runs by exact Hh; monad_cbv;
       repeat gl_step; reflexivity | ]).
  all: constructor;
    cbn [gl bound_framebuffer programs textures draw_log framebuffers
         default_framebuffer tex_bindings
         rayVolumeExitPosMapFramebuffer transferFunction1DTex raycastShader
         rayVolumeExitPosMapShader numSamples sampleRangeStart sampleRangeEnd
         backgroundColor background red green blue width height volume3DTex technique];
    [ intros ? [= <-]; rewrite <- app_assoc; reflexivity
     | reflexivity
     | rewrite !length_alter; reflexivity
     | reflexivity
     | intros ? [= <-]; cbn [fbo_color set_fbo_color]; apply alter_set_fbo_color
     | reflexivity
     | cbn [dc_program dc_cull dc_depth_test dc_uniforms prog_uniforms set_prog_uniforms];
       split; [|split; [|split]];
       [ reflexivity | reflexivity | reflexivity | rewrite lookup_insert_eq; reflexivity ]
     | cbn [dc_program dc_cull dc_depth_test dc_uniforms prog_uniforms set_prog_uniforms];
       split; [|split; [|split]];
       [ reflexivity | reflexivity | reflexivity | rewrite lookup_insert_eq; reflexivity ]
     | cbn [dc_uniforms prog_uniforms set_prog_uniforms]; repeat split;
       repeat (rewrite lookup_insert_ne by discriminate);
       rewrite lookup_insert_eq; reflexivity
     | intros ? ? [= <-] Hfb'; cbn [dc_samplers];
       rewrite lookup_fmap; repeat (rewrite lookup_insert_ne by discriminate);
       rewrite lookup_insert_eq; cbn [fmap option_fmap option_map resolve framebuffers];
       rewrite !list_lookup_alter_eq, Hfb'; reflexivity
     | intros ? ? [= <-] Htx'; cbn [dc_samplers];
       rewrite lookup_fmap; repeat (rewrite lookup_insert_ne by discriminate);
       rewrite Htx in Htx'; injection Htx' as <-;
       rewrite lookup_insert_eq; split; [reflexivity|];
       cbn [fmap option_fmap option_map resolve textures]; rewrite Htx; reflexivity
     | intros ? ? [= <-] Htx'; cbn [dc_samplers];
       rewrite lookup_fmap;
       rewrite Hvtx in Htx'; injection Htx' as <-;
       rewrite lookup_insert_eq; split; [reflexivity|];
       cbn [fmap option_fmap option_map resolve textures]; rewrite Hvtx; reflexivity ].
Qed.

Lemma paintGL_unloaded (w : GLWidget A) :
  volume w = None -> paintGL w = Some (tt, set_gl (cleared_only w) w).
Proof.
  intros Hv. destruct w as [g fw fh fs rs es tf fbo vol vtex ns tmp s0 s1 tech bg lmp ax ay off].
  cbn in Hv. subst vol. reflexivity.
Qed.

Lemma set_gl_gl (w : GLWidget A) : set_gl (gl w) w = w.
Proof. now destruct w. Qed.

Lemma bindDefault_id (g : GLState A) : bound_framebuffer g = DefaultFb -> bindDefault g = g.
Proof. destruct g; cbn; intros ->; reflexivity. Qed.

Lemma repaint_paintGL (w : GLWidget A) :
  bound_framebuffer (gl w) = DefaultFb -> repaint w = paintGL w.
Proof.
  intros Hb. unfold repaint, bind, call, modify.
  now rewrite (bindDefault_id _ Hb), set_gl_gl.
Qed.

Lemma paintGL_spec (w : GLWidget A) :
  ready w -> exists g', paintGL w = Some (tt, set_gl g' w) /\ painted w g'.
Proof.
  intros Hr. unfold painted. destruct (volume w) as [v|] eqn:Hv.
  - destruct (paintGL_loaded w v Hr Hv) as (g' & d1 & d2 & Hp & Hf). eauto.
  - eexists; split; [now apply paintGL_unloaded | reflexivity].
Qed.

Lemma repaint_spec (w : GLWidget A) :
  ready w -> exists g', repaint w = Some (tt, set_gl g' w) /\ painted w g'.
Proof.
  intros Hr. rewrite repaint_paintGL by apply Hr. now apply paintGL_spec.
Qed.

Lemma painted_ready (w : GLWidget A) g' : ready w -> painted w g' -> ready (set_gl g' w).
Proof.
  intros (Hh & Hbf & (r & e & Hr & He & Hre & Hlr & Hle) & (t & Ht & Hlt)
          & (f & Hf & Hlf) & Hvol) Hp.
  assert (Hg : bound_framebuffer g' = DefaultFb /\
               length (programs g') = length (programs (gl w)) /\
               length (textures g') = length (textures (gl w)) /\
               length (framebuffers g') = length (framebuffers (gl w))).
  { unfold painted in Hp. destruct (volume w).
    - destruct Hp as (d1 & d2 & [_ Hb' Hp' Ht' Hem _ _ _ _ _ _ _]).
      repeat split; try assumption; [congruence|].
      rewrite (Hem f Hf). apply length_alter.
    - subst g'. destruct w as [[] ]. cbn in Hbf. subst. repeat split. }
  destruct Hg as (Hb' & Hp' & Ht' & Hf').
  destruct w as [g fw fh fs rs es tf fbo vol vtex ns tmp s0 s1 tech bg lmp ax ay off].
  unfold ready in *. cbn in *. rewrite Hp', Ht', Hf'.
  repeat split; eauto 10.
Qed.

End Paint.

Import F32Facts.

Lemma pm1_finite x :
  F32.between (F32.of_int (-1)) (F32.of_int 1) x = true -> F32.is_finite x = true.
Proof. now apply between_finite. Qed.

Lemma zrange_finite x :
  F32.between F32.lit_0_8 F32.lit_3 x = true -> F32.is_finite x = true.
Proof. now apply between_finite. Qed.

Lemma zoom_components dy v :
  let d := F32.div (F32.of_int (Int32.neg dy)) F32.lit_40 in
  xp (zoom dy v) = F32.add (xp v) (S754_zero false) /\
  yp (zoom dy v) = F32.add (yp v) (S754_zero false) /\
  zp (zoom dy v) =
    (let z2 := if F32.gtb (F32.add (zp v) d) F32.lit_3 then F32.lit_3
               else F32.add (zp v) d in
     if F32.ltb z2 F32.lit_0_8 then F32.lit_0_8 else z2).
Proof.
  destruct v as [x y z]. unfold zoom. cbn [vec_add xp yp zp]. cbv zeta.
  destruct (F32.gtb _ F32.lit_3); cbn [setZ xp yp zp];
    destruct (F32.ltb _ F32.lit_0_8); cbn [setZ xp yp zp]; auto.
Qed.

Lemma pan_components dx dy v :
  let ex := F32.div (F32.of_int dx) F32.lit_60 in
  let ey := F32.div (F32.of_int (Int32.neg dy)) F32.lit_60 in
  xp (pan dx dy v) =
    (let x2 := if F32.gtb (F32.add (xp v) ex) (F32.of_int 1) then F32.of_int 1
               else F32.add (xp v) ex in
     if F32.ltb x2 (F32.of_int (-1)) then F32.of_int (-1) else x2) /\
  yp (pan dx dy v) =
    (let y2 := if F32.gtb (F32.add (yp v) ey) (F32.of_int 1) then F32.of_int 1
               else F32.add (yp v) ey in
     if F32.ltb y2 (F32.of_int (-1)) then F32.of_int (-1) else y2) /\
  zp (pan dx dy v) = F32.add (zp v) (S754_zero false).
Proof.
  destruct v as [x y z]. unfold pan.
  cbv beta iota zeta delta [vec_add vec_div xp yp zp setX setY].
  repeat (match goal with
          | |- context [if ?b then _ else _] =>
              lazymatch b with
              | context [if _ then _ else _] => fail
              | _ => destruct b
              end
          end; cbv beta iota zeta delta [xp yp zp setX setY]);
    repeat split; reflexivity.
Qed.

Lemma zoom_in_range dy v : offset_in_range v -> offset_in_range (zoom dy v).
Proof.
  intros (Hx & Hy & Hz). unfold offset_in_range.
  destruct (zoom_components dy v) as (-> & -> & ->).
  repeat split; auto using add_zero_between, pm1_finite.
  apply clamp_hi_lo_between; [|reflexivity].
  apply add_not_nan; [now apply zrange_finite | apply div_not_nan, of_int_not_nan].
Qed.

Lemma pan_in_range dx dy v : offset_in_range v -> offset_in_range (pan dx dy v).
Proof.
  intros (Hx & Hy & Hz). unfold offset_in_range.
  destruct (pan_components dx dy v) as (-> & -> & ->).
  repeat split; auto using add_zero_between, zrange_finite;
    (apply clamp_hi_lo_between; [|reflexivity]);
    (apply add_not_nan; [now apply pm1_finite | apply div_not_nan, of_int_not_nan]).
Qed.

Lemma clamp_int_between lo hi a1 :
  lo <= hi ->
  (let a2 := if a1 <? lo then lo else a1 in
   let a3 := if a2 >? hi then hi else a2 in
   (lo <=? a3) && (a3 <=? hi)) = true.
Proof.
  intros Hlh. cbv zeta.
  destruct (Z.ltb_spec a1 lo);
    match goal with |- context [?a >? hi] => destruct (Z.gtb_spec a hi) end;
    apply andb_true_iff; split; apply Z.leb_le; lia.
Qed.

Lemma rotateX_in_range_int dy (ax : Z) :
  s_between (of_int (-90)) (of_int 90) (rotateX dy ax) = true.
Proof. unfold rotateX. apply (clamp_int_between (-90) 90). lia. Qed.

Lemma rotateX_in_range_float dy (ax : F32.t) :
  s_between (of_int (-90)) (of_int 90) ax = true ->
  s_between (of_int (-90)) (of_int 90) (rotateX dy ax) = true.
Proof.
  intros Hb. unfold rotateX.
  apply (clamp_lo_hi_between (F32.of_int (-90)) (F32.of_int 90)); [|reflexivity].
  pose proof (between_finite (F32.of_int (-90)) (F32.of_int 90) ax eq_refl eq_refl Hb) as Hf.
  destruct (_ || _).
  - apply add_not_nan; [exact Hf | apply of_int_not_nan].
  - now destruct ax.
Qed.

Section Handlers.
Context {A : Type} `{Scalar A}.

(** [ready] only reads the context, the height and the object pointers. *)
Lemma ready_members (w w' : GLWidget A) :
  gl w' = gl w -> height w' = height w ->
  raycastShader w' = raycastShader w ->
  rayVolumeExitPosMapShader w' = rayVolumeExitPosMapShader w ->
  transferFunction1DTex w' = transferFunction1DTex w ->
  rayVolumeExitPosMapFramebuffer w' = rayVolumeExitPosMapFramebuffer w ->
  volume w' = volume w -> volume3DTex w' = volume3DTex w ->
  ready w -> ready w'.
Proof.
  unfold ready. intros -> -> -> -> -> -> -> ->. exact id.
Qed.

Lemma mousePressEvent_spec (e : QMouseEvent) (w : GLWidget A) :
  mousePressEvent e w
  = Some (tt, set_lastMousePos (pos e)
                (set_tmpNumSamples
                   (if numSamples w >? 5 then numSamples w else tmpNumSamples w) w)).
Proof. now destruct w. Qed.

Lemma mouseReleaseEvent_spec (w : GLWidget A) :
  mouseReleaseEvent w = repaint (set_numSamples (tmpNumSamples w) w).
Proof. now destruct w. Qed.

Lemma setNumSamples_spec n (w : GLWidget A) :
  setNumSamples n w = repaint (set_numSamples n w).
Proof. reflexivity. Qed.

Lemma setSampleRangeStart_spec d (w : GLWidget A) :
  setSampleRangeStart d w = repaint (set_sampleRangeStart (F32.of_double d) w).
Proof. reflexivity. Qed.

Lemma setSampleRangeEnd_spec d (w : GLWidget A) :
  setSampleRangeEnd d w = repaint (set_sampleRangeEnd (F32.of_double d) w).
Proof. reflexivity. Qed.

Lemma setTechnique_spec t (w : GLWidget A) :
  setTechnique t w = repaint (set_technique t w).
Proof. reflexivity. Qed.

(** The members [mouseMoveEvent] leaves behind, before it repaints. *)
Lemma mouseMoveEvent_spec (e : QMouseEvent) (w : GLWidget A) :
  let dx := Int32.sub (px (pos e)) (px (lastMousePos w)) in
  let dy := Int32.sub (py (pos e)) (py (lastMousePos w)) in
  let left := testFlag (buttons e) LeftButton in
  let alt := testFlag (modifiers e) AltModifier in
  let ctrl := testFlag (modifiers e) ControlModifier in
  mouseMoveEvent e w
  = repaint
      (set_lastMousePos (pos e)
         (set_volumeRotAngleY
            (if left && negb alt && negb ctrl
             then rotateY dx (volumeRotAngleY w) else volumeRotAngleY w)
            (set_volumeRotAngleX
               (if left && negb alt && negb ctrl
                then rotateX dy (volumeRotAngleX w) else volumeRotAngleX w)
               (set_viewOffset
                  (if left then
                     if alt then zoom dy (viewOffset w)
                     else if ctrl then pan dx dy (viewOffset w) else viewOffset w
                   else viewOffset w)
                  (set_numSamples 5 w))))).
Proof.
  destruct w as [g fw fh fs rs es tf fbo vol vtex ns tmp s0 s1 tech bg lmp ax ay off].
  unfold mouseMoveEvent, bind, modify, gets, ret. cbn [lastMousePos set_numSamples].
  destruct (testFlag (buttons e) LeftButton), (testFlag (modifiers e) AltModifier),
    (testFlag (modifiers e) ControlModifier); reflexivity.
Qed.

Lemma resizeGL_spec fw fh (w : GLWidget A) :
  resizeGL fw fh w
  = Some (tt, set_rayVolumeExitPosMapFramebuffer (Some (length (framebuffers (gl w))))
                (set_gl (set_framebuffers
                           (framebuffers (gl w)
                              ++ [mkFramebuffer fw fh true Target2D RGBA8 Uninitialised])
                           (gl w)) w)).
Proof. now destruct w. Qed.

Lemma dataLoaded_null_spec (w : GLWidget A) :
  dataLoaded None w = Some (tt, set_volume None w).
Proof. now destruct w. Qed.

Lemma alter_snoc {T} (f : T -> T) (l : list T) (x : T) :
  alter f (length l) (l ++ [x]) = l ++ [f x].
Proof.
  rewrite alter_app_r_alt by lia. now rewrite Nat.sub_diag.
Qed.

Lemma lookup_snoc {T} (l : list T) (x : T) : (l ++ [x]) !! length l = Some x.
Proof. now rewrite lookup_app_r, Nat.sub_diag by lia. Qed.

Lemma loadTransferFunction1DTex_spec fileName (w : GLWidget A) :
  loadTransferFunction1DTex fileName w
  = Some (tt, set_transferFunction1DTex (Some (length (textures (gl w))))
                (set_gl (set_textures
                           (textures (gl w)
                              ++ [ramp_texture (QImage_load (files w) fileName)])
                           (gl w)) w)).
Proof.
  destruct w as [g fw fh fs rs es tf fbo vol vtex ns tmp s0 s1 tech bg lmp ax ay off].
  destruct g as [cc dt ce cm bf cp au tb ps ts fbs dfb log].
  unfold loadTransferFunction1DTex, new_texture, bind, call, modify, gets.
  cbn [gl files set_gl set_transferFunction1DTex textures set_textures width height
       raycastShader rayVolumeExitPosMapShader transferFunction1DTex
       rayVolumeExitPosMapFramebuffer volume volume3DTex numSamples tmpNumSamples
       sampleRangeStart sampleRangeEnd technique backgroundColor lastMousePos
       volumeRotAngleX volumeRotAngleY viewOffset
       clear_color depth_test_enabled cull_face_enabled cull_face_mode bound_framebuffer
       current_program active_texture tex_bindings programs framebuffers
       default_framebuffer draw_log].
  unfold convertToFormat_RGB888, ramp_texture.
  destruct (QImage_load fs fileName);
    unfold texture_create, texture_setFormat, texture_setData, texture_setWrapMode,
      texture_setMinificationFilter, texture_setMagnificationFilter, texture_update;
    cbn [textures set_textures clear_color depth_test_enabled cull_face_enabled
         cull_face_mode bound_framebuffer current_program active_texture tex_bindings
         programs framebuffers default_framebuffer draw_log];
    rewrite !alter_snoc; reflexivity.
Qed.

Ltac rec_norm :=
  cbv beta iota zeta delta
    [gl width height files raycastShader rayVolumeExitPosMapShader transferFunction1DTex
     rayVolumeExitPosMapFramebuffer volume volume3DTex numSamples tmpNumSamples
     sampleRangeStart sampleRangeEnd technique backgroundColor lastMousePos
     volumeRotAngleX volumeRotAngleY viewOffset
     set_gl set_volume set_volume3DTex set_transferFunction1DTex
     set_rayVolumeExitPosMapFramebuffer set_raycastShader set_rayVolumeExitPosMapShader
     set_viewOffset
     clear_color depth_test_enabled cull_face_enabled cull_face_mode bound_framebuffer
     current_program active_texture tex_bindings programs textures framebuffers
     default_framebuffer draw_log
     set_clear_color set_depth_test set_cull_face_enabled set_cull_face_mode
     set_bound_framebuffer set_current_program set_active_texture set_tex_bindings
     set_programs set_textures set_framebuffers set_default_framebuffer set_draw_log
     tex_target tex_created tex_format tex_wrap tex_min_filter tex_mag_filter tex_data
     set_tex_data
     bind call modify gets ret deref new_texture new_program new_framebuffer
     texture_create texture_setFormat texture_setWrapMode texture_setMinificationFilter
     texture_setMagnificationFilter texture_update glBindTexture program_bind].

Lemma dataLoaded_volume_spec v (w : GLWidget A) :
  dataLoaded (Some v) w
  = Some (tt, set_volume3DTex (Some (length (textures (gl w))))
                (set_volume (Some v)
                   (set_gl (set_tex_bindings
                              (<[(active_texture (gl w), Target3D)
                                 := QTex (length (textures (gl w)))]> (tex_bindings (gl w)))
                              (set_textures (textures (gl w) ++ [volume_texture v]) (gl w)))
                           w))).
Proof.
  destruct w as [g fw fh fs rs es tf fbo vol vtex ns tmp s0 s1 tech bg lmp ax ay off].
  destruct g as [cc dt ce cm bf cp au tb ps ts fbs dfb log].
  unfold dataLoaded, loadVolume3DTex. rec_norm.
  rewrite !alter_snoc. rec_norm.
  unfold texture_bind. rec_norm. rewrite lookup_snoc. rec_norm.
  unfold glTexImage3D. rec_norm. rewrite lookup_insert_eq. rec_norm.
  rewrite alter_snoc. reflexivity.
Qed.

Lemma repaint_ok (w : GLWidget A) :
  ready w ->
  exists g', repaint w = Some (tt, set_gl g' w) /\ painted w g' /\ ready (set_gl g' w).
Proof.
  intros Hr. destruct (repaint_spec w Hr) as (g' & Hp & Hg).
  exists g'. split; [exact Hp | split; [exact Hg | now apply painted_ready]].
Qed.

Lemma initializeGL_spec (w : GLWidget A) :
  let g := gl w in
  let r := length (programs g) in
  initializeGL w
  = Some (tt,
      set_viewOffset (mkVec3 (F32.of_int 0) (F32.of_int 0) F32.lit_1_8)
        (set_rayVolumeExitPosMapFramebuffer (Some (length (framebuffers g)))
           (set_transferFunction1DTex (Some (length (textures g)))
              (set_rayVolumeExitPosMapShader (Some (S r))
                 (set_raycastShader (Some r)
                    (set_gl
                       (set_framebuffers
                          (framebuffers g
                             ++ [mkFramebuffer (width w) (height w) true Target2D RGBA8
                                               Uninitialised])
                          (set_textures
                             (textures g
                                ++ [ramp_texture
                                      (QImage_load (files w)
                                         "../transferfunctions/tff_flame.png")])
                             (set_current_program None
                                (set_programs
                                   (programs g
                                      ++ [mkProgram "../src/shaders/raycast_shader.vert"
                                                    "../src/shaders/raycast_shader.frag"
                                                    true ∅;
                                          mkProgram
                                            "../src/shaders/rayvolumeexitposmap_shader.vert"
                                            "../src/shaders/rayvolumeexitposmap_shader.frag"
                                            true ∅])
                                   g))))
                       w)))))).
Proof.
  destruct w as [g fw fh fs rs es tf fbo vol vtex ns tmp s0 s1 tech bg lmp ax ay off].
  destruct g as [cc dt ce cm bf cp au tb ps ts fbs dfb log].
  unfold initializeGL, initShaders, initVolumeBBoxCubeVBO, loadTransferFunction1DTex,
    initRayVolumeExitPosMapFramebuffer.
  rec_norm. unfold convertToFormat_RGB888, ramp_texture.
  rewrite length_app, Nat.add_1_r, <- app_assoc. cbn [app].
  destruct (QImage_load fs _); unfold texture_setData; rec_norm;
    rewrite !alter_snoc; reflexivity.
Qed.

Ltac ready_cases Hr :=
  let Hh := fresh "Hh" in let Hbf := fresh "Hbf" in
  let r := fresh "r" in let e := fresh "e" in let t := fresh "t" in let f := fresh "f" in
  let Hvol := fresh "Hvol" in
  destruct Hr as (Hh & Hbf & (r & e & ? & ? & ? & ? & ?) & (t & ? & ?) & (f & ? & ?) & Hvol).

Lemma ready_set_size fw fh (w : GLWidget A) : fh <> 0 -> ready w -> ready (set_size fw fh w).
Proof.
  intros Hfh Hr. ready_cases Hr. destruct w as [[] ]; unfold ready; simpl in *.
  repeat split; eauto 10.
Qed.

Lemma ready_new_framebuffer fb (w : GLWidget A) :
  ready w ->
  ready (set_rayVolumeExitPosMapFramebuffer (Some (length (framebuffers (gl w))))
           (set_gl (set_framebuffers (framebuffers (gl w) ++ [fb]) (gl w)) w)).
Proof.
  intros Hr. ready_cases Hr. destruct w as [[] ]; unfold ready; simpl in *.
  repeat split; eauto 10. eexists; split; [reflexivity|]. rewrite length_app; simpl; lia.
Qed.

Lemma ready_new_ramp tx (w : GLWidget A) :
  ready w ->
  ready (set_transferFunction1DTex (Some (length (textures (gl w))))
           (set_gl (set_textures (textures (gl w) ++ [tx]) (gl w)) w)).
Proof.
  intros Hr. ready_cases Hr. destruct w as [[] ]; unfold ready; simpl in *.
  repeat split; eauto 10.
  - eexists; split; [reflexivity|]. rewrite length_app; simpl; lia.
  - intros v Hv'. destruct (Hvol v Hv') as (vt & ? & ?). exists vt.
    split; [assumption|]. rewrite length_app; simpl; lia.
Qed.

Lemma ready_new_volume v tx tb (w : GLWidget A) :
  ready w ->
  ready (set_volume3DTex (Some (length (textures (gl w))))
           (set_volume (Some v)
              (set_gl (set_tex_bindings tb
                         (set_textures (textures (gl w) ++ [tx]) (gl w))) w))).
Proof.
  intros Hr. ready_cases Hr. destruct w as [[] ]; unfold ready; simpl in *.
  repeat split; eauto 10.
  - eexists; split; [eassumption|]. rewrite length_app; simpl; lia.
  - intros _ _. eexists; split; [reflexivity|]. rewrite length_app; simpl; lia.
Qed.

Lemma ready_no_volume (w : GLWidget A) : ready w -> ready (set_volume None w).
Proof.
  intros Hr. destruct Hr as (Hh & Hbf & Hs & Ht & Hf & Hvol).
  destruct w as [[] ]; unfold ready; simpl in *. repeat split; auto. discriminate.
Qed.

End Handlers.

Section Reach.
Context {A : Type} `{Scalar A}.

Hypothesis rotateX_in_range :
  forall dy (ax : A),
    s_between (of_int (-90)) (of_int 90) ax = true ->
    s_between (of_int (-90)) (of_int 90) (rotateX dy ax) = true.

Lemma view_invariant_offset (w : GLWidget A) :
  view_invariant w <->
  s_between (of_int (-90)) (of_int 90) (volumeRotAngleX w) = true /\
  offset_in_range (viewOffset w).
Proof. reflexivity. Qed.

Lemma mouseMove_view (e : QMouseEvent) (w : GLWidget A) dx dy :
  view_invariant w ->
  let left := testFlag (buttons e) LeftButton in
  let alt := testFlag (modifiers e) AltModifier in
  let ctrl := testFlag (modifiers e) ControlModifier in
  s_between (of_int (-90)) (of_int 90)
    (if left && negb alt && negb ctrl
     then rotateX dy (volumeRotAngleX w) else volumeRotAngleX w) = true /\
  offset_in_range
    (if left then
       if alt then zoom dy (viewOffset w)
       else if ctrl then pan dx dy (viewOffset w) else viewOffset w
     else viewOffset w).
Proof.
  intros [Ha Ho]%view_invariant_offset. cbv zeta.
  destruct (testFlag (buttons e) LeftButton), (testFlag (modifiers e) AltModifier),
    (testFlag (modifiers e) ControlModifier); cbn [andb negb];
    auto using zoom_in_range, pan_in_range.
Qed.

Ltac then_repaint Hr :=
  match goal with
  | |- exists w', repaint ?w1 = Some (tt, w') /\ _ =>
      let g' := fresh "g'" in
      let Hp := fresh "Hp" in
      let Hr' := fresh "Hr'" in
      destruct (repaint_ok w1) as (g' & -> & Hp & Hr');
      [ revert Hr; apply ready_members; reflexivity
      | exists (set_gl g' w1); split; [reflexivity | split; [exact Hr' | ] ] ]
  end.

Lemma handle_ok (ev : Event) (w : GLWidget A) :
  ready w -> deliverable ev -> view_invariant w ->
  exists w', handle ev w = Some (tt, w') /\ ready w' /\ view_invariant w'.
Proof.
  intros Hr Hd Hv. destruct ev as [|fw fh|[v|]|n|d|d|t|chosen|e|e|]; cbn [handle].
  - (* Paint *) then_repaint Hr. exact Hv.
  - (* Resize *)
    unfold bind, modify. rewrite resizeGL_spec.
    eexists; split; [reflexivity|]. split; [|exact Hv].
    now apply ready_new_framebuffer, ready_set_size.
  - (* DataLoaded with a volume *)
    rewrite dataLoaded_volume_spec.
    eexists; split; [reflexivity|]. split; [|exact Hv].
    now apply ready_new_volume.
  - (* DataLoaded with a null pointer *)
    rewrite dataLoaded_null_spec.
    eexists; split; [reflexivity|]. split; [|exact Hv].
    now apply ready_no_volume.
  - rewrite setNumSamples_spec. then_repaint Hr. exact Hv.
  - rewrite setSampleRangeStart_spec. then_repaint Hr. exact Hv.
  - rewrite setSampleRangeEnd_spec. then_repaint Hr. exact Hv.
  - rewrite setTechnique_spec. then_repaint Hr. exact Hv.
  - (* LoadTransferFunctionImage *)
    unfold loadTransferFunctionImage, bind. rewrite loadTransferFunction1DTex_spec.
    match goal with |- exists w', repaint ?w1 = _ /\ _ =>
      destruct (repaint_ok w1) as (g' & -> & Hp & Hr') end.
    + now apply ready_new_ramp.
    + eexists; split; [reflexivity|]. split; [exact Hr'|exact Hv].
  - (* MousePress *)
    rewrite mousePressEvent_spec.
    eexists; split; [reflexivity|]. split; [|exact Hv].
    revert Hr; apply ready_members; reflexivity.
  - (* MouseMove *)
    rewrite mouseMoveEvent_spec. cbv zeta. then_repaint Hr.
    apply view_invariant_offset. now apply mouseMove_view.
  - (* MouseRelease *)
    rewrite mouseReleaseEvent_spec. then_repaint Hr. exact Hv.
Qed.

Lemma run_ok (evs : list Event) (w : GLWidget A) :
  ready w -> Forall deliverable evs -> view_invariant w ->
  exists w', run evs w = Some (tt, w') /\ ready w' /\ view_invariant w'.
Proof.
  revert w. induction evs as [|ev evs IH]; intros w Hr Hd Hv.
  - exists w. auto.
  - inversion Hd as [|? ? Hev Hevs]; subst.
    destruct (handle_ok ev w Hr Hev Hv) as (w1 & Hw1 & Hr1 & Hv1).
    destruct (IH w1 Hr1 Hevs Hv1) as (w' & Hw' & Hr' & Hv').
    exists w'. cbn [run]. unfold bind. rewrite Hw1. auto.
Qed.

Hypothesis zero_in_range : s_between (of_int (-90)) (of_int 90) (of_int 0 : A) = true.

Lemma initializeGL_ok (c : Config) :
  cfg_height c <> 0 ->
  exists w, initializeGL (constructed c) = Some (tt, w) /\ ready w /\ view_invariant w /\
            viewOffset w = mkVec3 (F32.of_int 0) (F32.of_int 0) F32.lit_1_8 /\
            volumeRotAngleX w = of_int 0 /\ volumeRotAngleY w = of_int 0 /\
            volume w = None.
Proof.
  intros Hh. rewrite initializeGL_spec. eexists; split; [reflexivity|].
  split; [|split; [|repeat split]].
  - unfold ready; simpl. repeat split; eauto.
    + exists 0%nat, 1%nat. repeat split; auto.
    + discriminate.
  - split; [exact zero_in_range | repeat split].
Qed.

Lemma session_ok (c : Config) (evs : list Event) :
  cfg_height c <> 0 -> Forall deliverable evs ->
  exists w, session c evs = Some (tt, w) /\ ready w /\ view_invariant w.
Proof.
  intros Hh Hd. destruct (initializeGL_ok c Hh) as (w0 & Hw0 & Hr0 & Hv0 & _).
  destruct (run_ok evs w0 Hr0 Hd Hv0) as (w & Hw & Hr & Hv).
  exists w. unfold session, bind. rewrite Hw0. auto.
Qed.

End Reach.

(** * The claims *)

Ltac ready_by_computation :=
  unfold ready;
  split; [ vm_compute; discriminate | ];
  split; [ vm_compute; reflexivity | ];
  split; [ exists 0%nat, 1%nat; vm_compute; repeat split; (discriminate || lia) | ];
  split; [ exists 0%nat; vm_compute; split; [reflexivity | lia] | ];
  split; [ exists 0%nat; vm_compute; split; [reflexivity | lia] | ];
  vm_compute; intros ? ?;
  first [ discriminate | exists 1%nat; split; [reflexivity | lia] ].

Lemma shown_ready : ready shown.
Proof. ready_by_computation. Qed.

Lemma loaded_ready : ready loaded.
Proof. ready_by_computation. Qed.

Section Claims.
Context {A : Type} `{Scalar A}.

(** C1.  In a paint with a loaded volume the exit-position pass (front faces
    culled, drawn into the offscreen framebuffer) is issued before the
    raycasting pass (back faces culled, drawn into the widget's framebuffer),
    and the raycasting pass samples, as [exitPositions], the exit-position
    texture exactly as the first pass of this same paint has written it over a
    freshly cleared target. *)
Theorem paintGL_exit_pass_feeds_raycasting (w : GLWidget A) (v : Volume) :
  ready w -> volume w = Some v ->
  exists f fb g' d1 d2,
    rayVolumeExitPosMapFramebuffer w = Some f /\
    framebuffers (gl w) !! f = Some fb /\
    paintGL w = Some (tt, set_gl g' w) /\
    draw_log g' = draw_log (gl w) ++ [mkDrawEvent (Fbo f) d1; mkDrawEvent DefaultFb d2] /\
    Some (dc_program d1) = rayVolumeExitPosMapShader w /\ dc_cull d1 = Some GL_FRONT /\
    Some (dc_program d2) = raycastShader w /\ dc_cull d2 = Some GL_BACK /\
    fbo_color <$> framebuffers g' !! f = Some (Drawn (Cleared (background w)) d1) /\
    dc_uniforms d2 !! "exitPositions" = Some (UInt 1) /\
    dc_samplers d2 !! (1%nat, Target2D)
      = Some (Rendered (fbo_width fb) (fbo_height fb) (Drawn (Cleared (background w)) d1)) /\
    default_framebuffer g' = Drawn (Cleared (background w)) d2.
Proof.
  intros Hr Hv.
  destruct (paintGL_loaded w v Hr Hv) as (g' & d1 & d2 & Hp & Hfr).
  destruct Hr as (_ & _ & _ & _ & (f & Hf & Hlf) & _).
  apply lookup_lt_is_Some_2 in Hlf as [fb Hfb].
  destruct Hfr as [Hlog _ _ _ Hmap Hvis (Hp1 & Hc1 & _) (Hp2 & Hc2 & _)
                   (_ & _ & _ & _ & _ & _ & _ & Hex & _) Hsam _ _].
  exists f, fb, g', d1, d2.
  repeat (split; [solve [eauto] | ]).
  split; [ | repeat split; eauto ].
  rewrite (Hmap f Hf), list_lookup_alter_eq, Hfb. reflexivity.
Qed.

(** C3.  After [resizeGL(w, h)] with positive [w] and [h] the exit-position
    map is a new framebuffer object of exactly [w] by [h], and the raycasting
    pass of the next paint samples that [w] by [h] map, filled by the first pass
    of that paint. *)
Theorem resizeGL_exit_map_dimensions (w : GLWidget A) (fw fh : Z) :
  0 < fw -> 0 < fh -> ready w ->
  exists f w',
    resizeGL fw fh w = Some (tt, w') /\
    rayVolumeExitPosMapFramebuffer w' = Some f /\
    framebuffers (gl w) !! f = None /\
    fbo_width <$> framebuffers (gl w') !! f = Some fw /\
    fbo_height <$> framebuffers (gl w') !! f = Some fh /\
    forall v, volume w = Some v ->
      exists g'' d1 d2,
        paintGL w' = Some (tt, set_gl g'' w') /\
        de_call <$> last (draw_log g'') = Some d2 /\
        Some (dc_program d2) = raycastShader w' /\
        dc_samplers d2 !! (1%nat, Target2D)
          = Some (Rendered fw fh (Drawn (Cleared (background w')) d1)) /\
        fbo_width <$> framebuffers g'' !! f = Some fw /\
        fbo_height <$> framebuffers g'' !! f = Some fh.
Proof.
  intros _ _ Hr. rewrite resizeGL_spec.
  set (fb := mkFramebuffer fw fh true Target2D RGBA8 Uninitialised).
  set (f := length (framebuffers (gl w))).
  set (w' := set_rayVolumeExitPosMapFramebuffer _ _).
  assert (Hr' : ready w') by (now apply ready_new_framebuffer).
  assert (Hf : rayVolumeExitPosMapFramebuffer w' = Some f) by reflexivity.
  assert (Hfb : framebuffers (gl w') !! f = Some fb)
    by (change (framebuffers (gl w')) with (framebuffers (gl w) ++ [fb]); apply lookup_snoc).
  exists f, w'. split; [reflexivity|]. split; [exact Hf|].
  split; [now apply lookup_ge_None_2|].
  split; [now rewrite Hfb|]. split; [now rewrite Hfb|].
  intros v Hv.
  destruct (paintGL_loaded w' v Hr' Hv) as (g'' & d1 & d2 & Hp & Hfr).
  destruct Hfr as [Hlog _ _ _ Hmap _ _ (Hp2 & _) _ Hsam _ _].
  exists g'', d1, d2. split; [exact Hp|].
  split; [rewrite (Hlog f Hf), last_app; reflexivity|].
  split; [exact Hp2|]. split; [exact (Hsam f fb Hf Hfb)|].
  rewrite (Hmap f Hf), list_lookup_alter_eq, Hfb. split; reflexivity.
Qed.

(** C4, as the code has it.  [dataLoaded] stores what it is handed and tests
    nothing but the null pointer.  Handing it a null pointer replaces the
    stored volume by null and touches nothing else: the texture object of the
    previous volume stays where it is; the next paint clears the frame to the
    clear colour and issues no draw call.  Handing it a grid [v], an empty one
    as any other, replaces the stored volume by [v], creates a texture object
    for it that did not exist before and becomes the current one, behind the
    textures that were there; the next paint issues its two draw calls and
    shows the second. *)
Theorem dataLoaded_tests_null_only (w : GLWidget A) (v : Volume) :
  ready w ->
  (exists w' w'',
     dataLoaded None w = Some (tt, w') /\
     w' = set_volume None w /\
     volume w' = None /\
     volume3DTex w' = volume3DTex w /\
     gl w' = gl w /\
     repaint w' = Some (tt, w'') /\
     default_framebuffer (gl w'') = Cleared (background w) /\
     draw_log (gl w'') = draw_log (gl w) /\
     textures (gl w'') = textures (gl w)) /\
  (exists w1 w2 t f d1 d2,
     dataLoaded (Some v) w = Some (tt, w1) /\
     volume w1 = Some v /\
     volume3DTex w1 = Some t /\
     textures (gl w) !! t = None /\
     textures (gl w1) = textures (gl w) ++ [volume_texture v] /\
     repaint w1 = Some (tt, w2) /\
     rayVolumeExitPosMapFramebuffer w = Some f /\
     draw_log (gl w2)
       = draw_log (gl w) ++ [mkDrawEvent (Fbo f) d1; mkDrawEvent DefaultFb d2] /\
     default_framebuffer (gl w2) = Drawn (Cleared (background w)) d2 /\
     dc_samplers d2 !! (2%nat, Target3D) = Some (Uploaded (tex_data (volume_texture v)))).
Proof.
  intros Hr. split.
  - rewrite dataLoaded_null_spec.
    pose proof (ready_no_volume w Hr) as Hr'.
    destruct (repaint_ok _ Hr') as (g' & Hp & Hpaint & _).
    cbv beta iota delta [painted volume set_volume] in Hpaint. subst g'.
    eexists _, _. split; [reflexivity|]. split; [reflexivity|].
    split; [reflexivity|]. split; [reflexivity|]. split; [reflexivity|].
    split; [exact Hp|].
    destruct Hr as (_ & Hbf & _). destruct w as [[] ]; simpl in *. subst.
    repeat split.
  - rewrite dataLoaded_volume_spec.
    set (t := length (textures (gl w))).
    set (w1 := set_volume3DTex _ _).
    assert (Hr1 : ready w1) by (now apply ready_new_volume).
    assert (Ht1 : volume3DTex w1 = Some t) by reflexivity.
    assert (Htx : textures (gl w1) !! t = Some (volume_texture v))
      by (change (textures (gl w1)) with (textures (gl w) ++ [volume_texture v]);
          apply lookup_snoc).
    destruct (repaint_ok w1 Hr1) as (g' & Hp & Hpaint & _).
    change (painted w1 g') with (exists d1 d2, frame w1 g' d1 d2) in Hpaint.
    destruct Hpaint as (d1 & d2 & [Hlog _ _ _ _ Hvis _ _ _ _ _ Hvol]).
    destruct Hr as (_ & _ & _ & _ & (f & Hf & _) & _).
    exists w1, (set_gl g' w1), t, f, d1, d2.
    split; [reflexivity|]. split; [reflexivity|]. split; [exact Ht1|].
    split; [now apply lookup_ge_None_2|]. split; [reflexivity|]. split; [exact Hp|].
    split; [exact Hf|]. split; [exact (Hlog f Hf)|]. split; [exact Hvis|].
    exact (proj2 (Hvol t (volume_texture v) Ht1 Htx)).
Qed.

(** C5, as the code has it.  The setters store what they are given: the
    sample count for every [int], also zero and negative ones, and each range
    bound narrowed to [float] without a look at the other bound.  The paint
    they trigger hands the stored sample count and bounds to the raycasting
    shader unchanged. *)
Theorem setters_store_unchanged (w : GLWidget A) (n : Z) (d : spec_float) :
  ready w ->
  (exists w', setNumSamples n w = Some (tt, w') /\ numSamples w' = n /\
     forall v, volume w = Some v ->
       exists d2, default_framebuffer (gl w') = Drawn (Cleared (background w)) d2 /\
                  dc_uniforms d2 !! "numSamples" = Some (UInt n)) /\
  (exists w', setSampleRangeStart d w = Some (tt, w') /\
     sampleRangeStart w' = F32.of_double d /\ sampleRangeEnd w' = sampleRangeEnd w /\
     forall v, volume w = Some v ->
       exists d2, default_framebuffer (gl w') = Drawn (Cleared (background w)) d2 /\
                  dc_uniforms d2 !! "sampleRangeStart" = Some (UFloat (F32.of_double d)) /\
                  dc_uniforms d2 !! "sampleRangeEnd" = Some (UFloat (sampleRangeEnd w))) /\
  (exists w', setSampleRangeEnd d w = Some (tt, w') /\
     sampleRangeEnd w' = F32.of_double d /\ sampleRangeStart w' = sampleRangeStart w /\
     forall v, volume w = Some v ->
       exists d2, default_framebuffer (gl w') = Drawn (Cleared (background w)) d2 /\
                  dc_uniforms d2 !! "sampleRangeStart" = Some (UFloat (sampleRangeStart w)) /\
                  dc_uniforms d2 !! "sampleRangeEnd" = Some (UFloat (F32.of_double d))).
Proof.
  intros Hr. split; [|split].
  - rewrite setNumSamples_spec.
    destruct (repaint_ok (set_numSamples n w)) as (g' & -> & Hp & _);
      [revert Hr; apply ready_members; reflexivity|].
    eexists; split; [reflexivity|]. split; [reflexivity|].
    intros v Hv. unfold painted in Hp.
    change (volume (set_numSamples n w)) with (volume w) in Hp. rewrite Hv in Hp.
    destruct Hp as (d1 & d2 & [_ _ _ _ _ Hvis _ _ (_ & Hn & _) _ _ _]).
    exists d2. split; [exact Hvis | exact Hn].
  - rewrite setSampleRangeStart_spec.
    destruct (repaint_ok (set_sampleRangeStart (F32.of_double d) w)) as (g' & -> & Hp & _);
      [revert Hr; apply ready_members; reflexivity|].
    eexists; split; [reflexivity|]. split; [reflexivity|]. split; [reflexivity|].
    intros v Hv. unfold painted in Hp.
    change (volume (set_sampleRangeStart (F32.of_double d) w)) with (volume w) in Hp.
    rewrite Hv in Hp.
    destruct Hp as (d1 & d2 & [_ _ _ _ _ Hvis _ _ (_ & _ & Hs & He & _) _ _ _]).
    exists d2. split; [exact Hvis | split; [exact Hs | exact He]].
  - rewrite setSampleRangeEnd_spec.
    destruct (repaint_ok (set_sampleRangeEnd (F32.of_double d) w)) as (g' & -> & Hp & _);
      [revert Hr; apply ready_members; reflexivity|].
    eexists; split; [reflexivity|]. split; [reflexivity|]. split; [reflexivity|].
    intros v Hv. unfold painted in Hp.
    change (volume (set_sampleRangeEnd (F32.of_double d) w)) with (volume w) in Hp.
    rewrite Hv in Hp.
    destruct Hp as (d1 & d2 & [_ _ _ _ _ Hvis _ _ (_ & _ & Hs & He & _) _ _ _]).
    exists d2. split; [exact Hvis | split; [exact Hs | exact He]].
Qed.

(** A run of pointer moves: it succeeds, leaves the remembered sample count
    alone and, if there was any move, ends with the sample count at 5. *)
Lemma moves_spec (moves : list QMouseEvent) (w : GLWidget A) :
  ready w ->
  exists w', run (MouseMove <$> moves) w = Some (tt, w') /\ ready w' /\
             tmpNumSamples w' = tmpNumSamples w /\
             (moves <> [] -> numSamples w' = 5) /\
             (moves = [] -> numSamples w' = numSamples w).
Proof.
  revert w. induction moves as [|e moves IH]; intros w Hr.
  - exists w. split; [reflexivity|]. split; [exact Hr|]. split; [reflexivity|].
    split; [congruence|reflexivity].
  - cbn [fmap list_fmap run handle]. unfold bind at 1.
    rewrite mouseMoveEvent_spec. cbv zeta.
    match goal with |- context [repaint ?w1] =>
      destruct (repaint_ok w1) as (g' & -> & _ & Hr1);
        [revert Hr; apply ready_members; reflexivity|];
      destruct (IH _ Hr1) as (w' & Hrun & Hr' & Htmp & Hne & Hnil)
    end.
    exists w'. split; [exact Hrun|]. split; [exact Hr'|]. split; [exact Htmp|].
    split; [|discriminate]. intros _.
    destruct moves as [|e' moves']; [rewrite Hnil by reflexivity; reflexivity|].
    apply Hne. discriminate.
Qed.

(** C6.  Press, drag, release: the press remembers the sample count when it is
    above 5 and keeps the older remembered value otherwise; every move of the
    drag sets the sample count to 5; the release sets it to the remembered
    value, which is the count before the press whenever that was above 5. *)
Theorem press_drag_release_restores_samples
    (w : GLWidget A) (press : QMouseEvent) (moves : list QMouseEvent) :
  ready w ->
  exists w1 w2 w3,
    mousePressEvent press w = Some (tt, w1) /\
    (numSamples w > 5 -> tmpNumSamples w1 = numSamples w) /\
    (numSamples w <= 5 -> tmpNumSamples w1 = tmpNumSamples w) /\
    run (MouseMove <$> moves) w1 = Some (tt, w2) /\
    (moves <> [] -> numSamples w2 = 5) /\
    mouseReleaseEvent w2 = Some (tt, w3) /\
    numSamples w3 = tmpNumSamples w1 /\
    (numSamples w > 5 -> numSamples w3 = numSamples w).
Proof.
  intros Hr. rewrite mousePressEvent_spec.
  set (w1 := set_lastMousePos _ _).
  assert (Hr1 : ready w1) by (revert Hr; apply ready_members; reflexivity).
  assert (Htmp1 : tmpNumSamples w1 = if numSamples w >? 5 then numSamples w
                                     else tmpNumSamples w) by reflexivity.
  destruct (moves_spec moves w1 Hr1) as (w2 & Hrun & Hr2 & Htmp2 & Hfive & _).
  destruct (repaint_ok (set_numSamples (tmpNumSamples w2) w2)) as (g3 & Hrel & _ & _);
    [revert Hr2; apply ready_members; reflexivity|].
  exists w1, w2, (set_gl g3 (set_numSamples (tmpNumSamples w2) w2)).
  split; [reflexivity|].
  split; [intros Hn; rewrite Htmp1; destruct (Z.gtb_spec (numSamples w) 5); [reflexivity|lia]|].
  split; [intros Hn; rewrite Htmp1; destruct (Z.gtb_spec (numSamples w) 5); [lia|reflexivity]|].
  split; [exact Hrun|]. split; [exact Hfive|].
  split; [now rewrite mouseReleaseEvent_spec|].
  split; [exact Htmp2|].
  intros Hn. change (tmpNumSamples w2 = numSamples w). rewrite Htmp2, Htmp1.
  destruct (Z.gtb_spec (numSamples w) 5); [reflexivity|lia].
Qed.

(** C8.  A drag with the left button and the zoom modifier whose vertical
    delta is +80 adds [-80/40.f = -2.0f] to the z component of the view offset
    and clamps the sum into [0.8f, 3]: from the initial z = 1.8f the result is
    0.8f, and a z inside the range stays inside. *)
Theorem zoom_drag_80 (w : GLWidget A) (e : QMouseEvent) :
  ready w ->
  testFlag (buttons e) LeftButton = true ->
  testFlag (modifiers e) AltModifier = true ->
  py (pos e) - py (lastMousePos w) = 80 ->
  exists w',
    mouseMoveEvent e w = Some (tt, w') /\
    F32.div (F32.of_int (Int32.neg 80)) F32.lit_40 = F32.of_int (-2) /\
    zp (viewOffset w')
      = clamp F32.lit_0_8 F32.lit_3 (F32.add (zp (viewOffset w)) (F32.of_int (-2))) /\
    (zp (viewOffset w) = F32.lit_1_8 -> zp (viewOffset w') = F32.lit_0_8) /\
    (F32.between F32.lit_0_8 F32.lit_3 (zp (viewOffset w)) = true ->
     F32.between F32.lit_0_8 F32.lit_3 (zp (viewOffset w')) = true).
Proof.
  intros Hr Hleft Halt Hdy. rewrite mouseMoveEvent_spec. cbv zeta.
  rewrite Hleft, Halt. unfold Int32.sub at 2 3. rewrite Hdy.
  change (Int32.wrap 80) with 80. cbn [andb negb].
  match goal with |- context [repaint ?w1] =>
    destruct (repaint_ok w1) as (g' & -> & _ & _);
      [revert Hr; apply ready_members; reflexivity|]
  end.
  eexists; split; [reflexivity|]. split; [reflexivity|].
  change (zp (viewOffset (set_gl g' _))) with (zp (zoom 80 (viewOffset w))).
  destruct (zoom_components 80 (viewOffset w)) as (_ & _ & Hz).
  change (F32.div (F32.of_int (Int32.neg 80)) F32.lit_40) with (F32.of_int (-2)) in Hz.
  assert (Hclamp : zp (zoom 80 (viewOffset w))
            = clamp F32.lit_0_8 F32.lit_3 (F32.add (zp (viewOffset w)) (F32.of_int (-2)))).
  { rewrite Hz. cbv zeta. unfold clamp.
    destruct (F32.gtb _ F32.lit_3); reflexivity. }
  split; [exact Hclamp|]. split.
  - intros Hz0. rewrite Hclamp, Hz0. reflexivity.
  - intros Hb. rewrite Hz.
    apply clamp_hi_lo_between; [|reflexivity].
    apply add_not_nan; [now apply zrange_finite | apply of_int_not_nan].
Qed.

(** C9.  A pointer move with no button pressed still sets the sample count to
    5 and moves the anchor to the pointer, and leaves both rotation angles and
    the whole view offset as they were. *)
Theorem hover_lowers_samples_only (w : GLWidget A) (e : QMouseEvent) :
  ready w -> buttons e = 0 ->
  exists w',
    mouseMoveEvent e w = Some (tt, w') /\
    numSamples w' = 5 /\
    lastMousePos w' = pos e /\
    volumeRotAngleX w' = volumeRotAngleX w /\
    volumeRotAngleY w' = volumeRotAngleY w /\
    viewOffset w' = viewOffset w.
Proof.
  intros Hr Hb. rewrite mouseMoveEvent_spec. cbv zeta. rewrite Hb.
  change (testFlag 0 LeftButton) with false. cbn [andb].
  match goal with |- context [repaint ?w1] =>
    destruct (repaint_ok w1) as (g' & -> & _ & _);
      [revert Hr; apply ready_members; reflexivity|]
  end.
  eexists; split; [reflexivity|]. repeat split.
Qed.

(** C10.  Every transfer-function load request, whatever path the dialog
    returns, makes [transferFunction1DTex] point to a texture object that did
    not exist before, built from the image behind the path; when nothing can be
    read there the new texture holds no data.  The previous ramp is not kept,
    and the paint that follows binds the new texture to unit 0. *)
Theorem loadTransferFunctionImage_replaces_ramp (w : GLWidget A) (chosen : string) :
  ready w ->
  exists t w',
    loadTransferFunctionImage chosen w = Some (tt, w') /\
    transferFunction1DTex w' = Some t /\
    textures (gl w) !! t = None /\
    transferFunction1DTex w' <> transferFunction1DTex w /\
    textures (gl w') !! t = Some (ramp_texture (QImage_load (files w) chosen)) /\
    (files w !! chosen = None ->
     tex_data <$> textures (gl w') !! t = Some NoData) /\
    (forall v, volume w = Some v ->
     tex_bindings (gl w') !! (0%nat, Target1D) = Some (QTex t)).
Proof.
  intros Hr. unfold loadTransferFunctionImage, bind.
  rewrite loadTransferFunction1DTex_spec.
  set (tx := ramp_texture _). set (t := length (textures (gl w))).
  set (w1 := set_transferFunction1DTex _ _).
  assert (Hr1 : ready w1) by (now apply ready_new_ramp).
  assert (Ht1 : transferFunction1DTex w1 = Some t) by reflexivity.
  assert (Htx1 : textures (gl w1) !! t = Some tx)
    by (change (textures (gl w1)) with (textures (gl w) ++ [tx]); apply lookup_snoc).
  destruct (repaint_ok w1 Hr1) as (g' & -> & Hp & _).
  assert (Htex : textures g' = textures (gl w1)).
  { unfold painted in Hp. destruct (volume w1).
    - now destruct Hp as (d1 & d2 & []).
    - subst g'. destruct Hr1 as (_ & Hbf & _). destruct w1 as [[] ]; simpl in *.
      now subst. }
  exists t, (set_gl g' w1). split; [reflexivity|]. split; [exact Ht1|].
  split; [now apply lookup_ge_None_2|].
  split.
  { destruct Hr as (_ & _ & _ & (t0 & Ht0 & Hlt0) & _).
    change (transferFunction1DTex (set_gl g' w1)) with (Some t). rewrite Ht0.
    intros [= Heq]. unfold t in Heq. lia. }
  change (textures (gl (set_gl g' w1))) with (textures g'). rewrite Htex, Htx1.
  split; [reflexivity|]. split.
  - intros Hnone. unfold tx, QImage_load. rewrite Hnone. reflexivity.
  - intros v Hv. unfold painted in Hp.
    change (volume w1) with (volume w) in Hp. rewrite Hv in Hp.
    destruct Hp as (d1 & d2 & [_ _ _ _ _ _ _ _ _ _ Hramp _]).
    exact (proj1 (Hramp t tx Ht1 Htx1)).
Qed.

(** The two events of a horizontal drag by [k] pixels from the origin. *)
Lemma drag_rotates_y (c : Config) (k : Z) :
  cfg_height c <> 0 ->
  s_between (of_int (-90)) (of_int 90) (of_int 0 : A) = true ->
  exists w : GLWidget A,
    session c [MousePress (mkMouse (mkPoint 0 0) LeftButton 0);
               MouseMove (mkMouse (mkPoint k 0) LeftButton 0)] = Some (tt, w) /\
    volumeRotAngleY w = s_add (of_int 0) (of_int (Int32.wrap (k - 0))).
Proof.
  intros Hh Hz. destruct (initializeGL_ok Hz c Hh) as (w0 & Hw0 & Hr0 & _ & _ & _ & Hy0 & _).
  unfold session, bind at 1. rewrite Hw0. cbn [run handle]. unfold bind at 1.
  rewrite mousePressEvent_spec. unfold bind at 1. rewrite mouseMoveEvent_spec. cbv zeta.
  match goal with |- context [repaint ?w1] =>
    destruct (repaint_ok w1) as (g' & -> & _ & _);
      [revert Hr0; apply ready_members; reflexivity|]
  end.
  eexists; split; [reflexivity|].
  cbv beta iota zeta delta [volumeRotAngleY set_gl set_lastMousePos set_volumeRotAngleY
    set_volumeRotAngleX set_viewOffset set_numSamples set_tmpNumSamples lastMousePos
    buttons modifiers pos px py].
  change (testFlag LeftButton LeftButton) with true.
  change (testFlag 0 AltModifier) with false.
  change (testFlag 0 ControlModifier) with false.
  cbn [andb negb]. unfold rotateY, Int32.sub.
  fold (volumeRotAngleY w0). now rewrite Hy0.
Qed.

End Claims.

Lemma wrap_in_range (k : Z) : Int32.in_range k -> Int32.wrap k = k.
Proof.
  unfold Int32.in_range, Int32.wrap, Int32.half_modulus, Int32.modulus.
  change (2 ^ 31) with 2147483648. change (2 ^ 32) with 4294967296.
  intros Hk. rewrite Z.mod_small by lia. lia.
Qed.

(** C2.  With a white background and no volume loaded, [paintGL] returns after
    the clear, without a draw call; the frame is cleared to 255/256 in each
    colour channel, which is below the 1.0 that white is ([255/255]). *)
Theorem paintGL_white_background_not_white :
  backgroundColor shown = mkColor 255 255 255 /\ volume shown = None /\
  exists w' c,
    paintGL shown = Some (tt, w') /\
    default_framebuffer (gl w') = Cleared (mkRGBA c c c F32.one) /\
    c = S754_finite false 16711680 (-24) /\
    F32.ltb c F32.one = true /\
    F32.div (F32.of_int 255) (F32.of_int 255) = F32.one /\
    draw_log (gl w') = draw_log (gl shown).
Proof.
  split; [vm_compute; reflexivity|]. split; [vm_compute; reflexivity|].
  exists (set_gl (cleared_only shown) shown), (F32.div (F32.of_int 255) F32.lit_256).
  split; [apply paintGL_unloaded; vm_compute; reflexivity|].
  split; [vm_compute; reflexivity|]. split; [vm_compute; reflexivity|].
  split; [vm_compute; reflexivity|]. split; vm_compute; reflexivity.
Qed.

(** C4, as stated, fails for the null pointer and for the empty grid.
    [loaded] holds a volume.  After [dataLoaded] with a null pointer the stored
    volume is no longer that one.  After [dataLoaded] with a grid without
    voxels neither the stored volume nor the current texture is the previous
    one, and the paint that follows draws. *)
Lemma dataLoaded_null_or_empty_counterexample :
  ~ (forall w', dataLoaded None loaded = Some (tt, w') -> volume w' = volume loaded) /\
  exists w' w'',
    dataLoaded (Some empty_volume) loaded = Some (tt, w') /\
    volume w' <> volume loaded /\
    volume3DTex w' <> volume3DTex loaded /\
    repaint w' = Some (tt, w'') /\
    draw_log (gl w'') <> draw_log (gl loaded) /\
    (forall c, default_framebuffer (gl w'') <> Cleared c).
Proof.
  split.
  - intros Hc. specialize (Hc _ (dataLoaded_null_spec loaded)).
    vm_compute in Hc. discriminate Hc.
  - rewrite dataLoaded_volume_spec.
    set (w1 := set_volume3DTex _ _).
    assert (Hr1 : ready w1) by (apply ready_new_volume, loaded_ready).
    destruct (repaint_ok w1 Hr1) as (g' & Hp & Hpaint & _).
    change (painted w1 g') with (exists d1 d2, frame w1 g' d1 d2) in Hpaint.
    destruct Hpaint as (d1 & d2 & [Hlog _ _ _ _ Hvis _ _ _ _ _ _]).
    exists w1, (set_gl g' w1). split; [reflexivity|].
    split; [vm_compute; discriminate|]. split; [vm_compute; discriminate|].
    split; [exact Hp|]. change (gl (set_gl g' w1)) with g'. split.
    + rewrite (Hlog 0%nat) by (vm_compute; reflexivity).
      assert (Hl : draw_log (gl w1) = draw_log (gl loaded)) by (vm_compute; reflexivity).
      rewrite Hl. intros Heq. apply (f_equal length) in Heq. rewrite length_app in Heq.
      cbn [length] in Heq. lia.
    + intros c. rewrite Hvis. discriminate.
Qed.

(** C5, as stated, fails: after [setNumSamples(0)] the stored sample count is
    0, neither clamped to a minimum of 1 nor left at its previous value. *)
Lemma setNumSamples_zero_counterexample :
  ~ (forall w', setNumSamples 0 loaded = Some (tt, w') -> 1 <= numSamples w').
Proof.
  intros Hc.
  destruct (repaint_ok (set_numSamples 0 loaded)) as (g' & Hp & _ & _).
  - generalize loaded_ready. apply ready_members; vm_compute; reflexivity.
  - specialize (Hc _ Hp). change (1 <= 0) in Hc. lia.
Qed.

(** C7.  From the initial state, whatever events the host delivers, the widget
    keeps running and the view state stays in range: the horizontal rotation
    angle in [-90, 90], the x and y components of the view offset in [-1, 1],
    the z component in [0.8f, 3].  This holds with the angles declared [int]
    and with the angles declared [float].  The vertical rotation angle has no
    such range: a horizontal drag by [k] pixels takes it from 0 to [k]. *)
Theorem view_state_invariant (c : Config) (evs : list Event) :
  cfg_height c <> 0 -> Forall deliverable evs ->
  (exists w : GLWidget Z, session c evs = Some (tt, w) /\ view_invariant w) /\
  (exists w : GLWidget F32.t, session c evs = Some (tt, w) /\ view_invariant w) /\
  (forall k, Int32.in_range k ->
     let drag := [MousePress (mkMouse (mkPoint 0 0) LeftButton 0);
                  MouseMove (mkMouse (mkPoint k 0) LeftButton 0)] in
     (exists w : GLWidget Z, session c drag = Some (tt, w) /\ volumeRotAngleY w = k) /\
     (exists w : GLWidget F32.t,
        session c drag = Some (tt, w) /\
        volumeRotAngleY w = F32.add (F32.of_int 0) (F32.of_int k))).
Proof.
  intros Hh Hd. split; [|split].
  - destruct (session_ok (H:=int_scalar) (fun dy ax _ => rotateX_in_range_int dy ax) eq_refl
                c evs Hh Hd) as (w & Hw & _ & Hv). eauto.
  - destruct (session_ok (H:=float_scalar) rotateX_in_range_float eq_refl c evs Hh Hd)
      as (w & Hw & _ & Hv). eauto.
  - intros k Hk drag. subst drag. split.
    + destruct (drag_rotates_y (H:=int_scalar) c k Hh eq_refl) as (w & Hw & Hy).
      exists w. split; [exact Hw|]. rewrite Hy. cbn [s_add of_int int_scalar].
      unfold Int32.add. rewrite Z.sub_0_r, Z.add_0_l, !(wrap_in_range k Hk).
      reflexivity.
    + destruct (drag_rotates_y (H:=float_scalar) c k Hh eq_refl) as (w & Hw & Hy).
      exists w. split; [exact Hw|]. rewrite Hy, Z.sub_0_r, (wrap_in_range k Hk).
      reflexivity.
Qed.

(** * The theorems at concrete inputs *)

Lemma paintGL_exit_pass_feeds_raycasting_witness :
  ready loaded /\ volume loaded = Some sample_volume /\
  exists f fb g' d1 d2,
    rayVolumeExitPosMapFramebuffer loaded = Some f /\
    framebuffers (gl loaded) !! f = Some fb /\
    paintGL loaded = Some (tt, set_gl g' loaded) /\
    draw_log g' = draw_log (gl loaded) ++ [mkDrawEvent (Fbo f) d1; mkDrawEvent DefaultFb d2] /\
    Some (dc_program d1) = rayVolumeExitPosMapShader loaded /\ dc_cull d1 = Some GL_FRONT /\
    Some (dc_program d2) = raycastShader loaded /\ dc_cull d2 = Some GL_BACK /\
    fbo_color <$> framebuffers g' !! f = Some (Drawn (Cleared (background loaded)) d1) /\
    dc_uniforms d2 !! "exitPositions" = Some (UInt 1) /\
    dc_samplers d2 !! (1%nat, Target2D)
      = Some (Rendered (fbo_width fb) (fbo_height fb)
                (Drawn (Cleared (background loaded)) d1)) /\
    default_framebuffer g' = Drawn (Cleared (background loaded)) d2.
Proof.
  assert (Hr : ready loaded) by ready_by_computation.
  assert (Hv : volume loaded = Some sample_volume) by (vm_compute; reflexivity).
  split; [exact Hr | split; [exact Hv |]].
  exact (paintGL_exit_pass_feeds_raycasting loaded sample_volume Hr Hv).
Defined.

Lemma resizeGL_exit_map_dimensions_witness :
  0 < 800 /\ 0 < 600 /\ ready loaded /\
  exists f w',
    resizeGL 800 600 loaded = Some (tt, w') /\
    rayVolumeExitPosMapFramebuffer w' = Some f /\
    framebuffers (gl loaded) !! f = None /\
    fbo_width <$> framebuffers (gl w') !! f = Some 800 /\
    fbo_height <$> framebuffers (gl w') !! f = Some 600 /\
    forall v, volume loaded = Some v ->
      exists g'' d1 d2,
        paintGL w' = Some (tt, set_gl g'' w') /\
        de_call <$> last (draw_log g'') = Some d2 /\
        Some (dc_program d2) = raycastShader w' /\
        dc_samplers d2 !! (1%nat, Target2D)
          = Some (Rendered 800 600 (Drawn (Cleared (background w')) d1)) /\
        fbo_width <$> framebuffers g'' !! f = Some 800 /\
        fbo_height <$> framebuffers g'' !! f = Some 600.
Proof.
  assert (Hr : ready loaded) by ready_by_computation.
  assert (Hw : 0 < 800) by lia. assert (Hh : 0 < 600) by lia.
  split; [exact Hw | split; [exact Hh | split; [exact Hr |]]].
  exact (resizeGL_exit_map_dimensions loaded 800 600 Hw Hh Hr).
Defined.

Lemma dataLoaded_tests_null_only_witness :
  ready loaded /\
  (exists w' w'',
     dataLoaded None loaded = Some (tt, w') /\
     w' = set_volume None loaded /\
     volume w' = None /\
     volume3DTex w' = volume3DTex loaded /\
     gl w' = gl loaded /\
     repaint w' = Some (tt, w'') /\
     default_framebuffer (gl w'') = Cleared (background loaded) /\
     draw_log (gl w'') = draw_log (gl loaded) /\
     textures (gl w'') = textures (gl loaded)) /\
  (exists w1 w2 t f d1 d2,
     dataLoaded (Some empty_volume) loaded = Some (tt, w1) /\
     volume w1 = Some empty_volume /\
     volume3DTex w1 = Some t /\
     textures (gl loaded) !! t = None /\
     textures (gl w1) = textures (gl loaded) ++ [volume_texture empty_volume] /\
     repaint w1 = Some (tt, w2) /\
     rayVolumeExitPosMapFramebuffer loaded = Some f /\
     draw_log (gl w2)
       = draw_log (gl loaded) ++ [mkDrawEvent (Fbo f) d1; mkDrawEvent DefaultFb d2] /\
     default_framebuffer (gl w2) = Drawn (Cleared (background loaded)) d2 /\
     dc_samplers d2 !! (2%nat, Target3D)
       = Some (Uploaded (tex_data (volume_texture empty_volume)))).
Proof.
  assert (Hr : ready loaded) by ready_by_computation.
  split; [exact Hr |]. exact (dataLoaded_tests_null_only loaded empty_volume Hr).
Defined.

Lemma setters_store_unchanged_witness :
  ready loaded /\
  (exists w', setNumSamples 0 loaded = Some (tt, w') /\ numSamples w' = 0) /\
  (exists w', setSampleRangeStart (S754_finite false 4503599627370496 (-52)) loaded
              = Some (tt, w') /\
     sampleRangeStart w' = F32.of_double (S754_finite false 4503599627370496 (-52)) /\
     sampleRangeEnd w' = sampleRangeEnd loaded).
Proof.
  assert (Hr : ready loaded) by ready_by_computation.
  split; [exact Hr |].
  destruct (setters_store_unchanged loaded 0 (S754_finite false 4503599627370496 (-52)) Hr)
    as ((w1 & H1 & Hn1 & _) & (w2 & H2 & Hs2 & He2 & _) & _).
  split.
  - exists w1. split; [exact H1 | exact Hn1].
  - exists w2. split; [exact H2 | split; [exact Hs2 | exact He2]].
Defined.

Lemma press_drag_release_restores_samples_witness :
  ready loaded /\
  exists w1 w2 w3,
    mousePressEvent (mkMouse (mkPoint 10 10) LeftButton 0) loaded = Some (tt, w1) /\
    (numSamples loaded > 5 -> tmpNumSamples w1 = numSamples loaded) /\
    (numSamples loaded <= 5 -> tmpNumSamples w1 = tmpNumSamples loaded) /\
    run (MouseMove <$> [mkMouse (mkPoint 20 30) LeftButton 0]) w1 = Some (tt, w2) /\
    ([mkMouse (mkPoint 20 30) LeftButton 0] <> [] -> numSamples w2 = 5) /\
    mouseReleaseEvent w2 = Some (tt, w3) /\
    numSamples w3 = tmpNumSamples w1 /\
    (numSamples loaded > 5 -> numSamples w3 = numSamples loaded).
Proof.
  assert (Hr : ready loaded) by ready_by_computation.
  split; [exact Hr |].
  exact (press_drag_release_restores_samples loaded (mkMouse (mkPoint 10 10) LeftButton 0)
           [mkMouse (mkPoint 20 30) LeftButton 0] Hr).
Defined.

Lemma view_state_invariant_witness :
  cfg_height sample_config <> 0 /\
  Forall deliverable [MousePress (mkMouse (mkPoint 10 10) LeftButton 0);
                      MouseMove (mkMouse (mkPoint 300 200) LeftButton 0);
                      MouseMove (mkMouse (mkPoint 300 900) LeftButton AltModifier);
                      MouseRelease] /\
  (exists w : GLWidget Z,
     session sample_config
       [MousePress (mkMouse (mkPoint 10 10) LeftButton 0);
        MouseMove (mkMouse (mkPoint 300 200) LeftButton 0);
        MouseMove (mkMouse (mkPoint 300 900) LeftButton AltModifier);
        MouseRelease] = Some (tt, w) /\ view_invariant w) /\
  (exists w : GLWidget F32.t,
     session sample_config
       [MousePress (mkMouse (mkPoint 10 10) LeftButton 0);
        MouseMove (mkMouse (mkPoint 300 200) LeftButton 0);
        MouseMove (mkMouse (mkPoint 300 900) LeftButton AltModifier);
        MouseRelease] = Some (tt, w) /\ view_invariant w).
Proof.
  assert (Hh : cfg_height sample_config <> 0) by (vm_compute; discriminate).
  assert (Hd : Forall deliverable
                 [MousePress (mkMouse (mkPoint 10 10) LeftButton 0);
                  MouseMove (mkMouse (mkPoint 300 200) LeftButton 0);
                  MouseMove (mkMouse (mkPoint 300 900) LeftButton AltModifier);
                  MouseRelease])
    by (repeat constructor).
  split; [exact Hh | split; [exact Hd |]].
  destruct (view_state_invariant sample_config _ Hh Hd) as (Hz & Hf & _).
  split; [exact Hz | exact Hf].
Defined.

Lemma zoom_drag_80_witness :
  ready loaded /\
  testFlag (buttons (mkMouse (mkPoint 0 80) LeftButton AltModifier)) LeftButton = true /\
  testFlag (modifiers (mkMouse (mkPoint 0 80) LeftButton AltModifier)) AltModifier = true /\
  py (pos (mkMouse (mkPoint 0 80) LeftButton AltModifier)) - py (lastMousePos loaded) = 80 /\
  exists w',
    mouseMoveEvent (mkMouse (mkPoint 0 80) LeftButton AltModifier) loaded = Some (tt, w') /\
    zp (viewOffset w') = F32.lit_0_8.
Proof.
  assert (Hr : ready loaded) by ready_by_computation.
  assert (H1 : testFlag (buttons (mkMouse (mkPoint 0 80) LeftButton AltModifier)) LeftButton
               = true) by (vm_compute; reflexivity).
  assert (H2 : testFlag (modifiers (mkMouse (mkPoint 0 80) LeftButton AltModifier))
                 AltModifier = true) by (vm_compute; reflexivity).
  assert (H3 : py (pos (mkMouse (mkPoint 0 80) LeftButton AltModifier))
               - py (lastMousePos loaded) = 80) by (vm_compute; reflexivity).
  split; [exact Hr | split; [exact H1 | split; [exact H2 | split; [exact H3 |]]]].
  destruct (zoom_drag_80 loaded (mkMouse (mkPoint 0 80) LeftButton AltModifier) Hr H1 H2 H3)
    as (w' & Hw' & _ & _ & Hz & _).
  exists w'. split; [exact Hw' |]. apply Hz. vm_compute. reflexivity.
Defined.

Lemma hover_lowers_samples_only_witness :
  ready loaded /\ buttons (mkMouse (mkPoint 5 7) 0 0) = 0 /\
  exists w',
    mouseMoveEvent (mkMouse (mkPoint 5 7) 0 0) loaded = Some (tt, w') /\
    numSamples w' = 5 /\
    lastMousePos w' = pos (mkMouse (mkPoint 5 7) 0 0) /\
    volumeRotAngleX w' = volumeRotAngleX loaded /\
    volumeRotAngleY w' = volumeRotAngleY loaded /\
    viewOffset w' = viewOffset loaded.
Proof.
  assert (Hr : ready loaded) by ready_by_computation.
  assert (Hb : buttons (mkMouse (mkPoint 5 7) 0 0) = 0) by reflexivity.
  split; [exact Hr | split; [exact Hb |]].
  exact (hover_lowers_samples_only loaded (mkMouse (mkPoint 5 7) 0 0) Hr Hb).
Defined.

Lemma loadTransferFunctionImage_replaces_ramp_witness :
  ready loaded /\
  exists t w',
    loadTransferFunctionImage "" loaded = Some (tt, w') /\
    transferFunction1DTex w' = Some t /\
    textures (gl loaded) !! t = None /\
    transferFunction1DTex w' <> transferFunction1DTex loaded /\
    textures (gl w') !! t = Some (ramp_texture (QImage_load (files loaded) "")) /\
    (files loaded !! "" = None ->
     tex_data <$> textures (gl w') !! t = Some NoData) /\
    (forall v, volume loaded = Some v ->
     tex_bindings (gl w') !! (0%nat, Target1D) = Some (QTex t)).
Proof.
  assert (Hr : ready loaded) by ready_by_computation.
  split; [exact Hr |]. exact (loadTransferFunctionImage_replaces_ramp loaded "" Hr).
Defined.

(** * Further properties of the widget *)

(** Evaluation of the monad layer only: the OpenGL calls stay folded. *)
Ltac monad_run :=
  cbv beta iota zeta delta
    [paintGL repaint bind call modify gets deref ret fail
     gl width height files raycastShader rayVolumeExitPosMapShader transferFunction1DTex
     rayVolumeExitPosMapFramebuffer volume volume3DTex numSamples tmpNumSamples
     sampleRangeStart sampleRangeEnd technique backgroundColor lastMousePos
     volumeRotAngleX volumeRotAngleY viewOffset set_gl].

Section Further.
Context {A : Type} `{Scalar A}.

(** X1.  In every state the widget reaches after [initializeGL], with no
    volume loaded [paintGL] cannot fail, also at height 0 where a paint with a
    volume would divide by zero: apart from the OpenGL functions object it
    dereferences no member pointer.  It sets the clear colour, clears the
    colour of the bound framebuffer to it and returns; no draw call is issued,
    no program, texture or binding changes and no member is assigned. *)
Theorem paintGL_without_volume (c : Config) (evs : list Event) (w : GLWidget A) :
  session c evs = Some (tt, w) ->
  volume w = None ->
  exists w',
    paintGL w = Some (tt, w') /\
    w' = set_gl (gl w') w /\
    clear_color (gl w') = background w /\
    draw_log (gl w') = draw_log (gl w) /\
    programs (gl w') = programs (gl w) /\
    textures (gl w') = textures (gl w) /\
    tex_bindings (gl w') = tex_bindings (gl w) /\
    current_program (gl w') = current_program (gl w) /\
    bound_framebuffer (gl w') = bound_framebuffer (gl w) /\
    match bound_framebuffer (gl w) with
    | DefaultFb =>
        default_framebuffer (gl w') = Cleared (background w) /\
        framebuffers (gl w') = framebuffers (gl w)
    | Fbo f =>
        default_framebuffer (gl w') = default_framebuffer (gl w) /\
        framebuffers (gl w')
          = alter (set_fbo_color (Cleared (background w))) f (framebuffers (gl w))
    end.
Proof.
  intros _ Hv. rewrite (paintGL_unloaded w Hv).
  eexists; split; [reflexivity|].
  destruct w as [g fw fh fs rs es tf fbo vol vtex ns tmp s0 s1 tech bg lmp ax ay off].
  destruct g as [cc dt ce cm [|f] cp au tb ps ts fbs dfb log]; repeat split.
Qed.

Lemma drawVolumeBBoxCube_height_0 mode p (w : GLWidget A) :
  height w = 0 -> drawVolumeBBoxCube mode p w = None.
Proof.
  intros Hh. destruct w as [g fw fh fs rs es tf fbo vol vtex ns tmp s0 s1 tech bg lmp ax ay off].
  cbn in Hh. subst fh. reflexivity.
Qed.

(** With a volume and height 0 the first pass does not get past its aspect
    ratio. *)
Lemma paintGL_height_0 (w : GLWidget A) (v : Volume) :
  volume w = Some v -> height w = 0 -> paintGL w = None.
Proof.
  intros Hv Hh.
  destruct w as [g fw fh fs rs es tf fbo vol vtex ns tmp s0 s1 tech bg lmp ax ay off].
  cbn in Hv, Hh. subst vol fh. monad_run.
  destruct fbo as [f|]; [|reflexivity].
  destruct es as [e|]; [|reflexivity].
  rewrite drawVolumeBBoxCube_height_0 by reflexivity. reflexivity.
Qed.

(** X2.  The aspect ratio is the [int] quotient [width()/height()], so the
    height decides whether a frame with a volume can be drawn: after a resize
    of an initialised widget that holds a volume, [paintGL] fails, dividing by
    zero, exactly when the new height is 0. *)
Theorem paint_after_resize_fails_iff_height_0 (w : GLWidget A) (v : Volume) (fw fh : Z) :
  ready w -> volume w = Some v -> 0 <= fh ->
  exists w1,
    handle (Resize fw fh) w = Some (tt, w1) /\
    width w1 = fw /\ height w1 = fh /\
    (paintGL w1 = None <-> fh = 0).
Proof.
  intros Hr Hv Hfh. cbn [handle]. unfold bind, modify. rewrite resizeGL_spec.
  set (w1 := set_rayVolumeExitPosMapFramebuffer _ _).
  assert (Hv1 : volume w1 = Some v) by (destruct w; exact Hv).
  assert (Hw1 : width w1 = fw) by (destruct w; reflexivity).
  assert (Hh1 : height w1 = fh) by (destruct w; reflexivity).
  exists w1. split; [reflexivity|]. split; [exact Hw1|]. split; [exact Hh1|]. split.
  - intros Hfail. destruct (Z.eq_dec fh 0) as [Hz|Hnz]; [exact Hz|].
    assert (Hr1 : ready w1) by (now apply ready_new_framebuffer, ready_set_size).
    destruct (paintGL_loaded w1 v Hr1 Hv1) as (g' & d1 & d2 & Hp & _).
    congruence.
  - intros Hz. apply (paintGL_height_0 w1 v Hv1). now rewrite Hh1.
Qed.

(** X3.  Both passes of a frame rasterise the cube under one and the same
    transform, built from the view state at the time of the paint: rotation
    [90 - volumeRotAngleX] about x, [volumeRotAngleY] about y, the camera at
    distance [viewOffset.z], the pan [viewOffset.x, viewOffset.y], and as
    aspect ratio the truncated [int] quotient of width and height, which is 0
    for every viewport higher than wide. *)
Theorem both_passes_share_transform (w : GLWidget A) (v : Volume) :
  ready w -> volume w = Some v ->
  exists g' d1 d2 m,
    paintGL w = Some (tt, set_gl g' w) /\
    de_call <$> draw_log g' !! length (draw_log (gl w)) = Some d1 /\
    de_call <$> draw_log g' !! S (length (draw_log (gl w))) = Some d2 /\
    dc_uniforms d1 !! "modelViewProjMat" = Some (UMat4 m) /\
    dc_uniforms d2 !! "modelViewProjMat" = Some (UMat4 m) /\
    rot_x m = s_sub (of_int 90) (volumeRotAngleX w) /\
    rot_y m = volumeRotAngleY w /\
    eye_z m = zp (viewOffset w) /\
    pan_x m = xp (viewOffset w) /\ pan_y m = yp (viewOffset w) /\
    aspect m = Int32.wrap (Z.quot (width w) (height w)) /\
    (0 <= width w < height w -> aspect m = 0).
Proof.
  intros Hr Hv.
  destruct (paintGL_loaded w v Hr Hv) as (g' & d1 & d2 & Hp & Hfr).
  destruct Hr as (_ & _ & _ & _ & (f & Hf & _) & _).
  destruct Hfr as [Hlog _ _ _ _ _ (_ & _ & _ & Hm1) (_ & _ & _ & Hm2) _ _ _ _].
  exists g', d1, d2, (mvp w). split; [exact Hp|].
  rewrite (Hlog f Hf).
  split; [now rewrite lookup_app_r, Nat.sub_diag by lia|].
  split.
  { rewrite lookup_app_r by lia.
    replace (S (length (draw_log (gl w))) - length (draw_log (gl w)))%nat with 1%nat by lia.
    reflexivity. }
  repeat (split; [assumption || reflexivity|]).
  intros Hwh. cbn [aspect mvp]. rewrite Z.quot_small by exact Hwh. reflexivity.
Qed.

(** X4.  [setTechnique] reaches the shader as two flags: MIP clears both, ALPHA
    raises [alphaTech] only, AVERAGE raises [avgTech] only; they are never
    raised together. *)
Theorem setTechnique_flags (w : GLWidget A) (v : Volume) (t : techniques) :
  ready w -> volume w = Some v ->
  exists w' d2 a g,
    setTechnique t w = Some (tt, w') /\
    technique w' = t /\
    default_framebuffer (gl w') = Drawn (Cleared (background w)) d2 /\
    dc_uniforms d2 !! "alphaTech" = Some (UBool a) /\
    dc_uniforms d2 !! "avgTech" = Some (UBool g) /\
    (a, g) = match t with
             | MIP => (false, false)
             | ALPHA => (true, false)
             | AVERAGE => (false, true)
             end /\
    a && g = false.
Proof.
  intros Hr Hv. rewrite setTechnique_spec.
  destruct (repaint_ok (set_technique t w)) as (g' & -> & Hp & _);
    [revert Hr; apply ready_members; reflexivity|].
  unfold painted in Hp. change (volume (set_technique t w)) with (volume w) in Hp.
  rewrite Hv in Hp.
  destruct Hp as (d1 & d2 & [_ _ _ _ _ Hvis _ _ (_ & _ & _ & _ & Ha & Hg & _) _ _ _]).
  change (technique (set_technique t w)) with t in Ha, Hg.
  eexists _, d2, _, _. split; [reflexivity|]. split; [reflexivity|].
  split; [exact Hvis|]. split; [exact Ha|]. split; [exact Hg|].
  destruct t; split; reflexivity.
Qed.

(** X5.  After [dataLoaded(v)] with a volume, whatever was loaded before, the
    raycasting pass of the next paint samples on unit 2 the texture object this
    call created, with the image [glTexImage3D] was handed: internal format
    [GL_RGB], the dimensions of [v], and as client data the voxels of [v] read
    as [GL_LUMINANCE] floats; the format asked of Qt for the object is
    [R32F].  The texture is a new object, and the textures of earlier volumes
    stay allocated and unchanged. *)
Theorem dataLoaded_then_paint_samples_volume (w : GLWidget A) (v : Volume) :
  ready w ->
  exists w1 g' d2 t,
    dataLoaded (Some v) w = Some (tt, w1) /\
    volume w1 = Some v /\
    volume3DTex w1 = Some t /\
    textures (gl w) !! t = None /\
    textures (gl w1) = textures (gl w) ++ [volume_texture v] /\
    tex_format <$> textures (gl w1) !! t = Some (Some R32F) /\
    paintGL w1 = Some (tt, set_gl g' w1) /\
    default_framebuffer g' = Drawn (Cleared (background w)) d2 /\
    dc_uniforms d2 !! "volume" = Some (UInt 2) /\
    tex_bindings g' !! (2%nat, Target3D) = Some (QTex t) /\
    dc_samplers d2 !! (2%nat, Target3D)
      = Some (Uploaded (VolumeData GL_RGB (getWidth v) (getHeight v) (getDepth v)
                                   GL_LUMINANCE GL_FLOAT (getVoxels v))).
Proof.
  intros Hr. rewrite dataLoaded_volume_spec.
  set (t := length (textures (gl w))).
  set (w1 := set_volume3DTex _ _).
  assert (Hr1 : ready w1) by (now apply ready_new_volume).
  assert (Hv1 : volume w1 = Some v) by reflexivity.
  assert (Ht1 : volume3DTex w1 = Some t) by reflexivity.
  assert (Htx : textures (gl w1) !! t = Some (volume_texture v))
    by (change (textures (gl w1)) with (textures (gl w) ++ [volume_texture v]);
        apply lookup_snoc).
  destruct (paintGL_loaded w1 v Hr1 Hv1) as (g' & d1 & d2 & Hp & Hfr).
  destruct Hfr as [_ _ _ _ _ Hvis _ _ (_ & _ & _ & _ & _ & _ & _ & _ & Hu) _ _ Hvol].
  exists w1, g', d2, t. split; [reflexivity|]. split; [exact Hv1|]. split; [exact Ht1|].
  split; [now apply lookup_ge_None_2|]. split; [reflexivity|].
  split; [now rewrite Htx|]. split; [exact Hp|].
  split; [exact Hvis|]. split; [exact Hu|].
  exact (Hvol t (volume_texture v) Ht1 Htx).
Qed.

(** X6.  [resizeGL] never frees or changes a framebuffer object: after any
    number of resizes all earlier objects are still there, one new object has
    been created per resize, and the exit-position map is the newest one, with
    the size of the last resize. *)
Theorem resizes_accumulate_framebuffers (sizes : list (Z * Z)) (w : GLWidget A) :
  exists w',
    run ((fun s => Resize (fst s) (snd s)) <$> sizes) w = Some (tt, w') /\
    framebuffers (gl w')
      = framebuffers (gl w)
        ++ ((fun s => mkFramebuffer (fst s) (snd s) true Target2D RGBA8 Uninitialised)
              <$> sizes) /\
    (sizes <> [] ->
     rayVolumeExitPosMapFramebuffer w'
       = Some (length (framebuffers (gl w)) + length sizes - 1)%nat /\
     exists fb, framebuffers (gl w') !! (length (framebuffers (gl w)) + length sizes - 1)%nat
                = Some fb /\
                Some (fbo_width fb, fbo_height fb) = last sizes).
Proof.
  revert w. induction sizes as [|[fw fh] sizes IH]; intros w.
  - exists w. split; [reflexivity|]. split; [now rewrite app_nil_r|]. congruence.
  - cbn [fmap list_fmap run handle fst snd]. unfold bind at 1 2, modify.
    rewrite resizeGL_spec.
    match goal with |- context [run _ ?w1] => destruct (IH w1) as (w' & Hrun & Hfbs & Hlast) end.
    exists w'. split; [exact Hrun|].
    change (framebuffers (gl (set_rayVolumeExitPosMapFramebuffer _ (set_gl ?g _))))
      with (framebuffers g) in Hfbs, Hlast.
    change (gl (set_size fw fh w)) with (gl w) in Hfbs, Hlast.
    cbn [framebuffers set_framebuffers] in Hfbs, Hlast.
    rewrite <- app_assoc in Hfbs. split; [exact Hfbs|]. intros _.
    rewrite length_app in Hlast. cbn [length] in Hlast |- *.
    destruct sizes as [|s sizes'].
    + clear Hlast. cbn in Hrun. injection Hrun as <-. cbn [length].
      replace (length (framebuffers (gl w)) + 1 - 1)%nat
        with (length (framebuffers (gl w))) by lia.
      split; [reflexivity|]. eexists. split; [apply lookup_snoc|reflexivity].
    + destruct Hlast as [Hptr (fb & Hfb & Hdim)]; [discriminate|].
      replace (length (framebuffers (gl w)) + S (length (s :: sizes')) - 1)%nat
        with (length (framebuffers (gl w)) + 1 + length (s :: sizes') - 1)%nat by lia.
      split; [exact Hptr|]. exists fb. split; [exact Hfb|]. exact Hdim.
Qed.

(** X7.  The sample count set through [setNumSamples] does not survive a hover:
    a move without button lowers it to 5, so the next press does not remember
    it, and the release restores the value remembered earlier instead. *)
Theorem hover_forgets_sample_count
    (w : GLWidget A) (n : Z) (hover press : QMouseEvent) (drag : list QMouseEvent) :
  ready w -> buttons hover = 0 ->
  exists w',
    run ([SetNumSamples n; MouseMove hover; MousePress press]
           ++ (MouseMove <$> drag) ++ [MouseRelease]) w = Some (tt, w') /\
    numSamples w' = tmpNumSamples w.
Proof.
  intros Hr Hb. cbn [app run handle]. unfold bind at 1. rewrite setNumSamples_spec.
  destruct (repaint_ok (set_numSamples n w)) as (g1 & -> & _ & Hr1);
    [revert Hr; apply ready_members; reflexivity|].
  unfold bind at 1. rewrite mouseMoveEvent_spec. cbv zeta. rewrite Hb.
  change (testFlag 0 LeftButton) with false. cbn [andb].
  match goal with |- context [repaint ?w2] =>
    destruct (repaint_ok w2) as (g2 & -> & _ & Hr2);
      [revert Hr1; apply ready_members; reflexivity|]
  end.
  unfold bind at 1. rewrite mousePressEvent_spec.
  match goal with |- context [run _ ?w3] =>
    assert (Hr3 : ready w3) by (revert Hr2; apply ready_members; reflexivity);
    assert (Htmp3 : tmpNumSamples w3 = tmpNumSamples w) by reflexivity;
    destruct (moves_spec drag w3 Hr3) as (w4 & Hrun & Hr4 & Htmp4 & _)
  end.
  assert (Hsplit : forall evs1 evs2 (u u' : GLWidget A),
             run evs1 u = Some (tt, u') -> run (evs1 ++ evs2) u = run evs2 u').
  { induction evs1 as [|ev evs1 IHe]; intros evs2 u u' Hu.
    - cbn in Hu. now injection Hu as ->.
    - cbn [app run] in Hu |- *. unfold bind in Hu |- *.
      destruct (handle ev u) as [[[] u1]|]; [|discriminate]. now apply IHe. }
  rewrite (Hsplit _ _ _ _ Hrun). cbn [run handle]. unfold bind.
  rewrite mouseReleaseEvent_spec.
  destruct (repaint_ok (set_numSamples (tmpNumSamples w4) w4)) as (g5 & -> & _ & _);
    [revert Hr4; apply ready_members; reflexivity|].
  eexists; split; [reflexivity|].
  change (tmpNumSamples w4 = tmpNumSamples w). now rewrite Htmp4.
Qed.

(** X8.  With the left button and both modifiers held, the zoom branch wins:
    the drag zooms by its vertical delta and neither pans nor rotates. *)
Theorem alt_wins_over_control (w : GLWidget A) (e : QMouseEvent) :
  ready w ->
  testFlag (buttons e) LeftButton = true ->
  testFlag (modifiers e) AltModifier = true ->
  exists w',
    mouseMoveEvent e w = Some (tt, w') /\
    viewOffset w' = zoom (Int32.sub (py (pos e)) (py (lastMousePos w))) (viewOffset w) /\
    volumeRotAngleX w' = volumeRotAngleX w /\
    volumeRotAngleY w' = volumeRotAngleY w.
Proof.
  intros Hr Hleft Halt. rewrite mouseMoveEvent_spec. cbv zeta. rewrite Hleft, Halt.
  cbn [andb negb].
  match goal with |- context [repaint ?w1] =>
    destruct (repaint_ok w1) as (g' & -> & _ & _);
      [revert Hr; apply ready_members; reflexivity|]
  end.
  eexists; split; [reflexivity|]. repeat split.
Qed.

(** X9.  Only the left button drives the view: a move whose button mask lacks
    the left button, whatever other buttons and modifiers it carries, leaves
    angles and offset alone; it still lowers the sample count to 5, keeps the
    remembered sample count and moves the anchor. *)
Theorem other_buttons_leave_view (w : GLWidget A) (e : QMouseEvent) :
  ready w -> Z.land (buttons e) LeftButton = 0 ->
  exists w',
    mouseMoveEvent e w = Some (tt, w') /\
    viewOffset w' = viewOffset w /\
    volumeRotAngleX w' = volumeRotAngleX w /\
    volumeRotAngleY w' = volumeRotAngleY w /\
    numSamples w' = 5 /\ tmpNumSamples w' = tmpNumSamples w /\
    lastMousePos w' = pos e.
Proof.
  intros Hr Hb. rewrite mouseMoveEvent_spec. cbv zeta.
  assert (Hleft : testFlag (buttons e) LeftButton = false)
    by (unfold testFlag; rewrite Hb; reflexivity).
  rewrite Hleft. cbn [andb negb].
  match goal with |- context [repaint ?w1] =>
    destruct (repaint_ok w1) as (g' & -> & _ & _);
      [revert Hr; apply ready_members; reflexivity|]
  end.
  eexists; split; [reflexivity|]. repeat split.
Qed.

Lemma handle_ready (ev : Event) (w : GLWidget A) :
  ready w -> deliverable ev -> exists w', handle ev w = Some (tt, w') /\ ready w'.
Proof.
  intros Hr Hd.
  assert (Hrep : forall w1 : GLWidget A, ready w1 ->
                 exists w', repaint w1 = Some (tt, w') /\ ready w').
  { intros w1 Hr1. destruct (repaint_ok w1 Hr1) as (g' & -> & _ & Hr'). eauto. }
  destruct ev as [|fw fh|[v|]|n|d|d|t|chosen|e|e|]; cbn [handle].
  - now apply Hrep.
  - unfold bind, modify. rewrite resizeGL_spec. eexists; split; [reflexivity|].
    now apply ready_new_framebuffer, ready_set_size.
  - rewrite dataLoaded_volume_spec. eexists; split; [reflexivity|].
    now apply ready_new_volume.
  - rewrite dataLoaded_null_spec. eexists; split; [reflexivity|].
    now apply ready_no_volume.
  - rewrite setNumSamples_spec. apply Hrep. revert Hr; apply ready_members; reflexivity.
  - rewrite setSampleRangeStart_spec. apply Hrep.
    revert Hr; apply ready_members; reflexivity.
  - rewrite setSampleRangeEnd_spec. apply Hrep.
    revert Hr; apply ready_members; reflexivity.
  - rewrite setTechnique_spec. apply Hrep. revert Hr; apply ready_members; reflexivity.
  - unfold loadTransferFunctionImage, bind. rewrite loadTransferFunction1DTex_spec.
    apply Hrep. now apply ready_new_ramp.
  - rewrite mousePressEvent_spec. eexists; split; [reflexivity|].
    revert Hr; apply ready_members; reflexivity.
  - rewrite mouseMoveEvent_spec. cbv zeta. apply Hrep.
    revert Hr; apply ready_members; reflexivity.
  - rewrite mouseReleaseEvent_spec. apply Hrep.
    revert Hr; apply ready_members; reflexivity.
Qed.

Lemma run_ready (evs : list Event) (w : GLWidget A) :
  ready w -> Forall deliverable evs -> exists w', run evs w = Some (tt, w') /\ ready w'.
Proof.
  revert w. induction evs as [|ev evs IH]; intros w Hr Hd.
  - exists w. split; [reflexivity | exact Hr].
  - inversion Hd as [|? ? Hev Hevs]; subst.
    destruct (handle_ready ev w Hr Hev) as (w1 & Hw1 & Hr1).
    destruct (IH w1 Hr1 Hevs) as (w' & Hw' & Hr').
    exists w'. cbn [run]. unfold bind. rewrite Hw1. auto.
Qed.

(** X10.  Once the OpenGL functions object is obtained, [initializeGL] runs to
    its end on every freshly constructed widget.  It leaves two shader programs
    (raycast first), the transfer-function texture built from
    [tff_flame.png] (without data when that file cannot be read), an
    exit-position map of the widget's size, the view offset (0, 0, 1.8f), no
    program bound and nothing drawn. *)
Theorem initializeGL_establishes (c : Config) :
  exists (w : GLWidget A) fb,
    initializeGL (constructed c) = Some (tt, w) /\
    raycastShader w = Some 0%nat /\ rayVolumeExitPosMapShader w = Some 1%nat /\
    vertex_source <$> programs (gl w) !! 0%nat = Some "../src/shaders/raycast_shader.vert" /\
    vertex_source <$> programs (gl w) !! 1%nat
      = Some "../src/shaders/rayvolumeexitposmap_shader.vert" /\
    current_program (gl w) = None /\
    transferFunction1DTex w = Some 0%nat /\
    textures (gl w)
      = [ramp_texture (QImage_load (cfg_files c) "../transferfunctions/tff_flame.png")] /\
    (cfg_files c !! "../transferfunctions/tff_flame.png" = None ->
     tex_data <$> textures (gl w) !! 0%nat = Some NoData) /\
    rayVolumeExitPosMapFramebuffer w = Some 0%nat /\
    framebuffers (gl w) = [fb] /\
    fbo_width fb = cfg_width c /\ fbo_height fb = cfg_height c /\
    fbo_color fb = Uninitialised /\
    viewOffset w = mkVec3 (F32.of_int 0) (F32.of_int 0) F32.lit_1_8 /\
    volume w = None /\ draw_log (gl w) = [] /\
    (cfg_height c <> 0 -> ready w).
Proof.
  rewrite initializeGL_spec. eexists _, _. split; [reflexivity|].
  repeat (split; [reflexivity|]).
  split.
  { intros Hnone. cbn. unfold QImage_load. rewrite Hnone. reflexivity. }
  repeat (split; [reflexivity|]).
  intros Hh. unfold ready; simpl. repeat split; eauto.
  - exists 0%nat, 1%nat. repeat split; auto.
  - discriminate.
Qed.

Lemma initializeGL_ready (c : Config) :
  cfg_height c <> 0 ->
  exists w : GLWidget A, initializeGL (constructed c) = Some (tt, w) /\ ready w.
Proof.
  intros Hh. rewrite initializeGL_spec. eexists. split; [reflexivity|].
  unfold ready; simpl. repeat split; eauto.
  - exists 0%nat, 1%nat. repeat split; auto.
  - discriminate.
Qed.

(** X11.  After [initializeGL] the member functions never dereference a null
    pointer and never divide by zero: from a widget of non-zero height, every
    sequence of events (with resizes to non-zero height) runs to the end, and
    all object pointers used for painting stay valid. *)
Theorem session_never_fails (c : Config) (evs : list Event) :
  cfg_height c <> 0 -> Forall deliverable evs ->
  exists w : GLWidget A, session c evs = Some (tt, w) /\ ready w.
Proof.
  intros Hh Hd.
  destruct (initializeGL_ready c Hh) as (w0 & Hw0 & Hr0).
  destruct (run_ready evs w0 Hr0 Hd) as (w & Hw & Hr).
  exists w. unfold session, bind. rewrite Hw0. auto.
Qed.

(** X12.  A repaint creates no OpenGL object and assigns none of the members
    that carry state from one event to the next: the object pointers, the
    volume, the sample count and its remembered value, the sample range, the
    technique, the background colour, the anchor, both angles and the view
    offset are as before (the matrices [modelMat], [viewMat] and [projMat] are
    recomputed by every draw and are no part of this).  The widget's own
    framebuffer is bound at the end, and two draw calls have been issued with a
    volume loaded and none without. *)
Theorem repaint_allocates_nothing (w : GLWidget A) :
  ready w ->
  exists w',
    repaint w = Some (tt, w') /\
    (raycastShader w' = raycastShader w /\
     rayVolumeExitPosMapShader w' = rayVolumeExitPosMapShader w /\
     transferFunction1DTex w' = transferFunction1DTex w /\
     rayVolumeExitPosMapFramebuffer w' = rayVolumeExitPosMapFramebuffer w /\
     volume w' = volume w /\ volume3DTex w' = volume3DTex w) /\
    (numSamples w' = numSamples w /\ tmpNumSamples w' = tmpNumSamples w /\
     sampleRangeStart w' = sampleRangeStart w /\ sampleRangeEnd w' = sampleRangeEnd w /\
     technique w' = technique w /\ backgroundColor w' = backgroundColor w) /\
    (lastMousePos w' = lastMousePos w /\
     volumeRotAngleX w' = volumeRotAngleX w /\ volumeRotAngleY w' = volumeRotAngleY w /\
     viewOffset w' = viewOffset w) /\
    length (programs (gl w')) = length (programs (gl w)) /\
    textures (gl w') = textures (gl w) /\
    length (framebuffers (gl w')) = length (framebuffers (gl w)) /\
    bound_framebuffer (gl w') = DefaultFb /\
    length (draw_log (gl w'))
      = (length (draw_log (gl w)) + if volume w is Some _ then 2 else 0)%nat.
Proof.
  intros Hr. destruct (repaint_ok w Hr) as (g' & -> & Hp & _).
  eexists; split; [reflexivity|].
  split; [repeat split|]. split; [repeat split|]. split; [repeat split|].
  change (gl (set_gl g' w)) with g'.
  destruct Hr as (_ & Hbf & _ & _ & (f & Hf & _) & _).
  unfold painted in Hp. destruct (volume w).
  - destruct Hp as (d1 & d2 & [Hlog Hb Hpl Htx Hem _ _ _ _ _ _ _]).
    rewrite (Hlog f Hf), (Hem f Hf), length_app, length_alter. cbn [length].
    repeat split; assumption.
  - subst g'. destruct w as [[] ]; simpl in *. subst.
    unfold cleared_only. cbn [gl]. rewrite glClearColor_mk, glClear_default_mk.
    repeat split. simpl. lia.
Qed.

(** X13.  A frame writes to one framebuffer object only, the current
    exit-position map, whose size it keeps; the objects left behind by earlier
    resizes are never drawn to again. *)
Theorem paint_writes_current_exit_map_only (w : GLWidget A) (v : Volume) :
  ready w -> volume w = Some v ->
  exists g' f,
    paintGL w = Some (tt, set_gl g' w) /\
    rayVolumeExitPosMapFramebuffer w = Some f /\
    (forall j, j <> f -> framebuffers g' !! j = framebuffers (gl w) !! j) /\
    fbo_width <$> framebuffers g' !! f = fbo_width <$> framebuffers (gl w) !! f /\
    fbo_height <$> framebuffers g' !! f = fbo_height <$> framebuffers (gl w) !! f.
Proof.
  intros Hr Hv.
  destruct (paintGL_loaded w v Hr Hv) as (g' & d1 & d2 & Hp & Hfr).
  destruct Hr as (_ & _ & _ & _ & (f & Hf & _) & _).
  destruct Hfr as [_ _ _ _ Hem _ _ _ _ _ _ _].
  exists g', f. split; [exact Hp|]. split; [exact Hf|].
  rewrite (Hem f Hf). split.
  - intros j Hj. now apply list_lookup_alter_ne.
  - rewrite list_lookup_alter_eq.
    destruct (framebuffers (gl w) !! f) as [fb|]; split; reflexivity.
Qed.

(** X14.  The range setters store a NaN only when they are handed one: the
    narrowing of a [double] to [float] may round or overflow to an infinity,
    but yields a number for every number. *)
Theorem range_setters_store_numbers (w : GLWidget A) (d : spec_float) :
  ready w ->
  exists w1 w2,
    setSampleRangeStart d w = Some (tt, w1) /\
    setSampleRangeEnd d w = Some (tt, w2) /\
    F32.is_nan (sampleRangeStart w1) = F32.is_nan d /\
    F32.is_nan (sampleRangeEnd w2) = F32.is_nan d.
Proof.
  intros Hr. rewrite setSampleRangeStart_spec, setSampleRangeEnd_spec.
  destruct (repaint_ok (set_sampleRangeStart (F32.of_double d) w)) as (g1 & -> & _ & _);
    [revert Hr; apply ready_members; reflexivity|].
  destruct (repaint_ok (set_sampleRangeEnd (F32.of_double d) w)) as (g2 & -> & _ & _);
    [revert Hr; apply ready_members; reflexivity|].
  eexists _, _. split; [reflexivity|]. split; [reflexivity|].
  change (sampleRangeStart (set_gl g1 _)) with (F32.of_double d).
  change (sampleRangeEnd (set_gl g2 _)) with (F32.of_double d).
  assert (Hn : F32.is_nan (F32.of_double d) = F32.is_nan d).
  { destruct d as [s|s| |s m e]; try reflexivity. apply binary_round_not_nan. }
  split; exact Hn.
Qed.

Lemma repaint_textures (w : GLWidget A) :
  ready w ->
  exists w', repaint w = Some (tt, w') /\ ready w' /\ textures (gl w') = textures (gl w).
Proof.
  intros Hr. destruct (repaint_ok w Hr) as (g' & -> & Hp & Hr').
  eexists; split; [reflexivity|]. split; [exact Hr'|].
  change (gl (set_gl g' w)) with g'.
  destruct Hr as (_ & Hbf & _).
  unfold painted in Hp. destruct (volume w).
  - destruct Hp as (d1 & d2 & [_ _ _ Htx _ _ _ _ _ _ _ _]). exact Htx.
  - subst g'. destruct w as [[] ]; simpl in *. subst.
    unfold cleared_only. cbn [gl]. now rewrite glClearColor_mk, glClear_default_mk.
Qed.

Lemma handle_textures (ev : Event) (w : GLWidget A) :
  ready w -> deliverable ev ->
  exists w' new,
    handle ev w = Some (tt, w') /\ ready w' /\
    textures (gl w') = textures (gl w) ++ new /\ length new = textures_created ev.
Proof.
  intros Hr Hd.
  assert (Hrep : forall (w1 : GLWidget A) new,
            ready w1 -> textures (gl w1) = textures (gl w) ++ new ->
            exists w' new', repaint w1 = Some (tt, w') /\ ready w' /\
              textures (gl w') = textures (gl w) ++ new' /\ length new' = length new).
  { intros w1 new Hr1 Ht1. destruct (repaint_textures w1 Hr1) as (w' & Hw' & Hr' & Ht').
    exists w', new. rewrite Ht', Ht1. auto. }
  assert (Hsame : forall w1 : GLWidget A,
            ready w1 -> textures (gl w1) = textures (gl w) ->
            exists w' new', repaint w1 = Some (tt, w') /\ ready w' /\
              textures (gl w') = textures (gl w) ++ new' /\ length new' = 0%nat).
  { intros w1 Hr1 Ht1. apply (Hrep w1 []); [exact Hr1 | now rewrite app_nil_r]. }
  destruct ev as [|fw fh|[v|]|n|d|d|t|chosen|e|e|]; cbn [handle textures_created].
  - now apply Hsame.
  - unfold bind, modify. rewrite resizeGL_spec. eexists; exists []. split; [reflexivity|].
    split; [now apply ready_new_framebuffer, ready_set_size|].
    split; [|reflexivity]. rewrite app_nil_r. now destruct w.
  - rewrite dataLoaded_volume_spec. eexists; exists [volume_texture v]. split; [reflexivity|].
    split; [now apply ready_new_volume|]. split; reflexivity.
  - rewrite dataLoaded_null_spec. eexists; exists []. split; [reflexivity|].
    split; [now apply ready_no_volume|]. split; [|reflexivity].
    rewrite app_nil_r. now destruct w.
  - rewrite setNumSamples_spec. apply Hsame; [|reflexivity].
    revert Hr; apply ready_members; reflexivity.
  - rewrite setSampleRangeStart_spec. apply Hsame; [|reflexivity].
    revert Hr; apply ready_members; reflexivity.
  - rewrite setSampleRangeEnd_spec. apply Hsame; [|reflexivity].
    revert Hr; apply ready_members; reflexivity.
  - rewrite setTechnique_spec. apply Hsame; [|reflexivity].
    revert Hr; apply ready_members; reflexivity.
  - unfold loadTransferFunctionImage, bind. rewrite loadTransferFunction1DTex_spec.
    apply (Hrep _ [ramp_texture (QImage_load (files w) chosen)]);
      [now apply ready_new_ramp | reflexivity].
  - rewrite mousePressEvent_spec. eexists; exists []. split; [reflexivity|].
    split; [revert Hr; apply ready_members; reflexivity|]. split; [|reflexivity].
    rewrite app_nil_r. reflexivity.
  - rewrite mouseMoveEvent_spec. cbv zeta. apply Hsame; [|reflexivity].
    revert Hr; apply ready_members; reflexivity.
  - rewrite mouseReleaseEvent_spec. apply Hsame; [|reflexivity].
    revert Hr; apply ready_members; reflexivity.
Qed.

(** X15.  Texture objects are never deleted and never rewritten: after any
    sequence of events the textures that existed before are still there,
    unchanged and under the same names, followed by one new object for every
    volume handed over and every transfer-function load. *)
Theorem textures_only_accumulate (evs : list Event) (w : GLWidget A) :
  ready w -> Forall deliverable evs ->
  exists w' new,
    run evs w = Some (tt, w') /\
    textures (gl w') = textures (gl w) ++ new /\
    length new = sum_list_with textures_created evs.
Proof.
  revert w. induction evs as [|ev evs IH]; intros w Hr Hd.
  - exists w, []. split; [reflexivity|]. split; [now rewrite app_nil_r | reflexivity].
  - inversion Hd as [|? ? Hev Hevs]; subst.
    destruct (handle_textures ev w Hr Hev) as (w1 & new1 & Hw1 & Hr1 & Ht1 & Hn1).
    destruct (IH w1 Hr1 Hevs) as (w' & new & Hw' & Ht' & Hn').
    exists w', (new1 ++ new). cbn [run sum_list_with]. unfold bind. rewrite Hw1.
    split; [exact Hw'|]. split.
    + now rewrite Ht', Ht1, app_assoc.
    + rewrite length_app. lia.
Qed.

Lemma rotating_move (w : GLWidget A) (e : QMouseEvent) :
  ready w -> rotates e = true ->
  exists w',
    mouseMoveEvent e w = Some (tt, w') /\ ready w' /\
    volumeRotAngleX w'
      = rotateX (Int32.sub (py (pos e)) (py (lastMousePos w))) (volumeRotAngleX w) /\
    volumeRotAngleY w'
      = rotateY (Int32.sub (px (pos e)) (px (lastMousePos w))) (volumeRotAngleY w) /\
    viewOffset w' = viewOffset w /\
    lastMousePos w' = pos e.
Proof.
  intros Hr He. rewrite mouseMoveEvent_spec. cbv zeta. unfold rotates in He.
  destruct (testFlag (buttons e) LeftButton); [|discriminate].
  destruct (testFlag (modifiers e) AltModifier); [discriminate|].
  destruct (testFlag (modifiers e) ControlModifier); [discriminate|].
  cbn [andb negb].
  match goal with |- context [repaint ?w1] =>
    destruct (repaint_ok w1) as (g' & -> & _ & Hr');
      [revert Hr; apply ready_members; reflexivity|]
  end.
  eexists; split; [reflexivity|]. split; [exact Hr'|]. repeat split.
Qed.

End Further.

Lemma wrap_add_l (a b : Z) : Int32.wrap (Int32.wrap a + b) = Int32.wrap (a + b).
Proof.
  unfold Int32.wrap. f_equal.
  replace ((a + Int32.half_modulus) mod Int32.modulus - Int32.half_modulus + b
           + Int32.half_modulus)
    with ((a + Int32.half_modulus) mod Int32.modulus + b) by ring.
  rewrite Zplus_mod_idemp_l. f_equal. ring.
Qed.

Lemma wrap_add_r (a b : Z) : Int32.wrap (a + Int32.wrap b) = Int32.wrap (a + b).
Proof. now rewrite Z.add_comm, wrap_add_l, Z.add_comm. Qed.

(** X16.  With [int] angles the vertical rotation saturates: when the angle is
    within [-90, 90] and the sum does not overflow, a rotating drag by [dy]
    leaves the angle plus [dy], cut to [-90, 90]. *)
Theorem rotateX_int_saturates (dy ax : Z) :
  -90 <= ax <= 90 -> Int32.in_range (ax + dy) ->
  rotateX (H:=int_scalar) dy ax = Z.max (-90) (Z.min 90 (ax + dy)).
Proof.
  intros Hax Hin. unfold rotateX. cbn [of_int s_add s_ltb s_gtb int_scalar].
  unfold Int32.add. rewrite (wrap_in_range _ Hin).
  destruct (Z.gtb_spec dy 0), (Z.ltb_spec ax 90), (Z.ltb_spec dy 0), (Z.gtb_spec ax (-90));
    cbn [andb orb];
  repeat match goal with
         | |- context [?a <? ?b] => destruct (Z.ltb_spec a b)
         | |- context [?a >? ?b] => destruct (Z.gtb_spec a b)
         end; cbn [andb orb]; lia.
Qed.

(** X17.  With [int] angles the horizontal rotation does not depend on the path
    of the drag: after any number of rotating moves the angle is the starting
    angle plus the horizontal distance between the last position and the
    anchor, reduced to 32 bits. *)
Theorem rotateY_int_path_independent
    (moves : list QMouseEvent) (e : QMouseEvent) (w : GLWidget Z) :
  ready w -> forallb rotates moves = true -> rotates e = true ->
  exists w',
    run (MouseMove <$> moves ++ [e]) w = Some (tt, w') /\
    volumeRotAngleY w'
      = Int32.wrap (volumeRotAngleY w + (px (pos e) - px (lastMousePos w))).
Proof.
  revert w. induction moves as [|e1 moves IH]; intros w Hr Hms He.
  - destruct (rotating_move w e Hr He) as (w' & Hw' & _ & _ & Hy & _).
    exists w'. cbn [app fmap list_fmap run handle]. unfold bind. rewrite Hw'.
    split; [reflexivity|]. rewrite Hy. unfold rotateY.
    cbn [of_int s_add int_scalar]. unfold Int32.add, Int32.sub. apply wrap_add_r.
  - cbn [forallb] in Hms. apply andb_prop in Hms as [He1 Hms].
    destruct (rotating_move w e1 Hr He1) as (w1 & Hw1 & Hr1 & _ & Hy1 & _ & Hl1).
    destruct (IH w1 Hr1 Hms He) as (w' & Hw' & Hy').
    exists w'. change (MouseMove <$> (e1 :: moves) ++ [e])
      with (MouseMove e1 :: (MouseMove <$> moves ++ [e])).
    cbn [run handle]. unfold bind at 1. rewrite Hw1. split; [exact Hw'|].
    rewrite Hy', Hy1, Hl1. unfold rotateY. cbn [of_int s_add int_scalar].
    unfold Int32.add, Int32.sub. rewrite wrap_add_r, wrap_add_l. f_equal. ring.
Qed.

(** X18.  Zooming and panning do not disturb each other: on an offset within
    its ranges, [pan] returns the distance it was given, and [zoom] returns
    pan coordinates that compare equal to the ones it was given. *)
Theorem zoom_and_pan_independent (dx dy : Z) (v : QVector3D) :
  offset_in_range v ->
  zp (pan dx dy v) = zp v /\
  SFeqb (xp (zoom dy v)) (xp v) = true /\
  SFeqb (yp (zoom dy v)) (yp v) = true.
Proof.
  intros (Hx & Hy & Hz).
  assert (Hkeep : forall x, F32.between (F32.of_int (-1)) (F32.of_int 1) x = true ->
                  SFeqb (F32.add x (S754_zero false)) x = true).
  { intros x Hb. destruct x as [s|s| |s m e].
    - now destruct s.
    - destruct s; vm_compute in Hb; discriminate.
    - vm_compute in Hb; discriminate.
    - change (F32.add (S754_finite s m e) (S754_zero false)) with (S754_finite s m e).
      unfold SFeqb. simpl. rewrite Z.compare_refl, Pos.compare_cont_refl.
      now destruct s. }
  destruct (pan_components dx dy v) as (_ & _ & ->).
  destruct (zoom_components dy v) as (-> & -> & _).
  split; [|split; apply Hkeep; assumption].
  destruct (zp v) as [s|s| |s m e]; try reflexivity.
  destruct s; vm_compute in Hz; discriminate.
Qed.

Lemma channel_below_one (c : Z) :
  0 <= c <= 255 -> F32.ltb (F32.div (F32.of_int c) F32.lit_256) F32.one = true.
Proof.
  intros Hc.
  assert (Hall : forallb (fun c => F32.ltb (F32.div (F32.of_int c) F32.lit_256) F32.one)
                         (seqZ 0 256) = true) by (vm_compute; reflexivity).
  rewrite forallb_forall in Hall. apply Hall.
  apply list_elem_of_In, elem_of_seqZ. lia.
Qed.

(** X19.  No background colour gives a frame cleared to full intensity: for
    every colour with 8-bit channels, the colour under the frame [paintGL]
    leaves in the widget's framebuffer, cleared only without a volume and
    drawn over with one, has each colour channel below 1.0f and alpha 1.0f. *)
Theorem paintGL_clears_below_full_intensity {A : Type} `{Scalar A} (w : GLWidget A) :
  ready w ->
  0 <= red (backgroundColor w) <= 255 ->
  0 <= green (backgroundColor w) <= 255 ->
  0 <= blue (backgroundColor w) <= 255 ->
  exists w' c,
    paintGL w = Some (tt, w') /\
    (default_framebuffer (gl w') = Cleared c \/
     exists d, default_framebuffer (gl w') = Drawn (Cleared c) d) /\
    F32.ltb (ch_r c) F32.one = true /\
    F32.ltb (ch_g c) F32.one = true /\
    F32.ltb (ch_b c) F32.one = true /\
    ch_a c = F32.one.
Proof.
  intros Hrd Hr Hg Hb. destruct (paintGL_spec w Hrd) as (g' & Hp & Hpaint).
  exists (set_gl g' w), (background w). split; [exact Hp|].
  change (gl (set_gl g' w)) with g'. split.
  - unfold painted in Hpaint. destruct (volume w).
    + destruct Hpaint as (d1 & d2 & [_ _ _ _ _ Hvis _ _ _ _ _ _]). right. eauto.
    + left. subst g'. destruct Hrd as (_ & Hbf & _).
      destruct w as [[] ]; simpl in *. subst.
      unfold cleared_only. cbn [gl]. now rewrite glClearColor_mk, glClear_default_mk.
  - unfold background. cbn [ch_r ch_g ch_b ch_a].
    repeat split; now apply channel_below_one.
Qed.

(** * The further properties at concrete inputs *)

Lemma paintGL_without_volume_witness :
  session sample_config [Resize 640 0] = Some (tt, collapsed) /\
  volume collapsed = None /\
  height collapsed = 0 /\
  exists w', paintGL collapsed = Some (tt, w') /\
             clear_color (gl w') = background collapsed /\
             draw_log (gl w') = draw_log (gl collapsed).
Proof.
  assert (Hs : session sample_config [Resize 640 0] = Some (tt, collapsed))
    by (vm_compute; reflexivity).
  assert (Hv : volume collapsed = None) by (vm_compute; reflexivity).
  assert (Hh : height collapsed = 0) by (vm_compute; reflexivity).
  split; [exact Hs | split; [exact Hv | split; [exact Hh |]]].
  destruct (paintGL_without_volume sample_config [Resize 640 0] collapsed Hs Hv)
    as (w' & Hp & _ & Hc & Hl & _).
  exists w'. split; [exact Hp | split; [exact Hc | exact Hl]].
Defined.

Lemma paint_after_resize_fails_iff_height_0_witness :
  ready loaded /\ volume loaded = Some sample_volume /\ 0 <= 0 /\
  exists w1,
    handle (Resize 640 0) loaded = Some (tt, w1) /\
    height w1 = 0 /\
    paintGL w1 = None.
Proof.
  assert (Hr : ready loaded) by ready_by_computation.
  assert (Hv : volume loaded = Some sample_volume) by (vm_compute; reflexivity).
  assert (Hz : 0 <= 0) by lia.
  split; [exact Hr | split; [exact Hv | split; [exact Hz |]]].
  destruct (paint_after_resize_fails_iff_height_0 loaded sample_volume 640 0 Hr Hv Hz)
    as (w1 & Hh & _ & Hh1 & Hiff).
  exists w1. split; [exact Hh | split; [exact Hh1 | exact (proj2 Hiff eq_refl)]].
Defined.

Lemma both_passes_share_transform_witness :
  ready loaded /\ volume loaded = Some sample_volume /\
  exists g' (d1 d2 : DrawCall Z) (m : Transform Z),
    paintGL loaded = Some (tt, set_gl g' loaded) /\
    dc_uniforms d1 !! "modelViewProjMat" = Some (UMat4 m) /\
    dc_uniforms d2 !! "modelViewProjMat" = Some (UMat4 m) /\
    aspect m = Int32.wrap (Z.quot (width loaded) (height loaded)).
Proof.
  assert (Hr : ready loaded) by ready_by_computation.
  assert (Hv : volume loaded = Some sample_volume) by (vm_compute; reflexivity).
  split; [exact Hr | split; [exact Hv |]].
  destruct (both_passes_share_transform loaded sample_volume Hr Hv)
    as (g' & d1 & d2 & m & Hp & _ & _ & H1 & H2 & _ & _ & _ & _ & _ & Ha & _).
  exists g', d1, d2, m. split; [exact Hp | split; [exact H1 | split; [exact H2 | exact Ha]]].
Defined.

Lemma setTechnique_flags_witness :
  ready loaded /\ volume loaded = Some sample_volume /\
  exists w' (d2 : DrawCall Z) a g,
    setTechnique ALPHA loaded = Some (tt, w') /\
    dc_uniforms d2 !! "alphaTech" = Some (UBool a) /\
    dc_uniforms d2 !! "avgTech" = Some (UBool g) /\
    (a, g) = (true, false).
Proof.
  assert (Hr : ready loaded) by ready_by_computation.
  assert (Hv : volume loaded = Some sample_volume) by (vm_compute; reflexivity).
  split; [exact Hr | split; [exact Hv |]].
  destruct (setTechnique_flags loaded sample_volume ALPHA Hr Hv)
    as (w' & d2 & a & g & Hs & _ & _ & Ha & Hg & Hag & _).
  exists w', d2, a, g. split; [exact Hs | split; [exact Ha | split; [exact Hg | exact Hag]]].
Defined.

Lemma dataLoaded_then_paint_samples_volume_witness :
  ready loaded /\
  exists w1 g' (d2 : DrawCall Z) t,
    dataLoaded (Some sample_volume) loaded = Some (tt, w1) /\
    volume3DTex w1 = Some t /\
    textures (gl loaded) !! t = None /\
    paintGL w1 = Some (tt, set_gl g' w1) /\
    dc_samplers d2 !! (2%nat, Target3D)
      = Some (Uploaded (VolumeData GL_RGB 2 2 2 GL_LUMINANCE GL_FLOAT
                                   (replicate 8 F32.one))).
Proof.
  assert (Hr : ready loaded) by ready_by_computation.
  split; [exact Hr |].
  destruct (dataLoaded_then_paint_samples_volume loaded sample_volume Hr)
    as (w1 & g' & d2 & t & Hd & _ & Ht & Hn & _ & _ & Hp & _ & _ & _ & Hs).
  exists w1, g', d2, t.
  split; [exact Hd | split; [exact Ht | split; [exact Hn | split; [exact Hp | exact Hs]]]].
Defined.

Lemma resizes_accumulate_framebuffers_witness :
  [(800, 600); (1024, 768)] <> [] /\
  exists w',
    run ((fun s => Resize (fst s) (snd s)) <$> [(800, 600); (1024, 768)]) loaded
      = Some (tt, w') /\
    rayVolumeExitPosMapFramebuffer w'
      = Some (length (framebuffers (gl loaded)) + length [(800, 600); (1024, 768)] - 1)%nat.
Proof.
  assert (Hne : [(800, 600); (1024, 768)] <> []) by discriminate.
  split; [exact Hne |].
  destruct (resizes_accumulate_framebuffers [(800, 600); (1024, 768)] loaded)
    as (w' & Hw & _ & Hlast).
  exists w'. split; [exact Hw | exact (proj1 (Hlast Hne))].
Defined.

Lemma hover_forgets_sample_count_witness :
  ready loaded /\ buttons (mkMouse (mkPoint 5 5) 0 0) = 0 /\
  exists w',
    run ([SetNumSamples 200; MouseMove (mkMouse (mkPoint 5 5) 0 0);
          MousePress (mkMouse (mkPoint 5 5) LeftButton 0)]
           ++ (MouseMove <$> [mkMouse (mkPoint 9 9) LeftButton 0]) ++ [MouseRelease]) loaded
      = Some (tt, w') /\
    numSamples w' = tmpNumSamples loaded.
Proof.
  assert (Hr : ready loaded) by ready_by_computation.
  assert (Hb : buttons (mkMouse (mkPoint 5 5) 0 0) = 0) by reflexivity.
  split; [exact Hr | split; [exact Hb |]].
  exact (hover_forgets_sample_count loaded 200 (mkMouse (mkPoint 5 5) 0 0)
           (mkMouse (mkPoint 5 5) LeftButton 0) [mkMouse (mkPoint 9 9) LeftButton 0] Hr Hb).
Defined.

Lemma alt_wins_over_control_witness :
  ready loaded /\
  testFlag (buttons (mkMouse (mkPoint 0 80) LeftButton (Z.lor AltModifier ControlModifier)))
           LeftButton = true /\
  testFlag (modifiers (mkMouse (mkPoint 0 80) LeftButton (Z.lor AltModifier ControlModifier)))
           AltModifier = true /\
  exists w',
    mouseMoveEvent (mkMouse (mkPoint 0 80) LeftButton (Z.lor AltModifier ControlModifier))
                   loaded = Some (tt, w') /\
    volumeRotAngleX w' = volumeRotAngleX loaded /\
    volumeRotAngleY w' = volumeRotAngleY loaded.
Proof.
  assert (Hr : ready loaded) by ready_by_computation.
  assert (H1 : testFlag (buttons (mkMouse (mkPoint 0 80) LeftButton
                                    (Z.lor AltModifier ControlModifier))) LeftButton = true)
    by (vm_compute; reflexivity).
  assert (H2 : testFlag (modifiers (mkMouse (mkPoint 0 80) LeftButton
                                      (Z.lor AltModifier ControlModifier))) AltModifier = true)
    by (vm_compute; reflexivity).
  split; [exact Hr | split; [exact H1 | split; [exact H2 |]]].
  destruct (alt_wins_over_control loaded _ Hr H1 H2) as (w' & Hm & _ & Hx & Hy).
  exists w'. split; [exact Hm | split; [exact Hx | exact Hy]].
Defined.

Lemma other_buttons_leave_view_witness :
  ready loaded /\ Z.land (buttons (mkMouse (mkPoint 3 4) 2 ControlModifier)) LeftButton = 0 /\
  exists w',
    mouseMoveEvent (mkMouse (mkPoint 3 4) 2 ControlModifier) loaded = Some (tt, w') /\
    viewOffset w' = viewOffset loaded /\
    numSamples w' = 5.
Proof.
  assert (Hr : ready loaded) by ready_by_computation.
  assert (Hb : Z.land (buttons (mkMouse (mkPoint 3 4) 2 ControlModifier)) LeftButton = 0)
    by reflexivity.
  split; [exact Hr | split; [exact Hb |]].
  destruct (other_buttons_leave_view loaded _ Hr Hb) as (w' & Hm & Hv & _ & _ & Hn & _).
  exists w'. split; [exact Hm | split; [exact Hv | exact Hn]].
Defined.

Lemma initializeGL_establishes_witness :
  cfg_files sample_config !! "../transferfunctions/tff_flame.png" = None /\
  exists w : GLWidget Z,
    initializeGL (constructed sample_config) = Some (tt, w) /\
    tex_data <$> textures (gl w) !! 0%nat = Some NoData /\
    volume w = None.
Proof.
  assert (Hf : cfg_files sample_config !! "../transferfunctions/tff_flame.png" = None)
    by (vm_compute; reflexivity).
  split; [exact Hf |].
  destruct (initializeGL_establishes (A:=Z) sample_config)
    as (w & fb & Hw & _ & _ & _ & _ & _ & _ & _ & Hnd & _ & _ & _ & _ & _ & _ & Hv & _).
  exists w. split; [exact Hw | split; [exact (Hnd Hf) | exact Hv]].
Defined.

Lemma session_never_fails_witness :
  cfg_height sample_config <> 0 /\
  Forall deliverable [Resize 300 200; DataLoaded (Some sample_volume); DataLoaded None;
                      LoadTransferFunctionImage "missing.png"; Paint] /\
  exists w : GLWidget F32.t,
    session sample_config
      [Resize 300 200; DataLoaded (Some sample_volume); DataLoaded None;
       LoadTransferFunctionImage "missing.png"; Paint] = Some (tt, w) /\
    ready w.
Proof.
  assert (Hh : cfg_height sample_config <> 0) by (vm_compute; discriminate).
  assert (Hd : Forall deliverable
                 [Resize 300 200; DataLoaded (Some sample_volume); DataLoaded None;
                  LoadTransferFunctionImage "missing.png"; Paint]).
  { repeat constructor. cbn. lia. }
  split; [exact Hh | split; [exact Hd |]].
  exact (session_never_fails sample_config _ Hh Hd).
Defined.

Lemma repaint_allocates_nothing_witness :
  ready loaded /\
  exists w',
    repaint loaded = Some (tt, w') /\
    viewOffset w' = viewOffset loaded /\
    textures (gl w') = textures (gl loaded) /\
    length (framebuffers (gl w')) = length (framebuffers (gl loaded)).
Proof.
  assert (Hr : ready loaded) by ready_by_computation.
  split; [exact Hr |].
  destruct (repaint_allocates_nothing loaded Hr)
    as (w' & Hp & _ & _ & (_ & _ & _ & Ho) & _ & Ht & Hf & _).
  exists w'. split; [exact Hp | split; [exact Ho | split; [exact Ht | exact Hf]]].
Defined.

Lemma paint_writes_current_exit_map_only_witness :
  ready loaded /\ volume loaded = Some sample_volume /\
  exists g' f,
    paintGL loaded = Some (tt, set_gl g' loaded) /\
    rayVolumeExitPosMapFramebuffer loaded = Some f /\
    (forall j, j <> f -> framebuffers g' !! j = framebuffers (gl loaded) !! j).
Proof.
  assert (Hr : ready loaded) by ready_by_computation.
  assert (Hv : volume loaded = Some sample_volume) by (vm_compute; reflexivity).
  split; [exact Hr | split; [exact Hv |]].
  destruct (paint_writes_current_exit_map_only loaded sample_volume Hr Hv)
    as (g' & f & Hp & Hf & Ho & _).
  exists g', f. split; [exact Hp | split; [exact Hf | exact Ho]].
Defined.

Lemma range_setters_store_numbers_witness :
  ready loaded /\
  exists w1 w2,
    setSampleRangeStart (S754_infinity false) loaded = Some (tt, w1) /\
    setSampleRangeEnd (S754_infinity false) loaded = Some (tt, w2) /\
    F32.is_nan (sampleRangeStart w1) = F32.is_nan (S754_infinity false) /\
    F32.is_nan (sampleRangeEnd w2) = F32.is_nan (S754_infinity false).
Proof.
  assert (Hr : ready loaded) by ready_by_computation.
  split; [exact Hr |].
  exact (range_setters_store_numbers loaded (S754_infinity false) Hr).
Defined.

Lemma textures_only_accumulate_witness :
  ready loaded /\
  Forall deliverable [DataLoaded (Some sample_volume);
                      LoadTransferFunctionImage "ramp.png"; Paint] /\
  exists w' new,
    run [DataLoaded (Some sample_volume); LoadTransferFunctionImage "ramp.png"; Paint] loaded
      = Some (tt, w') /\
    textures (gl w') = textures (gl loaded) ++ new /\
    length new = 2%nat.
Proof.
  assert (Hr : ready loaded) by ready_by_computation.
  assert (Hd : Forall deliverable [DataLoaded (Some sample_volume);
                                   LoadTransferFunctionImage "ramp.png"; Paint])
    by (repeat constructor).
  split; [exact Hr | split; [exact Hd |]].
  exact (textures_only_accumulate _ loaded Hr Hd).
Defined.

Lemma rotateX_int_saturates_witness :
  -90 <= 10 <= 90 /\ Int32.in_range (10 + 200) /\
  rotateX (H:=int_scalar) 200 10 = 90.
Proof.
  assert (Ha : -90 <= 10 <= 90) by lia.
  assert (Hi : Int32.in_range (10 + 200)).
  { unfold Int32.in_range, Int32.half_modulus. change (2 ^ 31) with 2147483648. lia. }
  split; [exact Ha | split; [exact Hi |]].
  exact (rotateX_int_saturates 200 10 Ha Hi).
Defined.

Lemma rotateY_int_path_independent_witness :
  ready loaded /\
  forallb rotates [mkMouse (mkPoint 40 7) LeftButton 0;
                   mkMouse (mkPoint (-300) 90) LeftButton 0] = true /\
  rotates (mkMouse (mkPoint 25 0) LeftButton 0) = true /\
  exists w',
    run (MouseMove <$> [mkMouse (mkPoint 40 7) LeftButton 0;
                        mkMouse (mkPoint (-300) 90) LeftButton 0]
                       ++ [mkMouse (mkPoint 25 0) LeftButton 0]) loaded = Some (tt, w') /\
    volumeRotAngleY w'
      = Int32.wrap (volumeRotAngleY loaded
                    + (px (pos (mkMouse (mkPoint 25 0) LeftButton 0))
                       - px (lastMousePos loaded))).
Proof.
  assert (Hr : ready loaded) by ready_by_computation.
  assert (Hm : forallb rotates [mkMouse (mkPoint 40 7) LeftButton 0;
                                mkMouse (mkPoint (-300) 90) LeftButton 0] = true)
    by (vm_compute; reflexivity).
  assert (He : rotates (mkMouse (mkPoint 25 0) LeftButton 0) = true)
    by (vm_compute; reflexivity).
  split; [exact Hr | split; [exact Hm | split; [exact He |]]].
  exact (rotateY_int_path_independent _ _ loaded Hr Hm He).
Defined.

Lemma zoom_and_pan_independent_witness :
  offset_in_range (mkVec3 (F32.of_int 0) (F32.of_int 0) F32.lit_1_8) /\
  zp (pan 7 (-3) (mkVec3 (F32.of_int 0) (F32.of_int 0) F32.lit_1_8)) = F32.lit_1_8 /\
  SFeqb (xp (zoom 12 (mkVec3 (F32.of_int 0) (F32.of_int 0) F32.lit_1_8))) (F32.of_int 0)
    = true.
Proof.
  assert (Ho : offset_in_range (mkVec3 (F32.of_int 0) (F32.of_int 0) F32.lit_1_8))
    by (repeat split; vm_compute; reflexivity).
  split; [exact Ho |].
  destruct (zoom_and_pan_independent 7 (-3) _ Ho) as (Hz & _).
  destruct (zoom_and_pan_independent 0 12 _ Ho) as (_ & Hx & _).
  split; [exact Hz | exact Hx].
Defined.

Lemma paintGL_clears_below_full_intensity_witness :
  ready shown /\
  0 <= red (backgroundColor shown) <= 255 /\
  0 <= green (backgroundColor shown) <= 255 /\
  0 <= blue (backgroundColor shown) <= 255 /\
  exists w' c,
    paintGL shown = Some (tt, w') /\
    (default_framebuffer (gl w') = Cleared c \/
     exists d, default_framebuffer (gl w') = Drawn (Cleared c) d) /\
    F32.ltb (ch_r c) F32.one = true /\
    F32.ltb (ch_g c) F32.one = true /\
    F32.ltb (ch_b c) F32.one = true /\
    ch_a c = F32.one.
Proof.
  assert (Hrd : ready shown) by ready_by_computation.
  assert (Hr : 0 <= red (backgroundColor shown) <= 255) by (vm_compute; split; discriminate).
  assert (Hg : 0 <= green (backgroundColor shown) <= 255)
    by (vm_compute; split; discriminate).
  assert (Hb : 0 <= blue (backgroundColor shown) <= 255) by (vm_compute; split; discriminate).
  split; [exact Hrd | split; [exact Hr | split; [exact Hg | split; [exact Hb |]]]].
  exact (paintGL_clears_below_full_intensity shown Hrd Hr Hg Hb).
Defined.
